(** * TimeTrackingBolt: the week view model, the entry lifecycle and the
      authorization gate, embedded from the TypeScript sources.

    Source files embedded here:
    - components/TimeTracking.tsx  (calculateHours, saveTimeEntry,
      deleteTimeEntry, fetchData, getEntriesForDay, getTotalHoursForDay,
      startNewEntry, the week buttons, TimeEntryCard, NewEntryForm)
    - components/Projects.tsx      (the page and its two forms)
    - components/AuthForm.tsx, App.tsx, components/Layout.tsx
    - hooks/useAuth.ts             (signIn, signOut, the session check
      and the listener)

    Modelling conventions.
    - A JS [number] is a binary64 value: a finite one is kept as the
      rational it denotes, and every arithmetic operation rounds its
      exact result to the nearest such value ([round64]).
    - A JS [Date] is read in two ways.  In [DateFns], which the
      components below are written over, it is its local time value, the
      milliseconds elapsed since 1970-01-01T00:00 on the local clock, in
      an environment whose UTC offset is one constant [tz].  In [Zoned]
      it is the engine's time value, an instant, and the local clock
      follows time-zone rules with changes of offset; the week
      boundaries, the week buttons and the day columns are studied
      there, and the two readings are proved to agree where the offset
      never changes.
    - date-fns and the hosted backend are not part of the repository;
      they are modelled at the calls the components make.
    - The hosted backend is a record of tables; each request either fails
      (an oracle decides) and leaves the tables as they are, or is applied.
    - An awaited call runs to its end before its caller goes on, one
      user action at a time; the two calls the projects page starts
      without awaiting them send their requests first and handle the
      answers in the order they arrive. *)

From Stdlib Require Import ZArith QArith Qabs List String Ascii Bool Lia.
From Stdlib Require Import Floats.SpecFloat.
Import ListNotations.

#[local] Open Scope string_scope.
#[local] Open Scope Z_scope.

(* ------------------------------------------------------------------ *)
(** ** JS numbers *)

(** A JS number is an IEEE 754 binary64 value.  A finite value is kept as
    the rational it denotes, beside the two infinities and NaN; -0 is
    not told apart from 0 (they differ under [1/x] and in printing
    only, which the components do not do with a computed zero). *)
Inductive number : Type :=
| Num (q : Q)
| Infinity (negative : bool)
| NaN.

(** 2^e as a rational. *)
Definition pow2 (e : Z) : Q :=
  match e with
  | Z0 => 1%Q
  | Zpos _ => inject_Z (2 ^ e)
  | Zneg p => (1 # (2 ^ p))%Q
  end.

(** The number a binary64 datum of the standard library's specification
    of floating-point arithmetic stands for; a finite one is
    [(-1)^s * m * 2^e], written in lowest terms. *)
Definition number_of_binary64 (f : spec_float) : number :=
  match f with
  | S754_zero _ => Num 0
  | S754_infinity s => Infinity s
  | S754_nan => NaN
  | S754_finite s m e =>
      Num (Qred (inject_Z (if s then Zneg m else Zpos m) * pow2 e))
  end.

(** The binary64 value nearest to a rational, ties to the even
    significand, overflow to infinity: the rounding every arithmetic
    operation of the language applies to its exact result.  It is the
    correctly rounded quotient of numerator by denominator, computed by
    the division of the specification with 53 bits of precision and
    exponents up to 1024. *)
Definition round64 (q : Q) : number :=
  match Qnum q with
  | Z0 => Num 0
  | Zpos n =>
      number_of_binary64
        (SFdiv 53 1024 (S754_finite false n 0) (S754_finite false (Qden q) 0))
  | Zneg n =>
      number_of_binary64
        (SFdiv 53 1024 (S754_finite true n 0) (S754_finite false (Qden q) 0))
  end.

Definition Qnegative (q : Q) : bool := Qnum q <? 0.
Definition Qzero (q : Q) : bool := Qnum q =? 0.

(** [a + b]: the exact sum, rounded; opposite infinities give NaN. *)
Definition num_add (a b : number) : number :=
  match a, b with
  | Num x, Num y => round64 (x + y)
  | Infinity s, Infinity t => if Bool.eqb s t then Infinity s else NaN
  | Infinity s, Num _ => Infinity s
  | Num _, Infinity t => Infinity t
  | _, _ => NaN
  end.

(** [a - b] *)
Definition num_sub (a b : number) : number :=
  match a, b with
  | Num x, Num y => round64 (x - y)
  | Infinity s, Infinity t => if Bool.eqb s t then NaN else Infinity s
  | Infinity s, Num _ => Infinity s
  | Num _, Infinity t => Infinity (negb t)
  | _, _ => NaN
  end.

(** [a * b] *)
Definition num_mul (a b : number) : number :=
  match a, b with
  | Num x, Num y => round64 (x * y)
  | Infinity s, Infinity t => Infinity (xorb s t)
  | Infinity s, Num y =>
      if Qzero y then NaN else Infinity (xorb s (Qnegative y))
  | Num x, Infinity t =>
      if Qzero x then NaN else Infinity (xorb (Qnegative x) t)
  | _, _ => NaN
  end.

(** [a / b]; a zero divisor gives an infinity, or NaN under a zero. *)
Definition num_div (a b : number) : number :=
  match a, b with
  | Num x, Num y =>
      if Qzero y
      then (if Qzero x then NaN else Infinity (Qnegative x))
      else round64 (x / y)
  | Infinity s, Num y => Infinity (xorb s (Qnegative y))
  | Num _, Infinity _ => Num 0
  | _, _ => NaN
  end.

(** Numeric equality of two numbers (NaN only relates to itself here: it
    is the same outcome, not JS [===]). *)
Definition num_eq (a b : number) : Prop :=
  match a, b with
  | Num x, Num y => (x == y)%Q
  | Infinity s, Infinity t => s = t
  | NaN, NaN => True
  | _, _ => False
  end.

(** [a <= b] *)
Definition num_le (a b : number) : Prop :=
  match a, b with
  | Num x, Num y => (x <= y)%Q
  | Infinity s, Infinity t => s = true \/ t = false
  | Infinity s, Num _ => s = true
  | Num _, Infinity t => t = false
  | _, _ => False
  end.

(* ------------------------------------------------------------------ *)
(** ** The date library (date-fns) at the calls the components make *)

Module DateFns.

(** A valid date, as its local time value: the milliseconds elapsed
    since 1970-01-01T00:00 on the local clock (the engine's
    [LocalTime(t)]), which determines the date where the offset of the
    local clock never changes.  JS's Invalid Date is [None] where it can
    occur. *)
Record Date : Type := mkDate {
  localTime : Z
}.

Definition millisecondsInMinute : Z := 60000.
Definition millisecondsInHour : Z := 3600000.
Definition millisecondsInDay : Z := 86400000.

(** The engine's [Day(t)] and [TimeWithinDay(t)]. *)
Definition dayNumber (d : Date) : Z := localTime d / millisecondsInDay.
Definition msOfDay (d : Date) : Z := localTime d mod millisecondsInDay.

(** The engine's [MakeDate(day, time)]. *)
Definition makeDate (day ms : Z) : Date :=
  mkDate (day * millisecondsInDay + ms).

(** [date.getTime()] in an environment whose UTC offset is [tz] ms. *)
Definition getTime (tz : Z) (d : Date) : Z := localTime d - tz.

(** [date.getDay()]: 0 is Sunday; 1970-01-01 was a Thursday. *)
Definition getDay (d : Date) : Z := (dayNumber d + 4) mod 7.

(** Calendar conversions (proleptic Gregorian), as the engine computes
    [getFullYear], [getMonth] and [getDate]. *)
Definition days_from_civil (y m d : Z) : Z :=
  let y' := if m <=? 2 then y - 1 else y in
  let era := y' / 400 in
  let yoe := y' - era * 400 in
  let mp := if m >? 2 then m - 3 else m + 9 in
  let doy := (153 * mp + 2) / 5 + d - 1 in
  let doe := yoe * 365 + yoe / 4 - yoe / 100 + doy in
  era * 146097 + doe - 719468.

Definition civil_from_days (n : Z) : Z * Z * Z :=
  let z := n + 719468 in
  let era := z / 146097 in
  let doe := z - era * 146097 in
  let yoe := (doe - doe / 1460 + doe / 36524 - doe / 146096) / 365 in
  let y := yoe + era * 400 in
  let doy := doe - (365 * yoe + yoe / 4 - yoe / 100) in
  let mp := (5 * doy + 2) / 153 in
  let d := doy - (153 * mp + 2) / 5 + 1 in
  let m := if mp <? 10 then mp + 3 else mp - 9 in
  (if m <=? 2 then y + 1 else y, m, d).

(** *** Decimal digits *)

Definition digit_char (d : Z) : ascii :=
  ascii_of_nat (48 + Z.to_nat d).

Definition digit_of (c : ascii) : option Z :=
  let n := Z.of_nat (nat_of_ascii c) in
  if (48 <=? n) && (n <=? 57) then Some (n - 48) else None.

(** [addLeadingZeros(n, 2)] for 0 <= n < 100. *)
Definition pad2 (n : Z) : string :=
  String (digit_char (n / 10)) (String (digit_char (n mod 10)) EmptyString).

(** [addLeadingZeros(n, 4)] for 0 <= n < 10000. *)
Definition pad4 (n : Z) : string :=
  pad2 (n / 100) ++ pad2 (n mod 100).

(** Reads [\d{2}] at the head of a string. *)
Definition two_digits (s : string) : option (Z * string) :=
  match s with
  | String a (String b r) =>
      match digit_of a, digit_of b with
      | Some x, Some y => Some (10 * x + y, r)
      | _, _ => None
      end
  | _ => None
  end.

(** *** parseISO

    The argument is split as the library splits it
    ([splitDateString]), and its time and time-zone parts are read as
    the library reads them.  The date part is modelled in the form
    [YYYY-MM-DD], the one form the component passes. *)

Definition is_dt_delim (c : ascii) : bool :=
  Ascii.eqb c "T" || Ascii.eqb c " ".

(** [dateString.split(/[T ]/)] *)
Fixpoint split_dt (s : string) : list string :=
  match s with
  | EmptyString => [EmptyString]
  | String c r =>
      if is_dt_delim c then EmptyString :: split_dt r
      else match split_dt r with
           | h :: t => String c h :: t
           | [] => [String c EmptyString]
           end
  end.

(** [/:/.test(s)] *)
Fixpoint has_colon (s : string) : bool :=
  match s with
  | EmptyString => false
  | String c r => Ascii.eqb c ":" || has_colon r
  end.

(** [s.split(/[Z ]/i)[0]]: what precedes the first [Z], [z] or blank. *)
Definition is_tz_delim (c : ascii) : bool :=
  Ascii.eqb c "Z" || Ascii.eqb c "z" || Ascii.eqb c " ".

Fixpoint before_tz_delim (s : string) : string :=
  match s with
  | EmptyString => EmptyString
  | String c r => if is_tz_delim c then EmptyString else String c (before_tz_delim r)
  end.

Fixpoint has_tz_delim (s : string) : bool :=
  match s with
  | EmptyString => false
  | String c r => is_tz_delim c || has_tz_delim r
  end.

(** [s.substr(n)] *)
Fixpoint drop (n : nat) (s : string) : string :=
  match n, s with
  | O, _ => s
  | S k, String _ r => drop k r
  | S _, EmptyString => EmptyString
  end.

(** The line terminators, which [.] in a regular expression does not
    match. *)
Definition is_line_terminator (c : ascii) : bool :=
  Ascii.eqb c "010" || Ascii.eqb c "013".

Fixpoint has_line_terminator (s : string) : bool :=
  match s with
  | EmptyString => false
  | String c r => is_line_terminator c || has_line_terminator r
  end.

(** The match of the pattern for a time zone, one of [Z], [+] and [-]
    and then any characters but line terminators up to the end of the
    string: the token runs to the end of the string from the first [Z],
    [+] or [-] that no line terminator follows. *)
Definition is_tz_start (c : ascii) : bool :=
  Ascii.eqb c "Z" || Ascii.eqb c "+" || Ascii.eqb c "-".

Fixpoint timezone_token (s : string) : option string :=
  match s with
  | EmptyString => None
  | String c r =>
      if is_tz_start c && negb (has_line_terminator r) then Some s
      else timezone_token r
  end.

(** [s.replace(pattern, "")] for a string pattern: its first occurrence
    is taken out. *)
Fixpoint remove_first (pattern s : string) : string :=
  if String.prefix pattern s then drop (String.length pattern) s
  else match s with
       | EmptyString => EmptyString
       | String c r => String c (remove_first pattern r)
       end.

Record DateStrings : Type := mkDateStrings {
  ds_date : option string;
  ds_time : option string;
  ds_timezone : option string
}.

(** The time and time-zone parts of a time string that is there and not
    empty. *)
Definition split_time (date : option string) (timeString : option string)
  : DateStrings :=
  match timeString with
  | None | Some EmptyString => mkDateStrings date None None
  | Some t =>
      match timezone_token t with
      | Some token => mkDateStrings date (Some (remove_first token t)) (Some token)
      | None => mkDateStrings date (Some t) None
      end
  end.

Definition splitDateString (dateString : string) : DateStrings :=
  match split_dt dateString with
  | [a] =>
      if has_colon a then split_time None (Some a)
      else if has_tz_delim a
           then split_time (Some (before_tz_delim dateString))
                           (Some (drop (String.length (before_tz_delim dateString))
                                       dateString))
           else split_time (Some a) None
  | [a; b] =>
      if has_colon a then split_time None (Some a)
      else if has_tz_delim a
           then split_time (Some (before_tz_delim dateString))
                           (Some (drop (String.length (before_tz_delim dateString))
                                       dateString))
           else split_time (Some a) (Some b)
  | _ => mkDateStrings None None None
  end.

(** **** The time part

    The pattern for a time is a unit for the hours and up to two more
    for minutes and seconds, each with or without a colon before it.  A
    unit is two digits and then, if a point or a comma follows, any
    number of further digits. *)
Record TimeUnit : Type := mkTimeUnit {
  unit_whole : Z;
  unit_fraction : list Z
}.

(** The digits at the head of a string, and what follows them. *)
Fixpoint leading_digits (s : string) : list Z * string :=
  match s with
  | EmptyString => ([], EmptyString)
  | String c r =>
      match digit_of c with
      | Some d => let '(ds, rest) := leading_digits r in (d :: ds, rest)
      | None => ([], s)
      end
  end.

Definition string_of_digits (ds : list Z) : string :=
  fold_right (fun d s => String (digit_char d) s) EmptyString ds.

(** The ways to cut a list in two, the longest first part first. *)
Fixpoint cuts {A : Type} (l : list A) : list (list A * list A) :=
  match l with
  | [] => [([], [])]
  | x :: r => map (fun pq => (x :: fst pq, snd pq)) (cuts r) ++ [([], l)]
  end.

Definition is_point (c : ascii) : bool :=
  Ascii.eqb c "." || Ascii.eqb c ",".

(** The ways a unit matches at the head of a string, in the order the
    matcher tries them: a fraction of as many digits as there are, then
    of fewer, then no fraction; each with what is left of the string. *)
Definition match_unit (s : string) : list (TimeUnit * string) :=
  match two_digits s with
  | None => []
  | Some (v, r) =>
      match r with
      | String c r' =>
          if is_point c
          then let '(ds, rest) := leading_digits r' in
               map (fun pq => (mkTimeUnit v (fst pq),
                               string_of_digits (snd pq) ++ rest))
                   (cuts ds)
               ++ [(mkTimeUnit v [], r)]
          else [(mkTimeUnit v [], r)]
      | EmptyString => [(mkTimeUnit v [], r)]
      end
  end.

(** An optional group [(?::?(unit))?]: with the colon, without it, or
    not at all. *)
Definition match_optional_unit (s : string) : list (option TimeUnit * string) :=
  (match s with
   | String ":" r => map (fun uq => (Some (fst uq), snd uq)) (match_unit r)
   | _ => []
   end)
  ++ map (fun uq => (Some (fst uq), snd uq)) (match_unit s)
  ++ [(None, s)].

(** The first way in which the whole string matches. *)
Definition match_time (s : string)
  : option (TimeUnit * option TimeUnit * option TimeUnit) :=
  hd_error
    (flat_map
       (fun hr : TimeUnit * string =>
          flat_map
            (fun mr : option TimeUnit * string =>
               flat_map
                 (fun sr : option TimeUnit * string =>
                    match snd sr with
                    | EmptyString => [(fst hr, fst mr, fst sr)]
                    | _ => []
                    end)
                 (match_optional_unit (snd mr)))
            (match_optional_unit (snd hr)))
       (match_unit s)).

(** [parseFloat(value.replace(",", "."))] of a unit: the binary64 value
    nearest to the decimal. *)
Definition digits_value (ds : list Z) : Z :=
  fold_left (fun a d => 10 * a + d) ds 0.

Definition parseFloat_unit (u : TimeUnit) : number :=
  round64 (Qmake (unit_whole u * 10 ^ Z.of_nat (List.length (unit_fraction u))
                  + digits_value (unit_fraction u))
                 (Z.to_pos (10 ^ Z.of_nat (List.length (unit_fraction u))))).

(** [(value && parseFloat(...)) || 0] *)
Definition parseTimeUnit (u : option TimeUnit) : number :=
  match u with
  | Some u => parseFloat_unit u
  | None => Num 0
  end.

Definition num_eqb (a b : number) : bool :=
  match a, b with
  | Num x, Num y => Qeq_bool x y
  | Infinity s, Infinity t => Bool.eqb s t
  | _, _ => false
  end.

Definition num_leb (a b : number) : bool :=
  match a, b with
  | Num x, Num y => Qle_bool x y
  | Infinity s, Infinity t => s || negb t
  | Infinity s, Num _ => s
  | Num _, Infinity t => negb t
  | _, _ => false
  end.

Definition num_ltb (a b : number) : bool :=
  num_leb a b && negb (num_eqb a b).

Definition validateTime (hours minutes seconds : number) : bool :=
  if num_eqb hours (Num 24)
  then num_eqb minutes (Num 0) && num_eqb seconds (Num 0)
  else num_leb (Num 0) seconds && num_ltb seconds (Num 60)
       && num_leb (Num 0) minutes && num_ltb minutes (Num 60)
       && num_leb (Num 0) hours && num_ltb hours (Num 25).

(** The milliseconds of a time string; [None] is NaN. *)
Definition parseTime (timeString : string) : option number :=
  match match_time timeString with
  | None => None
  | Some (h, m, s) =>
      let hours := parseFloat_unit h in
      let minutes := parseTimeUnit m in
      let seconds := parseTimeUnit s in
      if validateTime hours minutes seconds
      then Some (num_add
                   (num_add (num_mul hours (Num (inject_Z millisecondsInHour)))
                            (num_mul minutes (Num (inject_Z millisecondsInMinute))))
                   (num_mul seconds (Num 1000)))
      else None
  end.

(** **** The time-zone part: [Z], or [/^([+-])(\d{2})(?::?(\d{2}))?$/];
    anything else counts as no offset.  [None] is NaN. *)
Definition parseTimezone (timezoneString : string) : option Z :=
  match timezoneString with
  | String "Z" EmptyString => Some 0
  | String c r =>
      if Ascii.eqb c "+" || Ascii.eqb c "-"
      then
        let sign := if Ascii.eqb c "+" then -1 else 1 in
        match two_digits r with
        | Some (hours, r1) =>
            let minutes :=
              match r1 with
              | EmptyString => Some 0
              | String ":" r2 =>
                  match two_digits r2 with
                  | Some (m, EmptyString) => Some m
                  | _ => None
                  end
              | _ =>
                  match two_digits r1 with
                  | Some (m, EmptyString) => Some m
                  | _ => None
                  end
              end in
            match minutes with
            | Some m =>
                if (0 <=? m) && (m <=? 59)
                then Some (sign * (hours * millisecondsInHour
                                   + m * millisecondsInMinute))
                else None
            | None => Some 0
            end
        | None => Some 0
        end
      else Some 0
  | EmptyString => Some 0
  end.

Definition isLeapYearIndex (year : Z) : bool :=
  (year mod 400 =? 0) || ((year mod 4 =? 0) && negb (year mod 100 =? 0)).

Definition daysInMonth (year month : Z) : Z :=
  if month =? 2 then (if isLeapYearIndex year then 29 else 28)
  else if (month =? 4) || (month =? 6) || (month =? 9) || (month =? 11)
       then 30 else 31.

Definition validateDate (year month day : Z) : bool :=
  (1 <=? month) && (month <=? 12) && (1 <=? day)
  && (day <=? daysInMonth year month).

(** The date part, in the form [YYYY-MM-DD]. *)
Definition parseDate (dateString : string) : option Z :=
  match two_digits dateString with
  | Some (c, r0) =>
      match two_digits r0 with
      | Some (yy, String "-" r1) =>
          match two_digits r1 with
          | Some (month, String "-" r2) =>
              match two_digits r2 with
              | Some (day, EmptyString) =>
                  let year := 100 * c + yy in
                  if validateDate year month day
                  then Some (days_from_civil year month day) else None
              | _ => None
              end
          | _ => None
          end
      | _ => None
      end
  | None => None
  end.

(** [new Date(value)]: the time value is the number cut to an integer,
    if it is finite and within the range of dates. *)
Definition timeClip (v : number) : option Z :=
  match v with
  | Num q =>
      if Qle_bool (Qabs q) (inject_Z 8640000000000000)
      then Some (Z.quot (Qnum q) (Zpos (Qden q)))
      else None
  | _ => None
  end.

(** What a string is read as: a date and time of day on the local
    clock, or, with a time-zone part, an instant. *)
Inductive Reading : Type :=
| LocalValue (l : Z)
| Instant (t : Z).

Definition parseISO_reading (argument : string) : option Reading :=
  let dateStrings := splitDateString argument in
  match ds_date dateStrings with
  | None | Some EmptyString => None
  | Some d =>
      match parseDate d with
      | None => None
      | Some n =>
          let timestamp := Num (inject_Z (n * millisecondsInDay)) in
          match (match ds_time dateStrings with
                 | None | Some EmptyString => Some (Num 0)
                 | Some t => parseTime t
                 end) with
          | None => None
          | Some time =>
              match ds_timezone dateStrings with
              | None | Some EmptyString =>
                  option_map LocalValue (timeClip (num_add timestamp time))
              | Some tzs =>
                  match parseTimezone tzs with
                  | None => None
                  | Some offset =>
                      option_map Instant
                                 (timeClip (num_add (num_add timestamp time)
                                                    (Num (inject_Z offset))))
                  end
              end
          end
      end
  end.

(** [parseISO(argument)] in an environment whose UTC offset is
    [tzOffset] ms. *)
Definition parseISO (tzOffset : Z) (argument : string) : option Date :=
  match parseISO_reading argument with
  | Some (LocalValue l) => Some (mkDate l)
  | Some (Instant t) => Some (mkDate (t + tzOffset))
  | None => None
  end.

(** The decimal digits of a number from 0 on, [n.toString()]. *)
Fixpoint decimal_digits (fuel : nat) (n : Z) : string :=
  match fuel with
  | O => EmptyString
  | S f =>
      if n <? 10 then String (digit_char n) EmptyString
      else decimal_digits f (n / 10) ++ String (digit_char (n mod 10)) EmptyString
  end.

Definition decimal (n : Z) : string :=
  decimal_digits (S (Z.to_nat (Z.log2 n))) n.

(** [addLeadingZeros(n, 4)] for n >= 0: the decimal digits, padded with
    zeros to four. *)
Definition addLeadingZeros4 (n : Z) : string :=
  if n <? 10000 then pad4 n else decimal n.

(** *** format(date, 'yyyy-MM-dd'): the year of the era (1 - y for a
    year y <= 0), the month and the day of the month *)
Definition format_yyyy_MM_dd (d : Date) : string :=
  let '(y, m, dd) := civil_from_days (dayNumber d) in
  let y' := if 0 <? y then y else 1 - y in
  addLeadingZeros4 y' ++ "-" ++ pad2 m ++ "-" ++ pad2 dd.

(** *** startOfWeek / endOfWeek *)

(** The options the two functions consult for the first day of the
    week, in their order of precedence. *)
Record WeekOptions : Type := mkWeekOptions {
  weekStartsOn : option Z;          (* options.weekStartsOn *)
  localeWeekStartsOn : option Z     (* options.locale.options.weekStartsOn *)
}.

Definition resolveWeekStartsOn (options defaultOptions : WeekOptions) : Z :=
  match weekStartsOn options with
  | Some w => w
  | None =>
      match localeWeekStartsOn options with
      | Some w => w
      | None =>
          match weekStartsOn defaultOptions with
          | Some w => w
          | None =>
              match localeWeekStartsOn defaultOptions with
              | Some w => w
              | None => 0
              end
          end
      end
  end.

(** [d.setDate(d.getDate() + delta)] *)
Definition setDate_relative (d : Date) (delta : Z) : Date :=
  makeDate (dayNumber d + delta) (msOfDay d).

(** [d.setHours(h, m, s, ms)] *)
Definition setHours (d : Date) (h m s ms : Z) : Date :=
  makeDate (dayNumber d)
           (h * millisecondsInHour + m * millisecondsInMinute + s * 1000 + ms).

Definition startOfWeek (defaultOptions : WeekOptions)
           (date : Date) (options : WeekOptions) : Date :=
  let wso := resolveWeekStartsOn options defaultOptions in
  let day := getDay date in
  let diff := (if day <? wso then 7 else 0) + day - wso in
  setHours (setDate_relative date (- diff)) 0 0 0 0.

Definition endOfWeek (defaultOptions : WeekOptions)
           (date : Date) (options : WeekOptions) : Date :=
  let wso := resolveWeekStartsOn options defaultOptions in
  let day := getDay date in
  let diff := (if day <? wso then -7 else 0) + 6 - (day - wso) in
  setHours (setDate_relative date diff) 23 59 59 999.

Definition addDays (d : Date) (amount : Z) : Date :=
  setDate_relative d amount.

Definition addWeeks (d : Date) (amount : Z) : Date := addDays d (amount * 7).
Definition subWeeks (d : Date) (amount : Z) : Date := addWeeks d (- amount).

(** Chronological order of two dates. *)
Definition date_le (a b : Date) : Prop := localTime a <= localTime b.

End DateFns.

Import DateFns.

(* ------------------------------------------------------------------ *)
(** ** Records of the five tables and of the view *)

Inductive Role : Type := RoleUser | RoleSupervisor | RoleManager.

(** hooks/useAuth.ts, [interface User]; also a row of [users]. *)
Record User : Type := mkUser {
  user_id : string;
  user_email : string;
  user_name : string;
  user_role : Role
}.

Record AuthorizedEmail : Type := mkAuthorizedEmail {
  ae_id : string;
  ae_email : string;
  ae_role : Role;
  ae_added_by : string
}.

Record Project : Type := mkProject {
  project_id : string;
  project_name : string;
  project_client : string
}.

Record Task : Type := mkTask {
  task_id : string;
  task_name : string;
  task_project_id : string
}.

(** A row of [time_entries]; the view keeps the rows as fetched. The
    joined [project] and [task] objects only feed the rendering. *)
Record TimeEntry : Type := mkTimeEntry {
  te_id : string;
  te_user_id : string;
  te_project_id : string;
  te_task_id : option string;        (* string | null *)
  te_date : string;
  te_start_time : string;
  te_end_time : string;
  te_hours : number;
  te_description : string;
  te_updated_at : string
}.

(** The body of an update request: a column that is [None] is not in the
    request.  [upd_task_id = Some None] sends [null]. *)
Record TimeEntryUpdate : Type := mkTimeEntryUpdate {
  upd_user_id : option string;
  upd_project_id : option string;
  upd_task_id : option (option string);
  upd_date : option string;
  upd_start_time : option string;
  upd_end_time : option string;
  upd_hours : option number;
  upd_description : option string;
  upd_updated_at : option string
}.

(** The body of an insert request.  A field the caller left [undefined]
    is dropped from the request ([None]). *)
Record TimeEntryInsert : Type := mkTimeEntryInsert {
  ins_user_id : string;
  ins_project_id : option string;
  ins_task_id : option string;       (* always sent: an id or null *)
  ins_date : option string;
  ins_start_time : option string;
  ins_end_time : option string;
  ins_hours : number;
  ins_description : string
}.

(** The argument of [saveTimeEntry], a [Partial<TimeEntry>]: every field
    may be missing; for [task_id], [None] is [null] or [undefined]. *)
Record EntryInput : Type := mkEntryInput {
  in_id : option string;
  in_project_id : option string;
  in_task_id : option string;
  in_date : option string;
  in_start_time : option string;
  in_end_time : option string;
  in_description : option string
}.

(** The [newEntry] state of the component. *)
Record NewEntry : Type := mkNewEntry {
  ne_date : string;
  ne_project_id : string;
  ne_task_id : string;
  ne_start_time : string;
  ne_end_time : string;
  ne_description : string
}.

(** The [formData] state of a [TimeEntryCard]. *)
Record FormData : Type := mkFormData {
  fd_project_id : string;
  fd_task_id : string;
  fd_start_time : string;
  fd_end_time : string;
  fd_description : string
}.

(* ------------------------------------------------------------------ *)
(** ** Requests, responses and the tables *)

Inductive Request : Type :=
| ReqSelectProjects
| ReqSelectTasks
| ReqSelectTimeEntries (uid from to : string)
| ReqUpdateTimeEntry (id : string) (p : TimeEntryUpdate)
| ReqInsertTimeEntry (p : TimeEntryInsert)
| ReqDeleteTimeEntry (id : string)
| ReqSelectAuthorizedEmail (email : string)
| ReqSignInWithOtp (email : string)
| ReqUpsertUser (email name : string) (role : Role).

Inductive Response : Type :=
| RespError
| RespDone
| RespProjects (l : list Project)
| RespTasks (l : list Task)
| RespTimeEntries (l : list TimeEntry)
| RespAuthorized (a : AuthorizedEmail).

Record Database : Type := mkDatabase {
  tbl_users : list User;
  tbl_authorized_emails : list AuthorizedEmail;
  tbl_projects : list Project;
  tbl_tasks : list Task;
  tbl_time_entries : list TimeEntry
}.

(** Is the request a write on [time_entries]? *)
Definition is_time_entry_write (r : Request) : bool :=
  match r with
  | ReqUpdateTimeEntry _ _ | ReqInsertTimeEntry _ | ReqDeleteTimeEntry _ => true
  | _ => false
  end.

(** Stable insertion sort, for [.order(column)]. *)
Fixpoint insert_by {A : Type} (le : A -> A -> bool) (x : A) (l : list A) : list A :=
  match l with
  | [] => [x]
  | y :: r => if le x y then x :: l else y :: insert_by le x r
  end.

Definition order_by {A : Type} (le : A -> A -> bool) (l : list A) : list A :=
  fold_right (insert_by le) [] l.

Definition entry_order (a b : TimeEntry) : bool :=
  String.ltb (te_date a) (te_date b)
  || (String.eqb (te_date a) (te_date b)
      && String.leb (te_start_time a) (te_start_time b)).

Definition from_option {A : Type} (o : option A) (d : A) : A :=
  match o with
  | Some x => x
  | None => d
  end.

(** Update-by-id replaces the columns the request carries. *)
Definition patch_time_entry (p : TimeEntryUpdate) (r : TimeEntry) : TimeEntry :=
  {| te_id := te_id r;
     te_user_id := from_option (upd_user_id p) (te_user_id r);
     te_project_id := from_option (upd_project_id p) (te_project_id r);
     te_task_id := from_option (upd_task_id p) (te_task_id r);
     te_date := from_option (upd_date p) (te_date r);
     te_start_time := from_option (upd_start_time p) (te_start_time r);
     te_end_time := from_option (upd_end_time p) (te_end_time r);
     te_hours := from_option (upd_hours p) (te_hours r);
     te_description := from_option (upd_description p) (te_description r);
     te_updated_at := from_option (upd_updated_at p) (te_updated_at r) |}.

(** Insert needs every required column; the backend chooses the id and
    the time stamp. *)
Definition row_of_insert (new_id stamp : string) (p : TimeEntryInsert)
  : option TimeEntry :=
  match ins_project_id p, ins_date p, ins_start_time p, ins_end_time p with
  | Some pr, Some d, Some s, Some e =>
      Some {| te_id := new_id; te_user_id := ins_user_id p;
              te_project_id := pr; te_task_id := ins_task_id p;
              te_date := d; te_start_time := s; te_end_time := e;
              te_hours := ins_hours p;
              te_description := ins_description p;
              te_updated_at := stamp |}
  | _, _, _, _ => None
  end.

Definition set_time_entries (db : Database) (l : list TimeEntry) : Database :=
  {| tbl_users := tbl_users db;
     tbl_authorized_emails := tbl_authorized_emails db;
     tbl_projects := tbl_projects db;
     tbl_tasks := tbl_tasks db;
     tbl_time_entries := l |}.

Definition set_users (db : Database) (l : list User) : Database :=
  {| tbl_users := l;
     tbl_authorized_emails := tbl_authorized_emails db;
     tbl_projects := tbl_projects db;
     tbl_tasks := tbl_tasks db;
     tbl_time_entries := tbl_time_entries db |}.

(** Upsert of a profile, keyed by the unique email. *)
Fixpoint upsert_user (email name : string) (role : Role) (new_id : string)
         (l : list User) : list User :=
  match l with
  | [] => [mkUser new_id email name role]
  | u :: r =>
      if String.eqb (user_email u) email
      then mkUser (user_id u) email name role :: r
      else u :: upsert_user email name role new_id r
  end.

(** What the environment decides: the clock offset, the clock reading,
    which requests the backend refuses, the id it gives a new row, and
    the date library's default options. *)
Record Env : Type := mkEnv {
  tz : Z;
  nowISO : string;
  backend_fails : Request -> bool;
  backend_new_id : string;
  defaultOptions : WeekOptions
}.

(** The hosted data gateway, an external service, by the interface the
    components use: select with equality and range filters and ordering,
    single-row fetch, insert, update-by-id, delete-by-id and upsert, each
    returning a result or an error.  A refused request changes nothing. *)
Definition backend (env : Env) (r : Request) (db : Database) : Response * Database :=
  if backend_fails env r then (RespError, db)
  else
    match r with
    | ReqSelectProjects =>
        (RespProjects
           (order_by (fun a b => String.leb (project_name a) (project_name b))
                     (tbl_projects db)), db)
    | ReqSelectTasks =>
        (RespTasks
           (order_by (fun a b => String.leb (task_name a) (task_name b))
                     (tbl_tasks db)), db)
    | ReqSelectTimeEntries uid from to =>
        (RespTimeEntries
           (order_by entry_order
              (filter (fun e => String.eqb (te_user_id e) uid
                                && String.leb from (te_date e)
                                && String.leb (te_date e) to)
                      (tbl_time_entries db))), db)
    | ReqUpdateTimeEntry id p =>
        (RespDone,
         set_time_entries db
           (map (fun e => if String.eqb (te_id e) id
                          then patch_time_entry p e else e)
                (tbl_time_entries db)))
    | ReqInsertTimeEntry p =>
        match row_of_insert (backend_new_id env) (nowISO env) p with
        | Some row => (RespDone, set_time_entries db (tbl_time_entries db ++ [row]))
        | None => (RespError, db)
        end
    | ReqDeleteTimeEntry id =>
        (RespDone,
         set_time_entries db
           (filter (fun e => negb (String.eqb (te_id e) id))
                   (tbl_time_entries db)))
    | ReqSelectAuthorizedEmail email =>
        match filter (fun a => String.eqb (ae_email a) email)
                     (tbl_authorized_emails db) with
        | [a] => (RespAuthorized a, db)      (* .single() *)
        | _ => (RespError, db)
        end
    | ReqSignInWithOtp _ => (RespDone, db)
    | ReqUpsertUser email name role =>
        (RespDone,
         set_users db (upsert_user email name role (backend_new_id env)
                                   (tbl_users db)))
    end.

(* ------------------------------------------------------------------ *)
(** ** The state of the application and its effects *)

(** What a run leaves behind, in order: requests sent to the backend,
    toasts shown and console messages. *)
Inductive Event : Type :=
| EvRequest (r : Request)
| EvToastSuccess (msg : string)
| EvToastError (msg : string)
| EvConsoleError (msg : string).

(** The React state of [useAuth] and of [TimeTracking]. *)
Record ViewState : Type := mkViewState {
  v_user : option User;
  v_authLoading : bool;
  v_currentWeek : Date;
  v_timeEntries : list TimeEntry;
  v_projects : list Project;
  v_tasks : list Task;
  v_loading : bool;
  v_editingEntry : option string;
  v_newEntry : option NewEntry
}.

Record World : Type := mkWorld {
  w_db : Database;
  w_view : ViewState;
  w_log : list Event
}.

Inductive Result (A : Type) : Type :=
| Ok (a : A)
| Thrown.
Arguments Ok {A} a.
Arguments Thrown {A}.

(** State and exceptions: a computation always hands back the world. *)
Definition M (A : Type) : Type := World -> Result A * World.

Definition ret {A : Type} (a : A) : M A := fun w => (Ok a, w).

Definition bind {A B : Type} (m : M A) (f : A -> M B) : M B :=
  fun w =>
    match m w with
    | (Ok a, w') => f a w'
    | (Thrown, w') => (Thrown, w')
    end.

Definition throw {A : Type} : M A := fun w => (Thrown, w).

(** [try { body } catch (error) { handler }] *)
Definition try_catch {A : Type} (body handler : M A) : M A :=
  fun w =>
    match body w with
    | (Ok a, w') => (Ok a, w')
    | (Thrown, w') => handler w'
    end.

(** [try { body } finally { fin }] *)
Definition try_finally {A : Type} (body : M A) (fin : M unit) : M A :=
  fun w =>
    match body w with
    | (r, w') =>
        match fin w' with
        | (Ok _, w'') => (r, w'')
        | (Thrown, w'') => (Thrown, w'')
        end
    end.

Declare Scope app_scope.
Delimit Scope app_scope with app.
Notation "x <- m ;; k" := (bind m (fun x => k))
  (at level 61, m at next level, right associativity) : app_scope.
Notation "m ;; k" := (bind m (fun _ => k))
  (at level 61, right associativity) : app_scope.
#[local] Open Scope app_scope.

Definition emit (e : Event) : M unit :=
  fun w => (Ok tt, mkWorld (w_db w) (w_view w) (w_log w ++ [e])).

Definition get_view : M ViewState := fun w => (Ok (w_view w), w).

Definition modify_view (f : ViewState -> ViewState) : M unit :=
  fun w => (Ok tt, mkWorld (w_db w) (f (w_view w)) (w_log w)).

Definition toast_success (msg : string) : M unit := emit (EvToastSuccess msg).
Definition toast_error (msg : string) : M unit := emit (EvToastError msg).
Definition console_error (msg : string) : M unit := emit (EvConsoleError msg).

Definition setAuthLoading (b : bool) : M unit :=
  modify_view (fun v =>
    mkViewState (v_user v) b (v_currentWeek v) (v_timeEntries v)
                (v_projects v) (v_tasks v) (v_loading v)
                (v_editingEntry v) (v_newEntry v)).

Definition setCurrentWeek (d : Date) : M unit :=
  modify_view (fun v =>
    mkViewState (v_user v) (v_authLoading v) d (v_timeEntries v)
                (v_projects v) (v_tasks v) (v_loading v)
                (v_editingEntry v) (v_newEntry v)).

Definition setTimeEntries (l : list TimeEntry) : M unit :=
  modify_view (fun v =>
    mkViewState (v_user v) (v_authLoading v) (v_currentWeek v) l
                (v_projects v) (v_tasks v) (v_loading v)
                (v_editingEntry v) (v_newEntry v)).

Definition setProjects (l : list Project) : M unit :=
  modify_view (fun v =>
    mkViewState (v_user v) (v_authLoading v) (v_currentWeek v)
                (v_timeEntries v) l (v_tasks v) (v_loading v)
                (v_editingEntry v) (v_newEntry v)).

Definition setTasks (l : list Task) : M unit :=
  modify_view (fun v =>
    mkViewState (v_user v) (v_authLoading v) (v_currentWeek v)
                (v_timeEntries v) (v_projects v) l (v_loading v)
                (v_editingEntry v) (v_newEntry v)).

Definition setLoading (b : bool) : M unit :=
  modify_view (fun v =>
    mkViewState (v_user v) (v_authLoading v) (v_currentWeek v)
                (v_timeEntries v) (v_projects v) (v_tasks v) b
                (v_editingEntry v) (v_newEntry v)).

Definition setEditingEntry (o : option string) : M unit :=
  modify_view (fun v =>
    mkViewState (v_user v) (v_authLoading v) (v_currentWeek v)
                (v_timeEntries v) (v_projects v) (v_tasks v) (v_loading v)
                o (v_newEntry v)).

Definition setNewEntry (o : option NewEntry) : M unit :=
  modify_view (fun v =>
    mkViewState (v_user v) (v_authLoading v) (v_currentWeek v)
                (v_timeEntries v) (v_projects v) (v_tasks v) (v_loading v)
                (v_editingEntry v) o).

(** JS truthiness of a string, and the idioms built on it. *)
Definition truthy (s : string) : bool := negb (String.eqb s "").

(** [x || null] for [x : string | null | undefined] *)
Definition or_null (o : option string) : option string :=
  match o with
  | Some s => if truthy s then Some s else None
  | None => None
  end.

(** [x || ''] *)
Definition or_empty (o : option string) : string :=
  match o with
  | Some s => s
  | None => ""
  end.

(** [`${x}`]: a missing value prints as the word undefined. *)
Definition template (o : option string) : string :=
  match o with
  | Some s => s
  | None => "undefined"
  end.

(** [email.split('@')[0]] *)
Fixpoint before_at (s : string) : string :=
  match s with
  | EmptyString => EmptyString
  | String c r => if Ascii.eqb c "@" then EmptyString else String c (before_at r)
  end.

(** [date.getTime()] of a date that may be invalid: NaN, or the time
    value, an integer that a binary64 value holds exactly. *)
Definition getTime_number (tzOffset : Z) (d : option Date) : number :=
  match d with
  | Some d => Num (inject_Z (getTime tzOffset d))
  | None => NaN
  end.

(* ------------------------------------------------------------------ *)
(** ** components/Layout.tsx *)

Inductive Icon : Type := Clock | FolderOpen | BarChart3 | Users.

Record NavItem : Type := mkNavItem {
  nav_id : string;
  nav_name : string;
  nav_icon : Icon
}.

Definition role_is (user : option User) (r : Role) : bool :=
  match user with
  | Some u =>
      match user_role u, r with
      | RoleUser, RoleUser | RoleSupervisor, RoleSupervisor
      | RoleManager, RoleManager => true
      | _, _ => false
      end
  | None => false
  end.

Definition navigation (user : option User) : list NavItem :=
  [ mkNavItem "timetracking" "Time Tracking" Clock;
    mkNavItem "projects" "Projects" FolderOpen ]
  ++ (if role_is user RoleSupervisor || role_is user RoleManager
      then [mkNavItem "analytics" "Analytics" BarChart3] else [])
  ++ (if role_is user RoleManager
      then [mkNavItem "management" "User Management" Users] else []).

(* ------------------------------------------------------------------ *)
(** ** components/TimeTracking.tsx and hooks/useAuth.ts *)

Section Application.

Variable env : Env.

(** A request is logged, answered by the backend, and awaited. *)
Definition request (r : Request) : M Response :=
  fun w =>
    let '(resp, db') := backend env r (w_db w) in
    (Ok resp, mkWorld db' (w_view w) (w_log w ++ [EvRequest r])).

(** [if (error) throw error] *)
Definition throw_if_error (r : Response) : M unit :=
  match r with
  | RespError => throw
  | _ => ret tt
  end.

Definition mondayFirst : WeekOptions := mkWeekOptions (Some 1) None.

Definition weekStart (currentWeek : Date) : Date :=
  startOfWeek (defaultOptions env) currentWeek mondayFirst.

Definition weekEnd (currentWeek : Date) : Date :=
  endOfWeek (defaultOptions env) currentWeek mondayFirst.

Definition fetchData : M unit :=
  v <- get_view ;;
  match v_user v with
  | None => ret tt
  | Some user =>
      setLoading true ;;
      try_finally
        (try_catch
           (r1 <- request ReqSelectProjects ;;
            throw_if_error r1 ;;
            setProjects (match r1 with RespProjects l => l | _ => [] end) ;;
            r2 <- request ReqSelectTasks ;;
            throw_if_error r2 ;;
            setTasks (match r2 with RespTasks l => l | _ => [] end) ;;
            r3 <- request
                    (ReqSelectTimeEntries
                       (user_id user)
                       (format_yyyy_MM_dd (weekStart (v_currentWeek v)))
                       (format_yyyy_MM_dd (weekEnd (v_currentWeek v)))) ;;
            throw_if_error r3 ;;
            setTimeEntries (match r3 with RespTimeEntries l => l | _ => [] end))
           (console_error "Error fetching data:" ;;
            toast_error "Failed to load data"))
        (setLoading false)
  end.

Definition calculateHours (startTime endTime : string) : number :=
  let start := parseISO (tz env) ("2000-01-01T" ++ startTime ++ ":00") in
  let end_ := parseISO (tz env) ("2000-01-01T" ++ endTime ++ ":00") in
  num_div (num_sub (getTime_number (tz env) end_)
                   (getTime_number (tz env) start))
          (num_mul (num_mul (Num 1000) (Num 60)) (Num 60)).

(** The object passed to [.update(...)]. *)
Definition update_body (entry : EntryInput) (hours : number) : TimeEntryUpdate :=
  {| upd_user_id := None;
     upd_project_id := in_project_id entry;
     upd_task_id := Some (or_null (in_task_id entry));
     upd_date := None;
     upd_start_time := in_start_time entry;
     upd_end_time := in_end_time entry;
     upd_hours := Some hours;
     upd_description := in_description entry;
     upd_updated_at := Some (nowISO env) |}.

(** The object passed to [.insert(...)]. *)
Definition insert_body (user : User) (entry : EntryInput) (hours : number)
  : TimeEntryInsert :=
  {| ins_user_id := user_id user;
     ins_project_id := in_project_id entry;
     ins_task_id := or_null (in_task_id entry);
     ins_date := in_date entry;
     ins_start_time := in_start_time entry;
     ins_end_time := in_end_time entry;
     ins_hours := hours;
     ins_description := or_empty (in_description entry) |}.

Definition saveTimeEntry (entry : EntryInput) : M unit :=
  v <- get_view ;;
  match v_user v with
  | None => ret tt
  | Some user =>
      try_catch
        (let hours := calculateHours (template (in_start_time entry))
                                     (template (in_end_time entry)) in
         (match or_null (in_id entry) with
          | Some id =>
              (* Update existing entry *)
              r <- request (ReqUpdateTimeEntry id (update_body entry hours)) ;;
              throw_if_error r ;;
              toast_success "Time entry updated"
          | None =>
              (* Create new entry *)
              r <- request (ReqInsertTimeEntry (insert_body user entry hours)) ;;
              throw_if_error r ;;
              toast_success "Time entry added"
          end) ;;
         setEditingEntry None ;;
         setNewEntry None ;;
         fetchData)
        (console_error "Error saving time entry:" ;;
         toast_error "Failed to save time entry")
  end.

Definition deleteTimeEntry (id : string) : M unit :=
  try_catch
    (r <- request (ReqDeleteTimeEntry id) ;;
     throw_if_error r ;;
     toast_success "Time entry deleted" ;;
     fetchData)
    (console_error "Error deleting time entry:" ;;
     toast_error "Failed to delete time entry").

Definition getEntriesForDay (timeEntries : list TimeEntry) (date : Date)
  : list TimeEntry :=
  let dateStr := format_yyyy_MM_dd date in
  filter (fun entry => String.eqb (te_date entry) dateStr) timeEntries.

Definition getTotalHoursForDay (timeEntries : list TimeEntry) (date : Date)
  : number :=
  fold_left (fun total entry => num_add total (te_hours entry))
            (getEntriesForDay timeEntries date) (Num 0).

Definition startNewEntry (date : Date) : M unit :=
  setNewEntry (Some {| ne_date := format_yyyy_MM_dd date;
                       ne_project_id := "";
                       ne_task_id := "";
                       ne_start_time := "09:00";
                       ne_end_time := "10:00";
                       ne_description := "" |}).

(** The two week buttons; the effect on [currentWeek] runs [fetchData]. *)
Definition previousWeek : M unit :=
  v <- get_view ;;
  setCurrentWeek (subWeeks (v_currentWeek v) 1) ;;
  fetchData.

Definition nextWeek : M unit :=
  v <- get_view ;;
  setCurrentWeek (addWeeks (v_currentWeek v) 1) ;;
  fetchData.

(** *** NewEntryForm: the save button

    [onClick={() => onSave(entry)}], [disabled={!entry.project_id}]:
    a disabled button does not run its handler. *)
Definition entry_of_new (entry : NewEntry) : EntryInput :=
  {| in_id := None;
     in_project_id := Some (ne_project_id entry);
     in_task_id := Some (ne_task_id entry);
     in_date := Some (ne_date entry);
     in_start_time := Some (ne_start_time entry);
     in_end_time := Some (ne_end_time entry);
     in_description := Some (ne_description entry) |}.

Definition NewEntryForm_save (entry : NewEntry) : M unit :=
  if negb (truthy (ne_project_id entry)) then ret tt
  else saveTimeEntry (entry_of_new entry).

(** *** TimeEntryCard: the form state and the save button

    [useState({ project_id: entry.project_id, task_id: entry.task_id || '', ... })]
    and [onClick={() => onSave({ ...entry, ...formData })}]. *)
Definition initialFormData (entry : TimeEntry) : FormData :=
  {| fd_project_id := te_project_id entry;
     fd_task_id := or_empty (te_task_id entry);
     fd_start_time := te_start_time entry;
     fd_end_time := te_end_time entry;
     fd_description := te_description entry |}.

Definition entry_of_card (entry : TimeEntry) (formData : FormData) : EntryInput :=
  {| in_id := Some (te_id entry);
     in_project_id := Some (fd_project_id formData);
     in_task_id := Some (fd_task_id formData);
     in_date := Some (te_date entry);
     in_start_time := Some (fd_start_time formData);
     in_end_time := Some (fd_end_time formData);
     in_description := Some (fd_description formData) |}.

Definition TimeEntryCard_save (entry : TimeEntry) (formData : FormData) : M unit :=
  saveTimeEntry (entry_of_card entry formData).

(** *** useAuth: signIn *)
Definition signIn (email : string) (name : option string) : M bool :=
  try_finally
    (try_catch
       (setAuthLoading true ;;
        (* Check if email is authorized *)
        r <- request (ReqSelectAuthorizedEmail email) ;;
        match r with
        | RespAuthorized authorized =>
            (* Send magic link *)
            r2 <- request (ReqSignInWithOtp email) ;;
            throw_if_error r2 ;;
            (* Create or update user profile *)
            r3 <- request
                    (ReqUpsertUser
                       email
                       (match or_null name with
                        | Some n => n
                        | None => before_at email
                        end)
                       (ae_role authorized)) ;;
            throw_if_error r3 ;;
            toast_success "Check your email for the login link!" ;;
            ret true
        | _ =>
            toast_error "Email not authorized. Please contact your manager." ;;
            ret false
        end)
       (console_error "Error signing in:" ;;
        toast_error "Failed to sign in" ;;
        ret false))
    (setAuthLoading false).

(** *** User actions on the time grid *)
Inductive Action : Type :=
| ActNewSave (entry : NewEntry)
| ActCardSave (entry : TimeEntry) (formData : FormData)
| ActDelete (id : string)
| ActPreviousWeek
| ActNextWeek.

Definition perform (a : Action) : M unit :=
  match a with
  | ActNewSave entry => NewEntryForm_save entry
  | ActCardSave entry formData => TimeEntryCard_save entry formData
  | ActDelete id => deleteTimeEntry id
  | ActPreviousWeek => previousWeek
  | ActNextWeek => nextWeek
  end.

End Application.

(** Runs a list of user actions, each in its own environment. *)
Fixpoint run_actions (l : list (Env * Action)) (w : World) : World :=
  match l with
  | [] => w
  | (env, a) :: r => run_actions r (snd (perform env a w))
  end.

(** The events a run appended to the log. *)
Definition new_events (w w' : World) : list Event :=
  skipn (List.length (w_log w)) (w_log w').

(** The requests among a list of events. *)
Fixpoint requests_of (l : list Event) : list Request :=
  match l with
  | [] => []
  | EvRequest r :: t => r :: requests_of t
  | _ :: t => requests_of t
  end.

(** The time of day [hh:mm] as a time input yields it. *)
Definition hhmm (h m : Z) : string := pad2 h ++ ":" ++ pad2 m.

(** The sum the specification describes for a day: the hours of the
    entries dated [d], added in list order from 0. *)
Fixpoint sum_hours_on (d : string) (acc : number) (l : list TimeEntry) : number :=
  match l with
  | [] => acc
  | e :: r =>
      if String.eqb (te_date e) d
      then sum_hours_on d (num_add acc (te_hours e)) r
      else sum_hours_on d acc r
  end.

(** The capability names of the specification, by navigation id. *)
Inductive Capability : Type :=
| time_tracking | projects | analytics | management.

Definition capability_of (id : string) : option Capability :=
  if String.eqb id "timetracking" then Some time_tracking
  else if String.eqb id "projects" then Some projects
  else if String.eqb id "analytics" then Some analytics
  else if String.eqb id "management" then Some management
  else None.

Definition capabilities (user : User) : list (option Capability) :=
  map (fun i => capability_of (nav_id i)) (navigation (Some user)).

(** Checks, for one wall-clock time, that the string built by
    [calculateHours] parses to that time on 2000-01-01. *)
Definition parses_to (h m : Z) : bool :=
  match parseISO_reading ("2000-01-01T" ++ hhmm h m ++ ":00") with
  | Some (LocalValue l) =>
      l =? 10957 * millisecondsInDay
           + (h * millisecondsInHour + m * millisecondsInMinute)
  | _ => false
  end.

Definition upto (n : nat) : list Z := map Z.of_nat (seq 0 n).

(** Syntactic equality of two numbers. *)
Definition number_eqb (a b : number) : bool :=
  match a, b with
  | Num x, Num y => (Qnum x =? Qnum y) && (Qden x =? Qden y)%positive
  | Infinity s, Infinity t => Bool.eqb s t
  | NaN, NaN => true
  | _, _ => false
  end.

(** What [calculateHours] makes of a difference of [delta] milliseconds
    between its two time values. *)
Definition hours_of_ms (delta : Z) : number :=
  num_div (round64 (inject_Z delta)) (num_mul (num_mul (Num 1000) (Num 60)) (Num 60)).

(** Checks, for a difference of [d] minutes, that the hours computed are
    a finite number within half a unit in the last place of [d/60],
    equal to it when [d] is a multiple of 15, the binary64 value
    nearest to it, and not positive when [d] is not. *)
Definition duration_ok (d : Z) : bool :=
  match hours_of_ms (60000 * d) with
  | Num v =>
      Qle_bool (Qabs (v - (d # 60)) * inject_Z (2 ^ 53)) (Qabs (d # 60))
      && (negb (d mod 15 =? 0) || Qeq_bool v (d # 60))
      && number_eqb (Num v) (round64 (d # 60))
      && ((0 <? d) || Qle_bool v 0)
  | _ => false
  end.

(** The differences in minutes between two times of one day. *)
Definition minute_differences : list Z :=
  map (fun k => Z.of_nat k - 1439) (seq 0 2879).

(** An environment for the examples: UTC+1, a backend that accepts every
    request. *)
Definition env_ok : Env :=
  {| tz := 3600000;
     nowISO := "2024-03-01T12:00:00.000Z";
     backend_fails := fun _ => false;
     backend_new_id := "new-1";
     defaultOptions := mkWeekOptions None (Some 0) |}.

(** The same environment with a backend that refuses every write on
    [time_entries]. *)
Definition env_refusing : Env :=
  {| tz := 3600000;
     nowISO := "2024-03-01T12:00:00.000Z";
     backend_fails := is_time_entry_write;
     backend_new_id := "new-1";
     defaultOptions := mkWeekOptions None (Some 0) |}.

(** Sample data for the examples: one user, one project, one task and
    two entries in the week of 2024-02-26. *)
Definition user_ann : User := mkUser "u1" "ann@example.com" "Ann" RoleUser.

Definition entry_thu : TimeEntry :=
  mkTimeEntry "e1" "u1" "p1" None "2024-02-29" "09:00" "10:30"
              (Num (3 # 2)) "standup" "2024-02-29T10:30:00.000Z".

Definition entry_fri : TimeEntry :=
  mkTimeEntry "e2" "u1" "p1" (Some "t1") "2024-03-01" "13:00" "15:00"
              (Num 2) "" "2024-03-01T15:00:00.000Z".

Definition db0 : Database :=
  {| tbl_users := [user_ann];
     tbl_authorized_emails :=
       [mkAuthorizedEmail "a1" "ann@example.com" RoleUser "boss"];
     tbl_projects := [mkProject "p1" "Site" "Acme"];
     tbl_tasks := [mkTask "t1" "Design" "p1"];
     tbl_time_entries := [entry_thu; entry_fri] |}.

Definition view0 : ViewState :=
  {| v_user := Some user_ann;
     v_authLoading := false;
     v_currentWeek := makeDate 19782 34200000;
     v_timeEntries := [entry_thu; entry_fri];
     v_projects := [mkProject "p1" "Site" "Acme"];
     v_tasks := [mkTask "t1" "Design" "p1"];
     v_loading := false;
     v_editingEntry := Some "e1";
     v_newEntry := None |}.

Definition world0 : World := mkWorld db0 view0 [].

(** The same tables and view before anyone has signed in. *)
Definition world_signed_out : World :=
  mkWorld db0
          (mkViewState None false (makeDate 19782 0) [entry_thu] [] [] false
                       None None)
          [].

(** Every step of a computation, run from any world, is related by [R]
    to the world it started from. *)
Definition steps (R : World -> World -> Prop) {A : Type} (m : M A) : Prop :=
  forall w, R w (snd (m w)).

(** A request that only reads. *)
Definition read_only (env : Env) (r : Request) : Prop :=
  forall db, snd (backend env r db) = db.

Definition is_request_event (e : Event) : bool :=
  match e with
  | EvRequest _ => true
  | _ => false
  end.

(** An event that is not a write on [time_entries]. *)
Definition not_entry_write (e : Event) : Prop :=
  match e with
  | EvRequest r => is_time_entry_write r = false
  | _ => True
  end.

(** The log grew by events that all satisfy [P]. *)
Definition log_grows_by (P : Event -> Prop) (w w' : World) : Prop :=
  exists evs, w_log w' = (w_log w ++ evs)%list /\ Forall P evs.

(** The form state of the card of [entry_thu] after the user picked the
    blank "Select Project" option. *)
Definition form_blank_project : FormData :=
  {| fd_project_id := "";
     fd_task_id := "";
     fd_start_time := "09:00";
     fd_end_time := "10:30";
     fd_description := "standup" |}.

(** A new-entry draft as [startNewEntry] leaves it: no project yet. *)
Definition draft_blank_project : NewEntry :=
  {| ne_date := "2024-02-29";
     ne_project_id := "";
     ne_task_id := "";
     ne_start_time := "09:00";
     ne_end_time := "10:00";
     ne_description := "" |}.

(** The write request [saveTimeEntry] builds for an entry: an update
    when the entry carries an id, an insert otherwise. *)
Definition save_request (env : Env) (user : User) (entry : EntryInput) : Request :=
  let hours := calculateHours env (template (in_start_time entry))
                              (template (in_end_time entry)) in
  match or_null (in_id entry) with
  | Some id => ReqUpdateTimeEntry id (update_body env entry hours)
  | None => ReqInsertTimeEntry (insert_body user entry hours)
  end.

Definition save_success_toast (entry : EntryInput) : string :=
  match or_null (in_id entry) with
  | Some _ => "Time entry updated"
  | None => "Time entry added"
  end.

(** The view after [setEditingEntry(null)] and [setNewEntry(null)]. *)
Definition forms_closed (v : ViewState) : ViewState :=
  mkViewState (v_user v) (v_authLoading v) (v_currentWeek v)
              (v_timeEntries v) (v_projects v) (v_tasks v) (v_loading v)
              None None.

(** The hours a write request carries. *)
Definition request_hours (r : Request) : option number :=
  match r with
  | ReqUpdateTimeEntry _ p => upd_hours p
  | ReqInsertTimeEntry p => Some (ins_hours p)
  | _ => None
  end.

(** What the user gets to see of a run: the toasts and console lines. *)
Definition surfaced (l : list Event) : list Event :=
  filter (fun e => negb (is_request_event e)) l.

(** The columns an update must leave alone, per row. *)
Definition owner_and_date (e : TimeEntry) : string * string * string :=
  (te_id e, te_user_id e, te_date e).

(** The [task_id] a write request carries: [None] when the request has
    no such column, [Some None] for [null]. *)
Definition sent_task_id (r : Request) : option (option string) :=
  match r with
  | ReqUpdateTimeEntry _ p => upd_task_id p
  | ReqInsertTimeEntry p => Some (ins_task_id p)
  | _ => None
  end.

(** A request whose [task_id], if it carries one, is null or non-empty. *)
Definition sent_task_id_ok (e : Event) : Prop :=
  match e with
  | EvRequest (ReqUpdateTimeEntry _ p) => upd_task_id p <> Some (Some "")
  | EvRequest (ReqInsertTimeEntry p) => ins_task_id p <> Some ""
  | _ => True
  end.

Definition stored_task_ids_ok (db : Database) : Prop :=
  Forall (fun e => te_task_id e <> Some "") (tbl_time_entries db).

(** A draft with a project chosen, and the card form of [entry_fri] with
    its task cleared. *)
Definition draft_with_project : NewEntry :=
  {| ne_date := "2024-02-29";
     ne_project_id := "p1";
     ne_task_id := "";
     ne_start_time := "11:00";
     ne_end_time := "10:00";
     ne_description := "" |}.

Definition form_task_cleared : FormData :=
  {| fd_project_id := "p1";
     fd_task_id := "";
     fd_start_time := "13:00";
     fd_end_time := "15:00";
     fd_description := "" |}.

(** The tables hold no blank task id and no request on the log carried
    one. *)
Definition task_ids_ok (w : World) : Prop :=
  stored_task_ids_ok (w_db w) /\ Forall sent_task_id_ok (w_log w).

(** Runs the visible effects of a goal down to worlds. *)
Ltac run_effects :=
  unfold try_catch, bind, throw_if_error, throw, ret, toast_success,
    toast_error, console_error, emit, setEditingEntry, setNewEntry,
    modify_view;
  cbn [fst snd w_db w_view w_log];
  rewrite <- ?app_assoc;
  cbn [app].

(* ------------------------------------------------------------------ *)
(** ** The week grid: day columns and form edits *)

(** [tasks.filter(task => task.project_id === project_id)], the
    [projectTasks] of both forms. *)
Definition projectTasks (tasks : list Task) (project : string) : list Task :=
  filter (fun task => String.eqb (task_project_id task) project) tasks.

(** What the user can do to a form: choose an option of the project
    select, choose an option of the task select, edit the two times and
    the description. *)
Inductive FormEdit : Type :=
| PickProject (value : string)
| PickTask (value : string)
| EditStart (value : string)
| EditEnd (value : string)
| EditDescription (value : string).

(** The [onChange] handlers of [NewEntryForm]. *)
Definition NewEntryForm_change (entry : NewEntry) (e : FormEdit) : NewEntry :=
  match e with
  | PickProject v =>
      mkNewEntry (ne_date entry) v "" (ne_start_time entry)
                 (ne_end_time entry) (ne_description entry)
  | PickTask v =>
      mkNewEntry (ne_date entry) (ne_project_id entry) v (ne_start_time entry)
                 (ne_end_time entry) (ne_description entry)
  | EditStart v =>
      mkNewEntry (ne_date entry) (ne_project_id entry) (ne_task_id entry) v
                 (ne_end_time entry) (ne_description entry)
  | EditEnd v =>
      mkNewEntry (ne_date entry) (ne_project_id entry) (ne_task_id entry)
                 (ne_start_time entry) v (ne_description entry)
  | EditDescription v =>
      mkNewEntry (ne_date entry) (ne_project_id entry) (ne_task_id entry)
                 (ne_start_time entry) (ne_end_time entry) v
  end.

(** The [onChange] handlers of [TimeEntryCard]. *)
Definition TimeEntryCard_change (formData : FormData) (e : FormEdit) : FormData :=
  match e with
  | PickProject v =>
      mkFormData v "" (fd_start_time formData) (fd_end_time formData)
                 (fd_description formData)
  | PickTask v =>
      mkFormData (fd_project_id formData) v (fd_start_time formData)
                 (fd_end_time formData) (fd_description formData)
  | EditStart v =>
      mkFormData (fd_project_id formData) (fd_task_id formData) v
                 (fd_end_time formData) (fd_description formData)
  | EditEnd v =>
      mkFormData (fd_project_id formData) (fd_task_id formData)
                 (fd_start_time formData) v (fd_description formData)
  | EditDescription v =>
      mkFormData (fd_project_id formData) (fd_task_id formData)
                 (fd_start_time formData) (fd_end_time formData) v
  end.

(** The [value]s of the options a select renders: the blank option, then
    one option per project; for tasks, the select only exists when the
    chosen project has tasks. *)
Definition project_options (projects : list Project) : list string :=
  "" :: map project_id projects.

Definition task_options (tasks : list Task) (project : string) : list string :=
  match projectTasks tasks project with
  | [] => []
  | l => "" :: map task_id l
  end.

(** An edit the rendered form allows, given the project chosen so far. *)
Definition edit_offered (projects : list Project) (tasks : list Task)
           (project : string) (e : FormEdit) : Prop :=
  match e with
  | PickProject v => In v (project_options projects)
  | PickTask v => In v (task_options tasks project)
  | _ => True
  end.

(** A run of edits on the new-entry form, each offered by the form as it
    then stands. *)
Inductive new_entry_edits (projects : list Project) (tasks : list Task)
  : NewEntry -> NewEntry -> Prop :=
| ne_edits_done (entry : NewEntry) : new_entry_edits projects tasks entry entry
| ne_edits_step (entry entry' : NewEntry) (e : FormEdit) :
    new_entry_edits projects tasks entry entry' ->
    edit_offered projects tasks (ne_project_id entry') e ->
    new_entry_edits projects tasks entry (NewEntryForm_change entry' e).

(** The same on the edit form of a card. *)
Inductive card_edits (projects : list Project) (tasks : list Task)
  : FormData -> FormData -> Prop :=
| card_edits_done (fd : FormData) : card_edits projects tasks fd fd
| card_edits_step (fd fd' : FormData) (e : FormEdit) :
    card_edits projects tasks fd fd' ->
    edit_offered projects tasks (fd_project_id fd') e ->
    card_edits projects tasks fd (TimeEntryCard_change fd' e).

(** The task, if any, is one of the listed tasks of the project. *)
Definition task_of_project (tasks : list Task) (project task : string) : Prop :=
  task = ""
  \/ exists t, In t tasks /\ task_id t = task /\ task_project_id t = project.

(** The task a write request names. *)
Definition request_task (r : Request) : option string :=
  match r with
  | ReqUpdateTimeEntry _ p =>
      match upd_task_id p with
      | Some t => t
      | None => None
      end
  | ReqInsertTimeEntry p => ins_task_id p
  | _ => None
  end.

Definition request_project (r : Request) : option string :=
  match r with
  | ReqUpdateTimeEntry _ p => upd_project_id p
  | ReqInsertTimeEntry p => ins_project_id p
  | _ => None
  end.

(** Sample edits for the examples: choose project p1, then its task t1. *)
Definition draft_thu : NewEntry :=
  {| ne_date := "2024-02-29";
     ne_project_id := "";
     ne_task_id := "";
     ne_start_time := "09:00";
     ne_end_time := "10:00";
     ne_description := "" |}.

Definition sample_projects : list Project := [mkProject "p1" "Site" "Acme"].
Definition sample_tasks : list Task := [mkTask "t1" "Design" "p1"].

(* ------------------------------------------------------------------ *)
(** ** Effects over any component state

    The same state-and-exception computations as above, for components
    with their own state and their own requests. *)

Section Effects.

Variable Req : Type.
Variable St : Type.

Inductive Ev : Type :=
| EvReq (r : Req)
| EvSuccess (msg : string)
| EvError (msg : string)
| EvConsole (msg : string)
| EvConfirm (msg : string).

Record Scene : Type := mkScene {
  sc_state : St;
  sc_log : list Ev
}.

Definition Eff (A : Type) : Type := Scene -> Result A * Scene.

Definition eret {A : Type} (a : A) : Eff A := fun s => (Ok a, s).

Definition ebind {A B : Type} (m : Eff A) (f : A -> Eff B) : Eff B :=
  fun s =>
    match m s with
    | (Ok a, s') => f a s'
    | (Thrown, s') => (Thrown, s')
    end.

Definition ethrow {A : Type} : Eff A := fun s => (Thrown, s).

Definition etry_catch {A : Type} (body handler : Eff A) : Eff A :=
  fun s =>
    match body s with
    | (Ok a, s') => (Ok a, s')
    | (Thrown, s') => handler s'
    end.

Definition etry_finally {A : Type} (body : Eff A) (fin : Eff unit) : Eff A :=
  fun s =>
    match body s with
    | (r, s') =>
        match fin s' with
        | (Ok _, s'') => (r, s'')
        | (Thrown, s'') => (Thrown, s'')
        end
    end.

Definition elog (e : Ev) : Eff unit :=
  fun s => (Ok tt, mkScene (sc_state s) (sc_log s ++ [e])).

Definition eget : Eff St := fun s => (Ok (sc_state s), s).

Definition emodify (f : St -> St) : Eff unit :=
  fun s => (Ok tt, mkScene (f (sc_state s)) (sc_log s)).

(** The requests among the events of a log. *)
Fixpoint sent (l : list Ev) : list Req :=
  match l with
  | [] => []
  | EvReq r :: t => r :: sent t
  | _ :: t => sent t
  end.

End Effects.

Arguments EvReq {Req} r.
Arguments EvSuccess {Req} msg.
Arguments EvError {Req} msg.
Arguments EvConsole {Req} msg.
Arguments EvConfirm {Req} msg.
Arguments mkScene {Req St} sc_state sc_log.
Arguments sc_state {Req St} s.
Arguments sc_log {Req St} s.
Arguments eret {Req St A} a.
Arguments ebind {Req St A B} m f.
Arguments ethrow {Req St A}.
Arguments etry_catch {Req St A} body handler.
Arguments etry_finally {Req St A} body fin.
Arguments elog {Req St} e.
Arguments eget {Req St}.
Arguments emodify {Req St} f.
Arguments sent {Req} l.

Declare Scope eff_scope.
Delimit Scope eff_scope with eff.
Notation "x <- m ;; k" := (ebind m (fun x => k))
  (at level 61, m at next level, right associativity) : eff_scope.
Notation "m ;; k" := (ebind m (fun _ => k))
  (at level 61, right associativity) : eff_scope.

(** JS white space among the code units below 256: tab, line feed,
    vertical tab, form feed, carriage return, space and no-break space.
    Strings are read as sequences of such code units. *)
Definition is_white_space (c : ascii) : bool :=
  let n := nat_of_ascii c in
  ((9 <=? n)%nat && (n <=? 13)%nat) || (n =? 32)%nat || (n =? 160)%nat.

Fixpoint trimStart (s : string) : string :=
  match s with
  | EmptyString => EmptyString
  | String c r => if is_white_space c then trimStart r else s
  end.

Fixpoint trimEnd (s : string) : string :=
  match s with
  | EmptyString => EmptyString
  | String c r =>
      match trimEnd r with
      | EmptyString => if is_white_space c then EmptyString
                       else String c EmptyString
      | r' => String c r'
      end
  end.

(** [s.trim()] *)
Definition trim (s : string) : string := trimEnd (trimStart s).

(** Every code unit of the string is white space. *)
Fixpoint all_white_space (s : string) : bool :=
  match s with
  | EmptyString => true
  | String c r => is_white_space c && all_white_space r
  end.

(* ------------------------------------------------------------------ *)
(** ** components/AuthForm.tsx *)

Record AuthFormState : Type := mkAuthFormState {
  af_email : string;
  af_name : string;
  af_isLoading : bool
}.

(** [handleSubmit]: [signIn] is awaited between the two updates of
    [isLoading]; were it to throw, the second update would not run. *)
Definition AuthForm_handleSubmit (env : Env) (st : AuthFormState) (w : World)
  : AuthFormState * World :=
  if negb (truthy (trim (af_email st))) then (st, w)
  else
    match signIn env (trim (af_email st)) (Some (trim (af_name st))) w with
    | (Ok _, w') => (mkAuthFormState (af_email st) (af_name st) false, w')
    | (Thrown, w') => (mkAuthFormState (af_email st) (af_name st) true, w')
    end.

(* ------------------------------------------------------------------ *)
(** ** components/Projects.tsx *)

Module ProjectsView.

#[local] Open Scope eff_scope.

(** [Record<string, any>], as its keys with printed values. *)
Definition Metadata : Type := list (string * string).

(** The component's [interface Project] and [interface Task]. *)
Record ProjectRow : Type := mkProjectRow {
  pr_id : string;
  pr_name : string;
  pr_client : string;
  pr_description : string;
  pr_start_date : string;
  pr_created_at : string
}.

Record TaskRow : Type := mkTaskRow {
  tk_id : string;
  tk_project_id : string;
  tk_name : string;
  tk_description : string;
  tk_metadata : Metadata
}.

(** [Partial<Project>] and [Partial<Task>]: what the forms hand over. *)
Record ProjectData : Type := mkProjectData {
  pd_id : option string;
  pd_name : option string;
  pd_client : option string;
  pd_description : option string;
  pd_start_date : option string
}.

Record TaskData : Type := mkTaskData {
  td_id : option string;
  td_project_id : option string;
  td_name : option string;
  td_description : option string;
  td_metadata : option Metadata
}.

(** Request bodies; a column that is [None] is not in the request. *)
Record ProjectUpdate : Type := mkProjectUpdate {
  pu_name : option string;
  pu_client : option string;
  pu_description : option string;
  pu_start_date : option string;
  pu_updated_at : option string
}.

Record ProjectInsert : Type := mkProjectInsert {
  pi_name : option string;
  pi_client : option string;
  pi_description : option string;
  pi_start_date : option string
}.

Record TaskUpdate : Type := mkTaskUpdate {
  tu_project_id : option string;
  tu_name : option string;
  tu_description : option string;
  tu_metadata : option Metadata;
  tu_updated_at : option string
}.

Record TaskInsert : Type := mkTaskInsert {
  ti_project_id : option string;
  ti_name : option string;
  ti_description : string;
  ti_metadata : Metadata
}.

Inductive PageRequest : Type :=
| SelectProjects
| SelectTasks
| UpdateProject (id : string) (body : ProjectUpdate)
| InsertProject (body : ProjectInsert)
| DeleteProject (id : string)
| UpdateTask (id : string) (body : TaskUpdate)
| InsertTask (body : TaskInsert)
| DeleteTask (id : string).

Inductive PageResponse : Type :=
| PageError
| PageDone
| PageProjects (l : list ProjectRow)
| PageTasks (l : list TaskRow).

(** The React state of [Projects]. *)
Record PageState : Type := mkPageState {
  projects : list ProjectRow;
  tasks : list TaskRow;
  loading : bool;
  editingProject : option string;
  showNewProject : bool;
  selectedProject : option string;
  showNewTask : bool
}.

(** What the environment decides for the page: the backend's answer to
    each request, the user's answer to each [confirm], the clock. *)
Record PageEnv : Type := mkPageEnv {
  respond : PageRequest -> PageResponse;
  confirm : string -> bool;
  page_nowISO : string;
  page_today : Date
}.

Definition Page (A : Type) : Type := Eff PageRequest PageState A.

Definition setProjects (l : list ProjectRow) : Page unit :=
  emodify (fun s => mkPageState l (tasks s) (loading s) (editingProject s)
                                (showNewProject s) (selectedProject s)
                                (showNewTask s)).

Definition setTasks (l : list TaskRow) : Page unit :=
  emodify (fun s => mkPageState (projects s) l (loading s) (editingProject s)
                                (showNewProject s) (selectedProject s)
                                (showNewTask s)).

Definition setLoading (b : bool) : Page unit :=
  emodify (fun s => mkPageState (projects s) (tasks s) b (editingProject s)
                                (showNewProject s) (selectedProject s)
                                (showNewTask s)).

Definition setEditingProject (o : option string) : Page unit :=
  emodify (fun s => mkPageState (projects s) (tasks s) (loading s) o
                                (showNewProject s) (selectedProject s)
                                (showNewTask s)).

Definition setShowNewProject (b : bool) : Page unit :=
  emodify (fun s => mkPageState (projects s) (tasks s) (loading s)
                                (editingProject s) b (selectedProject s)
                                (showNewTask s)).

Definition setShowNewTask (b : bool) : Page unit :=
  emodify (fun s => mkPageState (projects s) (tasks s) (loading s)
                                (editingProject s) (showNewProject s)
                                (selectedProject s) b).

Section Page.

Variable env : PageEnv.

Definition ask (r : PageRequest) : Page PageResponse :=
  fun s => (Ok (respond env r), mkScene (sc_state s) (sc_log s ++ [EvReq r])).

(** [if (error) throw error] *)
Definition throw_if_refused (r : PageResponse) : Page unit :=
  match r with
  | PageError => ethrow
  | _ => eret tt
  end.

(** [confirm(msg)]: the dialog is shown and answered. *)
Definition ask_confirm (msg : string) : Page bool :=
  fun s => (Ok (confirm env msg),
            mkScene (sc_state s) (sc_log s ++ [EvConfirm msg])).

(** A request is sent, and the answer to a request sent earlier
    arrives: the two halves of [ask]. *)
Definition send (r : PageRequest) : Page unit := elog (EvReq r).

Definition answer (r : PageRequest) : Page PageResponse :=
  eret (respond env r).

(** An async function runs up to its first [await] when it is called,
    which sends its request, and goes on when the answer arrives.
    [query] is what that [await] yields: [ask] where nothing else runs
    in between, [answer] where the request was sent earlier. *)
Definition fetchProjects_from (query : Page PageResponse) : Page unit :=
  etry_finally
    (etry_catch
       (r <- query ;;
        throw_if_refused r ;;
        setProjects (match r with PageProjects l => l | _ => [] end))
       (elog (EvConsole "Error fetching projects:") ;;
        elog (EvError "Failed to load projects")))
    (setLoading false).

Definition fetchProjects : Page unit := fetchProjects_from (ask SelectProjects).

Definition fetchTasks_from (query : Page PageResponse) : Page unit :=
  etry_catch
    (r <- query ;;
     throw_if_refused r ;;
     setTasks (match r with PageTasks l => l | _ => [] end))
    (elog (EvConsole "Error fetching tasks:")).

Definition fetchTasks : Page unit := fetchTasks_from (ask SelectTasks).

(** The effect run once when the page is mounted calls both functions
    without awaiting either: both requests are sent, in this order,
    before any answer is handled, and the answers are handled in the
    order they arrive, tasks first or projects first. *)
Definition mount (tasksFirst : bool) : Page unit :=
  send SelectProjects ;;
  send SelectTasks ;;
  if tasksFirst
  then fetchTasks_from (answer SelectTasks) ;;
       fetchProjects_from (answer SelectProjects)
  else fetchProjects_from (answer SelectProjects) ;;
       fetchTasks_from (answer SelectTasks).

Definition project_update_body (projectData : ProjectData) : ProjectUpdate :=
  {| pu_name := pd_name projectData;
     pu_client := pd_client projectData;
     pu_description := pd_description projectData;
     pu_start_date := pd_start_date projectData;
     pu_updated_at := Some (page_nowISO env) |}.

Definition project_insert_body (projectData : ProjectData) : ProjectInsert :=
  {| pi_name := pd_name projectData;
     pi_client := pd_client projectData;
     pi_description := pd_description projectData;
     pi_start_date := pd_start_date projectData |}.

Definition saveProject (projectData : ProjectData) : Page unit :=
  etry_catch
    ((match or_null (pd_id projectData) with
      | Some id =>
          (* Update existing project *)
          r <- ask (UpdateProject id (project_update_body projectData)) ;;
          throw_if_refused r ;;
          elog (EvSuccess "Project updated successfully")
      | None =>
          (* Create new project *)
          r <- ask (InsertProject (project_insert_body projectData)) ;;
          throw_if_refused r ;;
          elog (EvSuccess "Project created successfully")
      end) ;;
     setEditingProject None ;;
     setShowNewProject false ;;
     fetchProjects)
    (elog (EvConsole "Error saving project:") ;;
     elog (EvError "Failed to save project")).

Definition deleteProject (id : string) : Page unit :=
  ok <- ask_confirm "Are you sure you want to delete this project? This will also delete all associated tasks and time entries." ;;
  if negb ok then eret tt
  else
    etry_catch
      (r <- ask (DeleteProject id) ;;
       throw_if_refused r ;;
       elog (EvSuccess "Project deleted successfully") ;;
       fetchProjects)
      (elog (EvConsole "Error deleting project:") ;;
       elog (EvError "Failed to delete project")).

Definition task_update_body (taskData : TaskData) : TaskUpdate :=
  {| tu_project_id := None;
     tu_name := td_name taskData;
     tu_description := td_description taskData;
     tu_metadata := td_metadata taskData;
     tu_updated_at := Some (page_nowISO env) |}.

Definition task_insert_body (taskData : TaskData) : TaskInsert :=
  {| ti_project_id := td_project_id taskData;
     ti_name := td_name taskData;
     ti_description := match or_null (td_description taskData) with
                       | Some d => d
                       | None => ""
                       end;
     ti_metadata := match td_metadata taskData with
                    | Some m => m
                    | None => []
                    end |}.

Definition saveTask (taskData : TaskData) : Page unit :=
  etry_catch
    ((match or_null (td_id taskData) with
      | Some id =>
          (* Update existing task *)
          r <- ask (UpdateTask id (task_update_body taskData)) ;;
          throw_if_refused r ;;
          elog (EvSuccess "Task updated successfully")
      | None =>
          (* Create new task *)
          r <- ask (InsertTask (task_insert_body taskData)) ;;
          throw_if_refused r ;;
          elog (EvSuccess "Task created successfully")
      end) ;;
     setShowNewTask false ;;
     fetchTasks)
    (elog (EvConsole "Error saving task:") ;;
     elog (EvError "Failed to save task")).

Definition deleteTask (id : string) : Page unit :=
  ok <- ask_confirm "Are you sure you want to delete this task? This will also delete all associated time entries." ;;
  if negb ok then eret tt
  else
    etry_catch
      (r <- ask (DeleteTask id) ;;
       throw_if_refused r ;;
       elog (EvSuccess "Task deleted successfully") ;;
       fetchTasks)
      (elog (EvConsole "Error deleting task:") ;;
       elog (EvError "Failed to delete task")).

Definition getProjectTasks (tasks : list TaskRow) (projectId : string)
  : list TaskRow :=
  filter (fun task => String.eqb (tk_project_id task) projectId) tasks.

(** *** ProjectForm *)

Record ProjectFormData : Type := mkProjectFormData {
  pf_name : string;
  pf_client : string;
  pf_description : string;
  pf_start_date : string
}.

(** The initial [formData]: the project's values, or blanks and today. *)
Definition ProjectForm_initial (project : option ProjectRow) : ProjectFormData :=
  match project with
  | Some p =>
      {| pf_name := pr_name p;
         pf_client := pr_client p;
         pf_description := pr_description p;
         pf_start_date := if truthy (pr_start_date p) then pr_start_date p
                          else format_yyyy_MM_dd (page_today env) |}
  | None =>
      {| pf_name := "";
         pf_client := "";
         pf_description := "";
         pf_start_date := format_yyyy_MM_dd (page_today env) |}
  end.

(** [{ ...(project ? { id: project.id } : {}), ...formData }] *)
Definition project_data_of_form (project : option ProjectRow)
           (formData : ProjectFormData) : ProjectData :=
  {| pd_id := option_map pr_id project;
     pd_name := Some (pf_name formData);
     pd_client := Some (pf_client formData);
     pd_description := Some (pf_description formData);
     pd_start_date := Some (pf_start_date formData) |}.

Definition ProjectForm_handleSubmit (project : option ProjectRow)
           (formData : ProjectFormData) : Page unit :=
  if negb (truthy (trim (pf_name formData)))
     || negb (truthy (trim (pf_client formData)))
  then elog (EvError "Please fill in all required fields")
  else saveProject (project_data_of_form project formData).

(** *** TaskForm *)

Record TaskFormData : Type := mkTaskFormData {
  tf_name : string;
  tf_description : string;
  tf_metadata : Metadata
}.

Definition TaskForm_initial (task : option TaskRow) : TaskFormData :=
  match task with
  | Some t =>
      {| tf_name := tk_name t;
         tf_description := tk_description t;
         tf_metadata := tk_metadata t |}
  | None => {| tf_name := ""; tf_description := ""; tf_metadata := [] |}
  end.

(** [{ ...(task ? { id: task.id } : {}), project_id: projectId, ...formData }] *)
Definition task_data_of_form (projectId : string) (task : option TaskRow)
           (formData : TaskFormData) : TaskData :=
  {| td_id := option_map tk_id task;
     td_project_id := Some projectId;
     td_name := Some (tf_name formData);
     td_description := Some (tf_description formData);
     td_metadata := Some (tf_metadata formData) |}.

Definition TaskForm_handleSubmit (projectId : string) (task : option TaskRow)
           (formData : TaskFormData) : Page unit :=
  if negb (truthy (trim (tf_name formData)))
  then elog (EvError "Please enter a task name")
  else saveTask (task_data_of_form projectId task formData).

End Page.

(** Update-by-id on a stored task replaces the columns the request
    carries. *)
Definition patch_task (body : TaskUpdate) (t : TaskRow) : TaskRow :=
  {| tk_id := tk_id t;
     tk_project_id := from_option (tu_project_id body) (tk_project_id t);
     tk_name := from_option (tu_name body) (tk_name t);
     tk_description := from_option (tu_description body) (tk_description t);
     tk_metadata := from_option (tu_metadata body) (tk_metadata t) |}.

(** Is the request a write? *)
Definition is_write (r : PageRequest) : bool :=
  match r with
  | SelectProjects | SelectTasks => false
  | _ => true
  end.

(** A page environment for the examples: everything is accepted and
    every dialog confirmed. *)
Definition page_env_ok : PageEnv :=
  {| respond := fun r =>
       match r with
       | SelectProjects =>
           PageProjects [mkProjectRow "p1" "Site" "Acme" "" "2024-02-01"
                                      "2024-02-01T08:00:00Z"]
       | SelectTasks => PageTasks [mkTaskRow "t1" "p1" "Design" "" []]
       | _ => PageDone
       end;
     confirm := fun _ => true;
     page_nowISO := "2024-03-01T12:00:00.000Z";
     page_today := makeDate 19783 0 |}.

Definition page0 : Scene PageRequest PageState :=
  mkScene (mkPageState [] [] true None true None false) [].

End ProjectsView.

Module PV := ProjectsView.

(** The two prompts of the page. *)
Definition project_delete_prompt : string :=
  "Are you sure you want to delete this project? This will also delete all associated tasks and time entries.".

Definition task_delete_prompt : string :=
  "Are you sure you want to delete this task? This will also delete all associated time entries.".

(** An event of the page that is not a write request. *)
Definition page_no_write (e : Ev PV.PageRequest) : Prop :=
  match e with
  | EvReq r => PV.is_write r = false
  | _ => True
  end.

(** The write request [saveProject] builds. *)
Definition save_project_request (env : PV.PageEnv) (projectData : PV.ProjectData)
  : PV.PageRequest :=
  match or_null (PV.pd_id projectData) with
  | Some id => PV.UpdateProject id (PV.project_update_body env projectData)
  | None => PV.InsertProject (PV.project_insert_body projectData)
  end.

Definition save_project_toast (projectData : PV.ProjectData) : string :=
  match or_null (PV.pd_id projectData) with
  | Some _ => "Project updated successfully"
  | None => "Project created successfully"
  end.

(** The write request [saveTask] builds. *)
Definition save_task_request (env : PV.PageEnv) (taskData : PV.TaskData)
  : PV.PageRequest :=
  match or_null (PV.td_id taskData) with
  | Some id => PV.UpdateTask id (PV.task_update_body env taskData)
  | None => PV.InsertTask (PV.task_insert_body taskData)
  end.

Definition save_task_toast (taskData : PV.TaskData) : string :=
  match or_null (PV.td_id taskData) with
  | Some _ => "Task updated successfully"
  | None => "Task created successfully"
  end.

(** The page state after [setEditingProject(null)] and
    [setShowNewProject(false)], and after [setShowNewTask(false)]. *)
Definition project_forms_closed (s : PV.PageState) : PV.PageState :=
  PV.mkPageState (PV.projects s) (PV.tasks s) (PV.loading s) None false
                 (PV.selectedProject s) (PV.showNewTask s).

Definition task_form_closed (s : PV.PageState) : PV.PageState :=
  PV.mkPageState (PV.projects s) (PV.tasks s) (PV.loading s)
                 (PV.editingProject s) (PV.showNewProject s)
                 (PV.selectedProject s) false.

(** The page state after [fetchProjects] and after [fetchTasks]. *)
Definition after_fetchProjects (env : PV.PageEnv) (s : PV.PageState)
  : PV.PageState :=
  PV.mkPageState
    (match PV.respond env PV.SelectProjects with
     | PV.PageError => PV.projects s
     | PV.PageProjects l => l
     | _ => []
     end)
    (PV.tasks s) false (PV.editingProject s) (PV.showNewProject s)
    (PV.selectedProject s) (PV.showNewTask s).

Definition after_fetchTasks (env : PV.PageEnv) (s : PV.PageState)
  : PV.PageState :=
  match PV.respond env PV.SelectTasks with
  | PV.PageError => s
  | r =>
      PV.mkPageState
        (PV.projects s)
        (match r with PV.PageTasks l => l | _ => [] end)
        (PV.loading s) (PV.editingProject s) (PV.showNewProject s)
        (PV.selectedProject s) (PV.showNewTask s)
  end.

(** What [fetchProjects] and [fetchTasks] add to the log. *)
Definition fetchProjects_events (env : PV.PageEnv) : list (Ev PV.PageRequest) :=
  EvReq PV.SelectProjects
  :: match PV.respond env PV.SelectProjects with
     | PV.PageError => [EvConsole "Error fetching projects:";
                        EvError "Failed to load projects"]
     | _ => []
     end.

Definition fetchTasks_events (env : PV.PageEnv) : list (Ev PV.PageRequest) :=
  EvReq PV.SelectTasks
  :: match PV.respond env PV.SelectTasks with
     | PV.PageError => [EvConsole "Error fetching tasks:"]
     | _ => []
     end.

(** A page environment whose backend refuses everything. *)
Definition page_env_refusing : PV.PageEnv :=
  {| PV.respond := fun _ => PV.PageError;
     PV.confirm := fun _ => false;
     PV.page_nowISO := "2024-03-01T12:00:00.000Z";
     PV.page_today := makeDate 19783 0 |}.

(* ------------------------------------------------------------------ *)
(** ** App.tsx and the highlighting of Layout.tsx *)

Inductive Content : Type :=
| ContentTimeTracking
| ContentProjects
| ContentAnalyticsSoon
| ContentManagementSoon.

(** [renderCurrentView]: a switch on the view id with a default. *)
Definition renderCurrentView (currentView : string) : Content :=
  if String.eqb currentView "timetracking" then ContentTimeTracking
  else if String.eqb currentView "projects" then ContentProjects
  else if String.eqb currentView "analytics" then ContentAnalyticsSoon
  else if String.eqb currentView "management" then ContentManagementSoon
  else ContentTimeTracking.

(** What is rendered: the spinner, the sign-in form, or the layout
    with its navigation, the ids it highlights and the content. *)
Inductive Screen : Type :=
| ScreenSpinner
| ScreenAuthForm
| ScreenLayout (nav : list NavItem) (highlighted : list string) (content : Content).

(** The items of the navigation drawn as current:
    [currentView === item.id]. *)
Definition highlighted_items (nav : list NavItem) (currentView : string)
  : list string :=
  map nav_id (filter (fun item => String.eqb currentView (nav_id item)) nav).

(** What [Layout] draws: its navigation, computed from the user its own
    call of [useAuth()] holds, the ids drawn as current, and the
    children it is given. *)
Definition Layout_render (layoutUser : option User) (currentView : string)
           (children : Content) : Screen :=
  ScreenLayout (navigation layoutUser)
               (highlighted_items (navigation layoutUser) currentView)
               children.

(** [App] and [Layout] each call [useAuth()], a hook with state of its
    own and no shared context: [user] and [loading] are the state of
    App's call, [layoutUser] is the user of Layout's call, [null] when
    Layout is first rendered and until its own session check ends. *)
Definition App_render (user : option User) (loading : bool)
           (currentView : string) (layoutUser : option User) : Screen :=
  if loading then ScreenSpinner
  else match user with
       | None => ScreenAuthForm
       | Some _ =>
           Layout_render layoutUser currentView (renderCurrentView currentView)
       end.

(** The view shown when the application starts: [useState('timetracking')]. *)
Definition initialView : string := "timetracking".

(* ------------------------------------------------------------------ *)
(** ** hooks/useAuth.ts: session, profile and sign-out *)

Module AuthHook.

#[local] Open Scope eff_scope.

Inductive AuthRequest : Type :=
| GetSession
| SelectUser (email : string)
| AuthSignOut.

(** The state of the hook. *)
Record AuthState : Type := mkAuthState {
  user : option User;
  loading : bool
}.

(** [supabase.auth.getSession()]: it rejects, or resolves to no session,
    or to a session whose user may lack an email. *)
Inductive SessionAnswer : Type :=
| SessionRejects
| NoSession
| SessionOf (email : option string).

(** The events of [onAuthStateChange] the handler tells apart. *)
Inductive AuthEvent : Type :=
| SIGNED_IN (sessionUser : option string)   (* the user's email, if any user *)
| SIGNED_OUT
| OtherEvent.

(** [supabase.auth.signOut()]: it rejects, or resolves to a result that
    may hold an error. *)
Inductive SignOutAnswer : Type :=
| SignOutRejects
| SignOutResolves (error : bool).

(** What the environment decides for the hook: the session, the row of
    [users] for an email (none stands for an error of [.single()]), and
    the outcome of [signOut]. *)
Record AuthEnv : Type := mkAuthEnv {
  session : SessionAnswer;
  profile : string -> option User;
  signOut_answer : SignOutAnswer
}.

Definition Hook (A : Type) : Type := Eff AuthRequest AuthState A.

Definition setUser (u : option User) : Hook unit :=
  emodify (fun s => mkAuthState u (loading s)).

Definition setLoading (b : bool) : Hook unit :=
  emodify (fun s => mkAuthState (user s) b).

Section Hook.

Variable env : AuthEnv.

Definition fetchUserProfile (email : string) : Hook unit :=
  etry_catch
    (elog (EvReq (SelectUser email)) ;;
     match profile env email with
     | None => ethrow
     | Some data => setUser (Some data)
     end)
    (elog (EvConsole "Error fetching user profile:") ;;
     setUser None).

Definition checkSession : Hook unit :=
  etry_finally
    (etry_catch
       (elog (EvReq GetSession) ;;
        match session env with
        | SessionRejects => ethrow
        | SessionOf (Some email) =>
            if truthy email then fetchUserProfile email else eret tt
        | _ => eret tt
        end)
       (elog (EvConsole "Error checking session:")))
    (setLoading false).

(** The listener given to [onAuthStateChange]; the email of a session
    user is taken as present, as the non-null assertion says. *)
Definition onAuthStateChange (event : AuthEvent) : Hook unit :=
  (match event with
   | SIGNED_IN (Some email) => fetchUserProfile email
   | SIGNED_OUT => setUser None
   | _ => eret tt
   end) ;;
  setLoading false.

Definition signOut : Hook unit :=
  etry_catch
    (elog (EvReq AuthSignOut) ;;
     match signOut_answer env with
     | SignOutRejects => ethrow
     | SignOutResolves _ => eret tt     (* the result is not inspected *)
     end ;;
     setUser None ;;
     elog (EvSuccess "Signed out successfully"))
    (elog (EvConsole "Error signing out:") ;;
     elog (EvError "Failed to sign out")).

End Hook.

End AuthHook.

Module AH := AuthHook.

(** [date.getFullYear()] *)
Definition getFullYear (d : Date) : Z :=
  let '(y, _, _) := civil_from_days (dayNumber d) in y.

(** Reads a string of the form [YYYY-MM-DD] back into its three
    numbers, without judging them. *)
Definition read_ymd (s : string) : option (Z * Z * Z) :=
  match two_digits s with
  | Some (c, r0) =>
      match two_digits r0 with
      | Some (yy, String "-" r1) =>
          match two_digits r1 with
          | Some (m, String "-" r2) =>
              match two_digits r2 with
              | Some (d, EmptyString) => Some (100 * c + yy, m, d)
              | _ => None
              end
          | _ => None
          end
      | _ => None
      end
  | None => None
  end.

(** The seven columns of the grid, as [weekDays] yields them where the
    offset of the local clock does not change: the days from [weekStart]
    on. *)
Definition week_columns (env : Env) (currentWeek : Date) : list Date :=
  map (addDays (weekStart env currentWeek)) [0; 1; 2; 3; 4; 5; 6].

(** The time of day [hh:mm:ss], as a [time] column prints it. *)
Definition hhmmss (h m s : Z) : string := hhmm h m ++ ":" ++ pad2 s.

(** Checks, for one time of day with seconds, that the string built by
    [calculateHours] is no date. *)
Definition with_seconds_is_invalid (h m s : Z) : bool :=
  match parseISO_reading ("2000-01-01T" ++ hhmmss h m s ++ ":00") with
  | None => true
  | Some _ => false
  end.

(* ------------------------------------------------------------------ *)
(** ** Dates where the clocks change

    The definitions of [DateFns] read a date off the local clock of an
    environment whose UTC offset never changes.  Here a date is the
    engine's time value, an instant, and the environment has time-zone
    rules with changes of offset; the library functions are the same
    sequences of [getDay], [setDate] and [setHours], which the engine
    carries out on the local clock and converts back. *)

Module Zoned.

(** The rules of the local time zone: the offset from UTC, in
    milliseconds, before the first change, and the changes in
    chronological order, each with its instant and the offset from then
    on. *)
Record Zone : Type := mkZone {
  zone_offset : Z;
  zone_changes : list (Z * Z)
}.

(** The offset in force at the instant [t]. *)
Fixpoint offset_in (o : Z) (changes : list (Z * Z)) (t : Z) : Z :=
  match changes with
  | [] => o
  | (a, o') :: r => if a <=? t then offset_in o' r t else o
  end.

Definition offsetAt (z : Zone) (t : Z) : Z :=
  offset_in (zone_offset z) (zone_changes z) t.

(** The engine's [LocalTime(t)]: what the local clock shows at [t]. *)
Definition LocalTime (z : Zone) (t : Z) : Z := t + offsetAt z t.

(** Every offset of the zone. *)
Definition offsets (z : Zone) : list Z :=
  zone_offset z :: map snd (zone_changes z).

(** The instants at which the local clock shows [l]: none when the
    clocks skip [l], more than one when they show it again after being
    set back. *)
Definition possibleInstants (z : Zone) (l : Z) : list Z :=
  filter (fun t => LocalTime z t =? l) (map (fun o => l - o) (offsets z)).

(** The offset in force before the change that skips the local time
    [l], if one does. *)
Fixpoint skipped_by (o : Z) (changes : list (Z * Z)) (l : Z) : option Z :=
  match changes with
  | [] => None
  | (a, o') :: r =>
      if (a + o <=? l) && (l <? a + o') then Some o else skipped_by o' r l
  end.

(** The engine's [UTC(t)], from a local time to an instant: a local time
    shown more than once is taken at its earliest instant, and a skipped
    one is read with the offset in force before the change, both as the
    language standard lays down. *)
Definition UTC (z : Zone) (l : Z) : Z :=
  match possibleInstants z l with
  | t :: r => fold_left Z.min r t
  | [] =>
      match skipped_by (zone_offset z) (zone_changes z) l with
      | Some o => l - o
      | None => l - zone_offset z
      end
  end.

(** A valid date, as its time value: the milliseconds elapsed since
    1970-01-01T00:00Z. *)
Record Date : Type := mkDate {
  timeValue : Z
}.

(** The engine's [Day(t)], [TimeWithinDay(t)], [WeekDay(t)],
    [MakeTime] and [MakeDate], on local time values. *)
Definition Day (t : Z) : Z := t / millisecondsInDay.
Definition TimeWithinDay (t : Z) : Z := t mod millisecondsInDay.
Definition WeekDay (t : Z) : Z := (Day t + 4) mod 7.
Definition MakeTime (h m s ms : Z) : Z :=
  h * millisecondsInHour + m * millisecondsInMinute + s * 1000 + ms.
Definition MakeDate (day time : Z) : Z := day * millisecondsInDay + time.

(** [date.getTime()] *)
Definition getTime (d : Date) : Z := timeValue d.

(** What the local clock shows at a date. *)
Definition local (z : Zone) (d : Date) : Z := LocalTime z (timeValue d).

(** [date.getDay()] *)
Definition getDay (z : Zone) (d : Date) : Z := WeekDay (local z d).

(** [d.setDate(d.getDate() + delta)]: the day of the local date moves,
    the local time of day stays, and the result is converted back. *)
Definition setDate_relative (z : Zone) (d : Date) (delta : Z) : Date :=
  let t := local z d in
  mkDate (UTC z (MakeDate (Day t + delta) (TimeWithinDay t))).

(** [d.setHours(h, m, s, ms)] *)
Definition setHours (z : Zone) (d : Date) (h m s ms : Z) : Date :=
  let t := local z d in
  mkDate (UTC z (MakeDate (Day t) (MakeTime h m s ms))).

Definition startOfWeek (z : Zone) (defaultOptions : WeekOptions)
           (date : Date) (options : WeekOptions) : Date :=
  let wso := resolveWeekStartsOn options defaultOptions in
  let day := getDay z date in
  let diff := (if day <? wso then 7 else 0) + day - wso in
  setHours z (setDate_relative z date (- diff)) 0 0 0 0.

Definition endOfWeek (z : Zone) (defaultOptions : WeekOptions)
           (date : Date) (options : WeekOptions) : Date :=
  let wso := resolveWeekStartsOn options defaultOptions in
  let day := getDay z date in
  let diff := (if day <? wso then -7 else 0) + 6 - (day - wso) in
  setHours z (setDate_relative z date diff) 23 59 59 999.

Definition addDays (z : Zone) (d : Date) (amount : Z) : Date :=
  setDate_relative z d amount.

Definition addWeeks (z : Zone) (d : Date) (amount : Z) : Date :=
  addDays z d (amount * 7).

Definition subWeeks (z : Zone) (d : Date) (amount : Z) : Date :=
  addWeeks z d (- amount).

(** The loop of [eachDayOfInterval] with step 1. *)
Fixpoint eachDay_loop (z : Zone) (fuel : nat) (currentDate : Date)
         (endTime : Z) : option (list Date) :=
  match fuel with
  | O => None
  | S n =>
      if getTime currentDate <=? endTime
      then match eachDay_loop z n
                   (setHours z (setDate_relative z currentDate 1) 0 0 0 0)
                   endTime with
           | Some l => Some (currentDate :: l)
           | None => None
           end
      else Some []
  end.

(** What [eachDayOfInterval] can end in: its dates, its RangeError, or
    a loop cut short by the bound on iterations. *)
Inductive IntervalResult : Type :=
| Days (l : list Date)
| InvalidInterval
| OutOfFuel.

Definition eachDayOfInterval (z : Zone) (fuel : nat) (start end_ : Date)
  : IntervalResult :=
  let endTime := getTime end_ in
  if negb (getTime start <=? endTime) then InvalidInterval
  else match eachDay_loop z fuel (setHours z start 0 0 0 0) endTime with
       | Some l => Days l
       | None => OutOfFuel
       end.

(** The component's [weekStart], [weekEnd] and [weekDays], and the dates
    its two week buttons hand to [setCurrentWeek]. *)
Definition weekStart (z : Zone) (defaultOptions : WeekOptions)
           (currentWeek : Date) : Date :=
  startOfWeek z defaultOptions currentWeek mondayFirst.

Definition weekEnd (z : Zone) (defaultOptions : WeekOptions)
           (currentWeek : Date) : Date :=
  endOfWeek z defaultOptions currentWeek mondayFirst.

Definition weekDays (z : Zone) (defaultOptions : WeekOptions) (fuel : nat)
           (currentWeek : Date) : IntervalResult :=
  eachDayOfInterval z fuel (weekStart z defaultOptions currentWeek)
                    (weekEnd z defaultOptions currentWeek).

Definition previousWeek (z : Zone) (currentWeek : Date) : Date :=
  subWeeks z currentWeek 1.

Definition nextWeek (z : Zone) (currentWeek : Date) : Date :=
  addWeeks z currentWeek 1.

(** Between the local times [lo] and [hi] the clock runs on the one
    offset [o]: every instant at which it shows a time of that span has
    this offset, and every time of the span is shown. *)
Definition steady (z : Zone) (o lo hi : Z) : Prop :=
  (forall t, lo <= LocalTime z t < hi -> offsetAt z t = o)
  /\ (forall l, lo <= l < hi -> offsetAt z (l - o) = o).

(** The Monday 00:00 at or before a local time. *)
Definition local_monday (l : Z) : Z :=
  MakeDate (Day l - (WeekDay l + 6) mod 7) 0.

(** The instant of a calendar date and time of day in UTC. *)
Definition instant (year month day hours minutes : Z) : Z :=
  MakeDate (days_from_civil year month day) (MakeTime hours minutes 0 0).

(** Zones for the examples, with the changes of Asia/Tehran in 2020 and
    2021 (clocks one hour forward at 00:00, and back at 24:00), the
    change of Africa/Cairo in April 2024 (forward at 00:00 of a Friday)
    and that of America/New_York in March 2024 (forward at 02:00). *)
Definition tehran : Zone :=
  mkZone 12600000
         [ (instant 2020 3 20 20 30, 16200000);
           (instant 2020 9 20 19 30, 12600000);
           (instant 2021 3 21 20 30, 16200000);
           (instant 2021 9 21 19 30, 12600000) ].

Definition cairo : Zone :=
  mkZone 7200000 [ (instant 2024 4 25 22 0, 10800000) ].

Definition new_york : Zone :=
  mkZone (-18000000) [ (instant 2024 3 10 7 0, -14400000) ].


(** 12:30 on Wednesday 2020-06-10 by the clocks of [tehran]. *)
Definition june_noon : Date := mkDate (instant 2020 6 10 8 0).

End Zoned.

(* ================================================================== *)
(** * Properties *)

(** ** The date library on sample inputs *)

Example parseISO_valid_time :
  parseISO 3600000 "2000-01-01T09:00:00" = Some (makeDate 10957 32400000).
Proof. vm_compute. reflexivity. Qed.

Example parseISO_one_digit_hour : parseISO 0 "2000-01-01T9:00:00" = None.
Proof. vm_compute. reflexivity. Qed.

Example parseISO_undefined_time : parseISO 0 "2000-01-01Tundefined:00" = None.
Proof. vm_compute. reflexivity. Qed.

Example parseISO_minute_out_of_range : parseISO 0 "2000-01-01T09:60:00" = None.
Proof. vm_compute. reflexivity. Qed.

(** With a time-zone part the string names an instant, shown here on a
    clock one hour ahead of UTC. *)
Example parseISO_with_offset :
  parseISO 3600000 "2000-01-01T09:00:00+00:00"
  = Some (makeDate 10957 (32400000 + 3600000))
  /\ parseISO 3600000 "2000-01-01T09:00:00+02:00"
     = Some (makeDate 10957 (32400000 - 7200000 + 3600000))
  /\ parseISO 3600000 "2000-01-01T09:00:00Z"
     = Some (makeDate 10957 (32400000 + 3600000)).
Proof. vm_compute. repeat split; reflexivity. Qed.

(** A decimal fraction of the last unit, and a unit cut short so that
    the next one can match. *)
Example parseISO_with_fractions :
  parseISO 0 "2000-01-01T09.5" = Some (makeDate 10957 34200000)
  /\ parseISO 0 "2000-01-01T09:00:00.1239" = Some (makeDate 10957 32400123)
  /\ parseISO 0 "2000-01-01T09.12.5" = Some (makeDate 10957 (32400000 + 750000)).
Proof. vm_compute. repeat split; reflexivity. Qed.

Example format_leap_day : format_yyyy_MM_dd (makeDate 19782 5) = "2024-02-29".
Proof. vm_compute. reflexivity. Qed.

Example format_epoch : format_yyyy_MM_dd (makeDate 0 0) = "1970-01-01".
Proof. vm_compute. reflexivity. Qed.

Example format_year_10000 :
  format_yyyy_MM_dd (makeDate (days_from_civil 10000 1 1) 0) = "10000-01-01".
Proof. vm_compute. reflexivity. Qed.

Example format_year_zero :
  format_yyyy_MM_dd (makeDate (days_from_civil 0 3 1) 0) = "0001-03-01".
Proof. vm_compute. reflexivity. Qed.

Example format_before_epoch :
  format_yyyy_MM_dd (mkDate (-1)) = "1969-12-31".
Proof. vm_compute. reflexivity. Qed.

Example getDay_2024_01_01_is_monday : getDay (makeDate 19723 0) = 1.
Proof. vm_compute. reflexivity. Qed.

(** ** Duration *)

Lemma in_upto (n : nat) (k : Z) : 0 <= k < Z.of_nat n -> In k (upto n).
Proof.
  intros Hk. unfold upto.
  replace k with (Z.of_nat (Z.to_nat k)) by lia.
  apply in_map, in_seq. lia.
Qed.

Lemma parses_to_all :
  forallb (fun h => forallb (parses_to h) (upto 60)) (upto 24) = true.
Proof. vm_compute. reflexivity. Qed.

Lemma parses_to_ok (h m : Z) :
  In h (upto 24) -> In m (upto 60) -> parses_to h m = true.
Proof.
  intros Hh Hm.
  pose proof (proj1 (forallb_forall _ _) parses_to_all h Hh) as H1.
  cbv beta in H1.
  exact (proj1 (forallb_forall _ _) H1 m Hm).
Qed.

Lemma parseISO_hhmm (tzOffset h m : Z) :
  0 <= h < 24 -> 0 <= m < 60 ->
  parseISO tzOffset ("2000-01-01T" ++ hhmm h m ++ ":00")
  = Some (mkDate (10957 * millisecondsInDay
                  + (h * millisecondsInHour + m * millisecondsInMinute))).
Proof.
  intros Hh Hm.
  pose proof (parses_to_ok h m (in_upto 24 h Hh) (in_upto 60 m Hm)) as Hall.
  unfold parses_to in Hall. unfold parseISO.
  destruct (parseISO_reading ("2000-01-01T" ++ hhmm h m ++ ":00")) as [[l|t]|];
    try discriminate.
  apply Z.eqb_eq in Hall. now subst.
Qed.

Lemma number_eqb_eq (a b : number) : number_eqb a b = true -> a = b.
Proof.
  destruct a as [[xn xd]|s|], b as [[yn yd]|t|]; cbn; try discriminate.
  - intros H. apply andb_prop in H. destruct H as [Hn Hd].
    apply Z.eqb_eq in Hn. apply Pos.eqb_eq in Hd. now subst.
  - intros H. apply Bool.eqb_prop in H. now subst.
  - reflexivity.
Qed.

(** The difference of two integers is formed exactly before it is
    rounded. *)
Lemma num_sub_integers (a b : Z) :
  num_sub (Num (inject_Z a)) (Num (inject_Z b)) = round64 (inject_Z (a - b)).
Proof.
  unfold num_sub, round64, Qminus, Qplus, Qopp, inject_Z. cbn [Qnum Qden].
  replace (a * 1 + - b * 1) with (a - b) by lia.
  reflexivity.
Qed.

Lemma duration_ok_all : forallb duration_ok minute_differences = true.
Proof. vm_compute. reflexivity. Qed.

Lemma in_minute_differences (d : Z) :
  -1439 <= d <= 1439 -> In d minute_differences.
Proof.
  intros H. unfold minute_differences.
  apply in_map_iff. exists (Z.to_nat (d + 1439)). split; [lia|].
  apply in_seq. lia.
Qed.

Lemma calculateHours_hhmm (env : Env) (sh sm eh em : Z) :
  0 <= sh < 24 -> 0 <= sm < 60 -> 0 <= eh < 24 -> 0 <= em < 60 ->
  calculateHours env (hhmm sh sm) (hhmm eh em)
  = hours_of_ms (60000 * ((eh * 60 + em) - (sh * 60 + sm))).
Proof.
  intros Hsh Hsm Heh Hem.
  unfold calculateHours.
  rewrite (parseISO_hhmm (tz env) sh sm Hsh Hsm), (parseISO_hhmm (tz env) eh em Heh Hem).
  cbn [getTime_number].
  rewrite num_sub_integers.
  unfold hours_of_ms. f_equal. f_equal. f_equal.
  unfold getTime, localTime, millisecondsInDay, millisecondsInHour,
    millisecondsInMinute.
  lia.
Qed.

(** What the check of one difference says. *)
Lemma duration_ok_spec (d : Z) :
  duration_ok d = true ->
  exists v : Q,
    hours_of_ms (60000 * d) = Num v
    /\ (Qabs (v - (d # 60)) * inject_Z (2 ^ 53) <= Qabs (d # 60))%Q
    /\ (d mod 15 = 0 -> (v == d # 60)%Q)
    /\ Num v = round64 (d # 60)
    /\ (d <= 0 -> (v <= 0)%Q).
Proof.
  unfold duration_ok.
  destruct (hours_of_ms (60000 * d)) as [v| |]; try discriminate.
  intros H. apply andb_prop in H. destruct H as [H H4].
  apply andb_prop in H. destruct H as [H H3].
  apply andb_prop in H. destruct H as [H1 H2].
  exists v. split; [reflexivity|]. split; [|split; [|split]].
  - now apply Qle_bool_iff.
  - intros Hd. apply orb_prop in H2. destruct H2 as [H2|H2].
    + apply negb_true_iff, Z.eqb_neq in H2. contradiction.
    + now apply Qeq_bool_iff.
  - now apply number_eqb_eq.
  - intros Hd. apply orb_prop in H4. destruct H4 as [H4|H4].
    + apply Z.ltb_lt in H4. lia.
    + now apply Qle_bool_iff.
Qed.

(** C1.  For wall-clock times [sh:sm] and [eh:em] of one day, written
    HH:MM, [calculateHours] yields (end - start) in hours as a number of
    the language, whatever the clock offset of the environment: with [d]
    the difference in minutes, the result is the binary64 value nearest
    to [d/60], off it by at most half a unit in the last place, and
    equal to it whenever [d] is a multiple of 15 minutes.  For 09:00 to
    10:30 it yields 1.5 and for 10:00 to 10:00 it yields 0. *)
Theorem calculateHours_is_difference_in_hours
        (env : Env) (sh sm eh em : Z) :
  0 <= sh < 24 -> 0 <= sm < 60 -> 0 <= eh < 24 -> 0 <= em < 60 ->
  (exists v : Q,
      calculateHours env (hhmm sh sm) (hhmm eh em) = Num v
      /\ (Qabs (v - (((eh * 60 + em) - (sh * 60 + sm)) # 60)) * inject_Z (2 ^ 53)
          <= Qabs (((eh * 60 + em) - (sh * 60 + sm)) # 60))%Q
      /\ (((eh * 60 + em) - (sh * 60 + sm)) mod 15 = 0 ->
          (v == ((eh * 60 + em) - (sh * 60 + sm)) # 60)%Q))
  /\ calculateHours env (hhmm sh sm) (hhmm eh em)
     = round64 (((eh * 60 + em) - (sh * 60 + sm)) # 60)
  /\ calculateHours env "09:00" "10:30" = Num (3 # 2)
  /\ calculateHours env "10:00" "10:00" = Num 0.
Proof.
  intros Hsh Hsm Heh Hem.
  assert (Hd : -1439 <= (eh * 60 + em) - (sh * 60 + sm) <= 1439) by lia.
  pose proof (proj1 (forallb_forall _ _) duration_ok_all _
                    (in_minute_differences _ Hd)) as Hok.
  destruct (duration_ok_spec _ Hok) as (v & Hv & Hnear & Hexact & Hround & _).
  rewrite (calculateHours_hhmm env sh sm eh em Hsh Hsm Heh Hem).
  split; [|split; [|split]].
  - exists v. split; [exact Hv|]. split; assumption.
  - now rewrite Hv.
  - change "09:00" with (hhmm 9 0). change "10:30" with (hhmm 10 30).
    rewrite (calculateHours_hhmm env 9 0 10 30) by lia.
    vm_compute. reflexivity.
  - change "10:00" with (hhmm 10 0).
    rewrite (calculateHours_hhmm env 10 0 10 0) by lia.
    vm_compute. reflexivity.
Qed.

Lemma calculateHours_is_difference_in_hours_witness :
  calculateHours env_ok (hhmm 9 0) (hhmm 9 20)
  = round64 (((9 * 60 + 20) - (9 * 60 + 0)) # 60)
  /\ calculateHours env_ok "09:00" "10:30" = Num (3 # 2)
  /\ calculateHours env_ok "10:00" "10:00" = Num 0.
Proof.
  apply (calculateHours_is_difference_in_hours env_ok 9 0 9 20); lia.
Defined.

(** Twenty minutes are not a third of an hour exactly, but the binary64
    value next to it, 0.3333333333333333. *)
Example calculateHours_twenty_minutes :
  calculateHours env_ok "09:00" "09:20"
  = Num (6004799503160661 # 18014398509481984).
Proof. vm_compute. reflexivity. Qed.

Example calculateHours_seconds_form :
  calculateHours env_ok "09:00:00" "10:30:00" = NaN.
Proof. vm_compute. reflexivity. Qed.

(** ** Week boundaries *)

Lemma msOfDay_bounds (d : Date) : 0 <= msOfDay d < millisecondsInDay.
Proof. unfold msOfDay, millisecondsInDay. apply Z.mod_pos_bound. lia. Qed.

Lemma dayNumber_makeDate (day ms : Z) :
  0 <= ms < millisecondsInDay -> dayNumber (makeDate day ms) = day.
Proof.
  unfold dayNumber, makeDate, millisecondsInDay. cbn [localTime]. intros H.
  symmetry. apply (Z.div_unique _ _ _ ms); lia.
Qed.

Lemma msOfDay_makeDate (day ms : Z) :
  0 <= ms < millisecondsInDay -> msOfDay (makeDate day ms) = ms.
Proof.
  unfold msOfDay, makeDate, millisecondsInDay. cbn [localTime]. intros H.
  symmetry. apply (Z.mod_unique _ _ day); lia.
Qed.

Lemma getDay_makeDate (day ms : Z) :
  0 <= ms < millisecondsInDay -> getDay (makeDate day ms) = (day + 4) mod 7.
Proof. intros H. unfold getDay. now rewrite dayNumber_makeDate. Qed.

Lemma localTime_split (d : Date) :
  localTime d = dayNumber d * millisecondsInDay + msOfDay d.
Proof.
  unfold dayNumber, msOfDay, millisecondsInDay.
  pose proof (Z.div_mod (localTime d) 86400000). lia.
Qed.

Lemma weekStart_unfold (env : Env) (D : Date) :
  weekStart env D
  = makeDate (dayNumber D - (if getDay D <? 1 then 7 else 0) - getDay D + 1) 0.
Proof.
  unfold weekStart, startOfWeek, setHours, setDate_relative.
  change (resolveWeekStartsOn mondayFirst (defaultOptions env)) with 1.
  rewrite dayNumber_makeDate by apply msOfDay_bounds.
  f_equal. lia.
Qed.

Lemma weekEnd_unfold (env : Env) (D : Date) :
  weekEnd env D
  = makeDate (dayNumber D + (if getDay D <? 1 then -7 else 0) + 7 - getDay D)
             86399999.
Proof.
  unfold weekEnd, endOfWeek, setHours, setDate_relative.
  change (resolveWeekStartsOn mondayFirst (defaultOptions env)) with 1.
  rewrite dayNumber_makeDate by apply msOfDay_bounds.
  f_equal. lia.
Qed.

Lemma offset_in_offsets (o : Z) (changes : list (Z * Z)) (t : Z) :
  In (Zoned.offset_in o changes t) (o :: map snd changes).
Proof.
  revert o. induction changes as [|[a o'] r IH]; intros o; cbn [Zoned.offset_in map snd].
  - now left.
  - destruct (a <=? t); [right; apply IH | now left].
Qed.

(** The possible instants of a local time are exactly the instants at
    which the clock shows it. *)
Lemma possibleInstants_spec (z : Zoned.Zone) (l t : Z) :
  In t (Zoned.possibleInstants z l) <-> Zoned.LocalTime z t = l.
Proof.
  unfold Zoned.possibleInstants. rewrite filter_In, in_map_iff. split.
  - intros [_ H]. now apply Z.eqb_eq.
  - intros H. split; [|now apply Z.eqb_eq].
    exists (Zoned.offsetAt z t). split.
    + unfold Zoned.LocalTime in H. lia.
    + apply offset_in_offsets.
Qed.

Lemma fold_min_constant (x : Z) (r : list Z) :
  (forall y, In y r -> y = x) -> fold_left Z.min r x = x.
Proof.
  induction r as [|y r IH]; intros H; cbn [fold_left]; [reflexivity|].
  rewrite (H y (or_introl eq_refl)), Z.min_id.
  apply IH. intros y' Hy'. apply H. now right.
Qed.

(** Where the clock is steady, a local time has one instant. *)
Lemma UTC_steady (z : Zoned.Zone) (o lo hi l : Z) :
  Zoned.steady z o lo hi -> lo <= l < hi ->
  Zoned.UTC z l = l - o /\ Zoned.LocalTime z (l - o) = l.
Proof.
  intros [Hone Hshown] Hl.
  assert (Hloc : Zoned.LocalTime z (l - o) = l).
  { unfold Zoned.LocalTime. rewrite (Hshown l Hl). lia. }
  split; [|exact Hloc].
  assert (Hall : forall t, In t (Zoned.possibleInstants z l) -> t = l - o).
  { intros t Ht. apply possibleInstants_spec in Ht.
    assert (Ho : Zoned.offsetAt z t = o) by (apply Hone; lia).
    unfold Zoned.LocalTime in Ht. lia. }
  assert (Hin : In (l - o) (Zoned.possibleInstants z l))
    by now apply possibleInstants_spec.
  unfold Zoned.UTC.
  destruct (Zoned.possibleInstants z l) as [|t r]; [contradiction|].
  rewrite (Hall t (or_introl eq_refl)).
  apply fold_min_constant. intros y Hy. apply Hall. now right.
Qed.

Lemma instant_steady (z : Zoned.Zone) (o lo hi : Z) (d : Zoned.Date) :
  Zoned.steady z o lo hi -> lo <= Zoned.local z d < hi ->
  d = Zoned.mkDate (Zoned.local z d - o).
Proof.
  intros [Hone _] Hl. destruct d as [t]. unfold Zoned.local in *.
  cbn [Zoned.timeValue] in *. f_equal.
  pose proof (Hone t Hl) as Ho. unfold Zoned.LocalTime in *. lia.
Qed.

Lemma Day_MakeDate (day time : Z) :
  0 <= time < millisecondsInDay -> Zoned.Day (Zoned.MakeDate day time) = day.
Proof.
  unfold Zoned.Day, Zoned.MakeDate, millisecondsInDay. intros H.
  symmetry. apply (Z.div_unique _ _ _ time); lia.
Qed.

Lemma TimeWithinDay_MakeDate (day time : Z) :
  0 <= time < millisecondsInDay ->
  Zoned.TimeWithinDay (Zoned.MakeDate day time) = time.
Proof.
  unfold Zoned.TimeWithinDay, Zoned.MakeDate, millisecondsInDay. intros H.
  symmetry. apply (Z.mod_unique _ _ day); lia.
Qed.

Lemma local_time_split (l : Z) :
  l = Zoned.MakeDate (Zoned.Day l) (Zoned.TimeWithinDay l)
  /\ 0 <= Zoned.TimeWithinDay l < millisecondsInDay.
Proof.
  unfold Zoned.MakeDate, Zoned.Day, Zoned.TimeWithinDay, millisecondsInDay.
  pose proof (Z.div_mod l 86400000). pose proof (Z.mod_pos_bound l 86400000).
  lia.
Qed.

(** Moving the day and setting the time of day, where the clock is
    steady at the date and at the target. *)
Lemma setDate_relative_steady (z : Zoned.Zone) (o lo hi delta : Z) (d : Zoned.Date) :
  Zoned.steady z o lo hi ->
  lo <= Zoned.local z d + delta * millisecondsInDay < hi ->
  Zoned.setDate_relative z d delta
  = Zoned.mkDate (Zoned.local z d + delta * millisecondsInDay - o)
  /\ Zoned.local z (Zoned.setDate_relative z d delta)
     = Zoned.local z d + delta * millisecondsInDay.
Proof.
  intros Hs Ht. unfold Zoned.setDate_relative.
  destruct (local_time_split (Zoned.local z d)) as [Hsplit _].
  assert (Htarget : Zoned.MakeDate (Zoned.Day (Zoned.local z d) + delta)
                                   (Zoned.TimeWithinDay (Zoned.local z d))
                    = Zoned.local z d + delta * millisecondsInDay).
  { unfold Zoned.MakeDate in *. lia. }
  rewrite Htarget.
  destruct (UTC_steady z o lo hi _ Hs Ht) as [Hu Hl].
  rewrite Hu. split; [reflexivity|].
  unfold Zoned.local. cbn [Zoned.timeValue]. exact Hl.
Qed.

Lemma setHours_steady (z : Zoned.Zone) (o lo hi h m s ms : Z) (d : Zoned.Date) :
  Zoned.steady z o lo hi ->
  lo <= Zoned.MakeDate (Zoned.Day (Zoned.local z d)) (Zoned.MakeTime h m s ms) < hi ->
  Zoned.setHours z d h m s ms
  = Zoned.mkDate (Zoned.MakeDate (Zoned.Day (Zoned.local z d))
                                 (Zoned.MakeTime h m s ms) - o)
  /\ Zoned.local z (Zoned.setHours z d h m s ms)
     = Zoned.MakeDate (Zoned.Day (Zoned.local z d)) (Zoned.MakeTime h m s ms).
Proof.
  intros Hs Ht. unfold Zoned.setHours.
  destruct (UTC_steady z o lo hi _ Hs Ht) as [Hu Hl].
  rewrite Hu. split; [reflexivity|].
  unfold Zoned.local. cbn [Zoned.timeValue]. exact Hl.
Qed.

(** The Monday 00:00 at or before a local time, by the numbers. *)
Lemma local_monday_facts (l : Z) :
  let wd := Zoned.WeekDay l in
  let back := (if wd <? 1 then 7 else 0) + wd - 1 in
  Zoned.local_monday l = Zoned.MakeDate (Zoned.Day l - back) 0
  /\ 0 <= back < 7
  /\ Zoned.WeekDay (Zoned.local_monday l) = 1
  /\ Zoned.TimeWithinDay (Zoned.local_monday l) = 0
  /\ Zoned.Day (Zoned.local_monday l) = Zoned.Day l - back
  /\ Zoned.local_monday l <= l < Zoned.local_monday l + 7 * millisecondsInDay
  /\ (if wd <? 1 then -7 else 0) + 6 - (wd - 1) = 6 - back.
Proof.
  cbv zeta.
  assert (H0 : 0 <= 0 < millisecondsInDay) by (unfold millisecondsInDay; lia).
  destruct (local_time_split l) as [Hsplit Hms].
  assert (Hwd : 0 <= Zoned.WeekDay l < 7)
    by (unfold Zoned.WeekDay; apply Z.mod_pos_bound; lia).
  assert (Hback : (Zoned.WeekDay l + 6) mod 7
                  = (if Zoned.WeekDay l <? 1 then 7 else 0) + Zoned.WeekDay l - 1).
  { destruct (Zoned.WeekDay l <? 1) eqn:Hb.
    - apply Z.ltb_lt in Hb. replace (Zoned.WeekDay l) with 0 by lia. reflexivity.
    - apply Z.ltb_ge in Hb. symmetry.
      apply (Z.mod_unique_pos _ 7 1); lia. }
  unfold Zoned.local_monday. rewrite Hback.
  set (back := (if Zoned.WeekDay l <? 1 then 7 else 0) + Zoned.WeekDay l - 1) in *.
  assert (Hb7 : 0 <= back < 7) by (subst back; destruct (Zoned.WeekDay l <? 1) eqn:E;
    [apply Z.ltb_lt in E | apply Z.ltb_ge in E]; lia).
  split; [reflexivity|]. split; [exact Hb7|].
  split; [|split; [|split; [|split]]].
  - unfold Zoned.WeekDay at 1. rewrite Day_MakeDate by exact H0.
    unfold Zoned.WeekDay in Hback, Hwd, back.
    set (dn := Zoned.Day l) in *.
    pose proof (Z.div_mod (dn + 4) 7).
    destruct ((dn + 4) mod 7 <? 1) eqn:E;
      [apply Z.ltb_lt in E | apply Z.ltb_ge in E]; subst back.
    + symmetry. apply (Z.mod_unique_pos _ 7 ((dn + 4) / 7 - 1)); lia.
    + symmetry. apply (Z.mod_unique_pos _ 7 ((dn + 4) / 7)); lia.
  - now apply TimeWithinDay_MakeDate.
  - now apply Day_MakeDate.
  - unfold Zoned.MakeDate in *. unfold millisecondsInDay in *. lia.
  - subst back. destruct (Zoned.WeekDay l <? 1); lia.
Qed.

Lemma week_bounds_steady (z : Zoned.Zone) (defaults : WeekOptions)
      (D : Zoned.Date) (o : Z) :
  Zoned.steady z o (Zoned.local_monday (Zoned.local z D))
               (Zoned.local_monday (Zoned.local z D) + 7 * millisecondsInDay) ->
  D = Zoned.mkDate (Zoned.local z D - o)
  /\ Zoned.weekStart z defaults D
     = Zoned.mkDate (Zoned.local_monday (Zoned.local z D) - o)
  /\ Zoned.local z (Zoned.weekStart z defaults D)
     = Zoned.local_monday (Zoned.local z D)
  /\ Zoned.weekEnd z defaults D
     = Zoned.mkDate (Zoned.local_monday (Zoned.local z D)
                     + 6 * millisecondsInDay + 86399999 - o)
  /\ Zoned.local z (Zoned.weekEnd z defaults D)
     = Zoned.local_monday (Zoned.local z D) + 6 * millisecondsInDay + 86399999.
Proof.
  intros Hs.
  set (l := Zoned.local z D) in *.
  destruct (local_monday_facts l) as (HM & Hback & Hmon & Hmid & HdayM & Hin & Hfwd).
  cbv zeta in *.
  set (back := (if Zoned.WeekDay l <? 1 then 7 else 0) + Zoned.WeekDay l - 1) in *.
  set (M := Zoned.local_monday l) in *.
  destruct (local_time_split l) as [Hsplit Hms].
  assert (Hday : 86400000 = millisecondsInDay) by reflexivity.
  assert (HMval : M = (Zoned.Day l - back) * millisecondsInDay)
    by (rewrite HM; unfold Zoned.MakeDate; lia).
  assert (Hl : l = Zoned.Day l * millisecondsInDay + Zoned.TimeWithinDay l)
    by exact Hsplit.
  split; [apply (instant_steady z o _ _ D Hs); exact Hin|].
  (* the start of the week *)
  assert (Hback1 : M <= l + - back * millisecondsInDay < M + 7 * millisecondsInDay)
    by lia.
  destruct (setDate_relative_steady z o _ _ (- back) D Hs Hback1) as [_ Hl1].
  fold l in Hl1.
  assert (Hd1 : Zoned.Day (l + - back * millisecondsInDay) = Zoned.Day l - back).
  { replace (l + - back * millisecondsInDay)
      with (Zoned.MakeDate (Zoned.Day l - back) (Zoned.TimeWithinDay l))
      by (unfold Zoned.MakeDate; lia).
    now apply Day_MakeDate. }
  assert (Hstart : Zoned.weekStart z defaults D = Zoned.mkDate (M - o)
                   /\ Zoned.local z (Zoned.weekStart z defaults D) = M).
  { unfold Zoned.weekStart, Zoned.startOfWeek.
    change (resolveWeekStartsOn mondayFirst defaults) with 1.
    unfold Zoned.getDay. fold l. fold back.
    assert (Ht : M <= Zoned.MakeDate
                        (Zoned.Day (Zoned.local z (Zoned.setDate_relative z D (- back))))
                        (Zoned.MakeTime 0 0 0 0)
                 < M + 7 * millisecondsInDay).
    { rewrite Hl1, Hd1. change (Zoned.MakeTime 0 0 0 0) with 0.
      unfold Zoned.MakeDate. lia. }
    destruct (setHours_steady z o _ _ 0 0 0 0 _ Hs Ht) as [He Hlo].
    rewrite Hlo, He, Hl1, Hd1. change (Zoned.MakeTime 0 0 0 0) with 0.
    rewrite <- HM. split; reflexivity. }
  (* the end of the week *)
  assert (Hfwd1 : M <= l + (6 - back) * millisecondsInDay < M + 7 * millisecondsInDay)
    by lia.
  destruct (setDate_relative_steady z o _ _ (6 - back) D Hs Hfwd1) as [_ Hl2].
  fold l in Hl2.
  assert (Hd2 : Zoned.Day (l + (6 - back) * millisecondsInDay) = Zoned.Day l + 6 - back).
  { replace (l + (6 - back) * millisecondsInDay)
      with (Zoned.MakeDate (Zoned.Day l + 6 - back) (Zoned.TimeWithinDay l))
      by (unfold Zoned.MakeDate; lia).
    now apply Day_MakeDate. }
  assert (Hend : Zoned.weekEnd z defaults D
                 = Zoned.mkDate (M + 6 * millisecondsInDay + 86399999 - o)
                 /\ Zoned.local z (Zoned.weekEnd z defaults D)
                    = M + 6 * millisecondsInDay + 86399999).
  { unfold Zoned.weekEnd, Zoned.endOfWeek.
    change (resolveWeekStartsOn mondayFirst defaults) with 1.
    unfold Zoned.getDay. fold l. rewrite Hfwd.
    assert (Ht : M <= Zoned.MakeDate
                        (Zoned.Day (Zoned.local z (Zoned.setDate_relative z D (6 - back))))
                        (Zoned.MakeTime 23 59 59 999)
                 < M + 7 * millisecondsInDay).
    { rewrite Hl2, Hd2. change (Zoned.MakeTime 23 59 59 999) with 86399999.
      unfold Zoned.MakeDate. lia. }
    destruct (setHours_steady z o _ _ 23 59 59 999 _ Hs Ht) as [He Hlo].
    rewrite Hlo, He, Hl2, Hd2. change (Zoned.MakeTime 23 59 59 999) with 86399999.
    replace (Zoned.MakeDate (Zoned.Day l + 6 - back) 86399999)
      with (M + 6 * millisecondsInDay + 86399999)
      by (unfold Zoned.MakeDate; lia).
    split; reflexivity. }
  destruct Hstart as [Hs1 Hs2]. destruct Hend as [He1 He2].
  repeat split; assumption.
Qed.




(** Where the clocks skip the midnight that starts the week, the week
    starts at 01:00: the Monday 2021-03-22 in [tehran]. *)
Example week_start_after_skipped_midnight :
  Zoned.local Zoned.tehran
              (Zoned.weekStart Zoned.tehran (mkWeekOptions None None)
                               (Zoned.mkDate (Zoned.instant 2021 3 24 8 0)))
  = Zoned.MakeDate (days_from_civil 2021 3 22) (Zoned.MakeTime 1 0 0 0).
Proof. vm_compute. reflexivity. Qed.

Example week_of_2024_02_29 :
  format_yyyy_MM_dd (weekStart env_ok (makeDate 19782 34200000)) = "2024-02-26"
  /\ format_yyyy_MM_dd (weekEnd env_ok (makeDate 19782 34200000)) = "2024-03-03".
Proof. vm_compute. split; reflexivity. Qed.

Example week_of_a_sunday :
  format_yyyy_MM_dd (weekStart env_ok (makeDate 19785 0)) = "2024-02-26"
  /\ format_yyyy_MM_dd (weekEnd env_ok (makeDate 19785 0)) = "2024-03-03".
Proof. vm_compute. split; reflexivity. Qed.

(** ** Daily totals *)

Lemma fold_hours_is_sum (d : string) (l : list TimeEntry) (acc : number) :
  fold_left (fun total entry => num_add total (te_hours entry))
            (filter (fun entry => String.eqb (te_date entry) d) l) acc
  = sum_hours_on d acc l.
Proof.
  revert acc. induction l as [|e r IH]; intros acc; cbn [filter sum_hours_on].
  - reflexivity.
  - destruct (String.eqb (te_date e) d); cbn [fold_left]; apply IH.
Qed.

Lemma getEntriesForDay_skip (l1 l2 : list TimeEntry) (e : TimeEntry) (date : Date) :
  te_date e <> format_yyyy_MM_dd date ->
  getEntriesForDay (l1 ++ e :: l2) date = getEntriesForDay (l1 ++ l2) date.
Proof.
  intros Hne. unfold getEntriesForDay.
  rewrite !filter_app. cbn [filter].
  destruct (String.eqb_spec (te_date e) (format_yyyy_MM_dd date)) as [Heq|_].
  - contradiction.
  - reflexivity.
Qed.

(** C3.  For every date and every list of fetched entries,
    [getTotalHoursForDay] is the sum, taken in list order from 0, of the
    [hours] of the entries whose [date] string equals the formatted date;
    its entries for the day are exactly those, and an entry with another
    date can be removed from the list without changing the total. *)
Theorem total_hours_for_day_is_sum_of_matching
        (timeEntries : list TimeEntry) (date : Date) :
  getTotalHoursForDay timeEntries date
  = sum_hours_on (format_yyyy_MM_dd date) (Num 0) timeEntries
  /\ (forall e, In e (getEntriesForDay timeEntries date)
                <-> In e timeEntries /\ te_date e = format_yyyy_MM_dd date)
  /\ (forall (l1 l2 : list TimeEntry) (e : TimeEntry),
        timeEntries = (l1 ++ e :: l2)%list ->
        te_date e <> format_yyyy_MM_dd date ->
        getTotalHoursForDay timeEntries date
        = getTotalHoursForDay (l1 ++ l2)%list date).
Proof.
  split; [|split].
  - unfold getTotalHoursForDay, getEntriesForDay. apply fold_hours_is_sum.
  - intros e. unfold getEntriesForDay. rewrite filter_In.
    split; intros [Hin Heq]; split; trivial.
    + now apply String.eqb_eq.
    + now apply String.eqb_eq.
  - intros l1 l2 e -> Hne. unfold getTotalHoursForDay.
    now rewrite getEntriesForDay_skip.
Qed.

Lemma total_hours_for_day_is_sum_of_matching_witness :
  getTotalHoursForDay [entry_thu; entry_fri] (makeDate 19782 0)
  = getTotalHoursForDay [entry_thu] (makeDate 19782 0).
Proof.
  apply (proj2 (proj2 (total_hours_for_day_is_sum_of_matching
                         [entry_thu; entry_fri] (makeDate 19782 0)))
               [entry_thu] [] entry_fri).
  - reflexivity.
  - vm_compute. discriminate.
Defined.

Example total_hours_thursday :
  getTotalHoursForDay [entry_thu; entry_fri] (makeDate 19782 0)
  = Num (3 # 2).
Proof. reflexivity. Qed.

(** ** Navigation *)

(** C4.  For every signed-in user the navigation is a function of the
    role alone: role user yields time tracking and projects; supervisor
    adds analytics; manager adds analytics and management. *)
Theorem navigation_by_role (u : User) :
  capabilities u
  = match user_role u with
    | RoleUser => [Some time_tracking; Some projects]
    | RoleSupervisor => [Some time_tracking; Some projects; Some analytics]
    | RoleManager =>
        [Some time_tracking; Some projects; Some analytics; Some management]
    end
  /\ map nav_id (navigation (Some u))
     = match user_role u with
       | RoleUser => ["timetracking"; "projects"]
       | RoleSupervisor => ["timetracking"; "projects"; "analytics"]
       | RoleManager => ["timetracking"; "projects"; "analytics"; "management"]
       end
  /\ (forall id email name : string,
        navigation (Some (mkUser id email name (user_role u)))
        = navigation (Some u)).
Proof.
  destruct u as [i e n r]. destruct r; cbn; repeat split.
Qed.

(** ** Running the effects *)

Lemma request_run (env : Env) (r : Request) (w : World) :
  request env r w
  = (Ok (fst (backend env r (w_db w))),
     mkWorld (snd (backend env r (w_db w))) (w_view w)
             (w_log w ++ [EvRequest r])).
Proof. unfold request. destruct (backend env r (w_db w)); reflexivity. Qed.

Lemma backend_error_keeps_db (env : Env) (r : Request) (db : Database) :
  fst (backend env r db) = RespError -> snd (backend env r db) = db.
Proof.
  unfold backend. destruct (backend_fails env r); [reflexivity|].
  destruct r; cbn; try discriminate; try reflexivity.
  - destruct (row_of_insert _ _ _); [discriminate|reflexivity].
  - destruct (filter _ _) as [|a [|b l]]; reflexivity.
Qed.

Section Steps.

Variable R : World -> World -> Prop.
Hypothesis R_refl : forall w, R w w.
Hypothesis R_trans : forall a b c, R a b -> R b c -> R a c.

Lemma steps_ret {A : Type} (a : A) : steps R (ret a).
Proof. intros w. apply R_refl. Qed.

Lemma steps_throw {A : Type} : steps R (@throw A).
Proof. intros w. apply R_refl. Qed.

Lemma steps_get_view : steps R get_view.
Proof. intros w. apply R_refl. Qed.

Lemma steps_bind {A B : Type} (m : M A) (f : A -> M B) :
  steps R m -> (forall a, steps R (f a)) -> steps R (bind m f).
Proof.
  intros Hm Hf w. unfold bind.
  specialize (Hm w). destruct (m w) as [[a|] w1]; cbn in *.
  - eapply R_trans; [exact Hm | apply Hf].
  - exact Hm.
Qed.

Lemma steps_try_catch {A : Type} (body handler : M A) :
  steps R body -> steps R handler -> steps R (try_catch body handler).
Proof.
  intros Hb Hh w. unfold try_catch.
  specialize (Hb w). destruct (body w) as [[a|] w1]; cbn in *.
  - exact Hb.
  - eapply R_trans; [exact Hb | apply Hh].
Qed.

Lemma steps_try_finally {A : Type} (body : M A) (fin : M unit) :
  steps R body -> steps R fin -> steps R (try_finally body fin).
Proof.
  intros Hb Hf w. unfold try_finally.
  specialize (Hb w). destruct (body w) as [r w1]; cbn in *.
  specialize (Hf w1). destruct (fin w1) as [[u|] w2]; cbn in *;
    eapply R_trans; eassumption.
Qed.

Lemma steps_throw_if_error (r : Response) : steps R (throw_if_error r).
Proof. destruct r; cbn; first [apply steps_throw | apply steps_ret]. Qed.

(** What the relation must grant for the components to respect it:
    state updates, toasts and console lines, and the requests in
    [okR]. *)
Variable env : Env.
Variable okR : Request -> Prop.
Hypothesis R_modify : forall f, steps R (modify_view f).
Hypothesis R_emit : forall e, is_request_event e = false -> steps R (emit e).
Hypothesis R_request : forall r, okR r -> steps R (request env r).
Hypothesis okR_select_projects : okR ReqSelectProjects.
Hypothesis okR_select_tasks : okR ReqSelectTasks.
Hypothesis okR_select_entries : forall u a b, okR (ReqSelectTimeEntries u a b).

Lemma fetchData_steps : steps R (fetchData env).
Proof.
  unfold fetchData. apply steps_bind; [apply steps_get_view|]. intros v.
  destruct (v_user v) as [user|]; [|apply steps_ret].
  apply steps_bind; [apply R_modify|]. intros _.
  apply steps_try_finally; [|apply R_modify].
  apply steps_try_catch.
  - repeat first
      [ apply steps_bind; [|intros ?]
      | apply steps_throw_if_error
      | apply R_modify
      | apply R_request; solve [auto] ].
  - apply steps_bind; [|intros _]; apply R_emit; reflexivity.
Qed.

Lemma saveTimeEntry_steps (entry : EntryInput) :
  (forall id hours, or_null (in_id entry) = Some id ->
                    okR (ReqUpdateTimeEntry id (update_body env entry hours))) ->
  (forall user hours, or_null (in_id entry) = None ->
                      okR (ReqInsertTimeEntry (insert_body user entry hours))) ->
  steps R (saveTimeEntry env entry).
Proof.
  intros Hupd Hins.
  unfold saveTimeEntry. apply steps_bind; [apply steps_get_view|]. intros v.
  destruct (v_user v) as [user|]; [|apply steps_ret].
  apply steps_try_catch.
  - apply steps_bind.
    + destruct (or_null (in_id entry)) as [id|] eqn:Hid.
      * apply steps_bind; [apply R_request, Hupd; reflexivity|]. intros r.
        apply steps_bind; [apply steps_throw_if_error|]. intros _.
        apply R_emit; reflexivity.
      * apply steps_bind; [apply R_request, Hins; reflexivity|]. intros r.
        apply steps_bind; [apply steps_throw_if_error|]. intros _.
        apply R_emit; reflexivity.
    + intros _. apply steps_bind; [apply R_modify|]. intros _.
      apply steps_bind; [apply R_modify|]. intros _.
      apply fetchData_steps.
  - apply steps_bind; [|intros _]; apply R_emit; reflexivity.
Qed.

Lemma deleteTimeEntry_steps (id : string) :
  okR (ReqDeleteTimeEntry id) -> steps R (deleteTimeEntry env id).
Proof.
  intros Hdel. unfold deleteTimeEntry. apply steps_try_catch.
  - apply steps_bind; [apply R_request, Hdel|]. intros r.
    apply steps_bind; [apply steps_throw_if_error|]. intros _.
    apply steps_bind; [apply R_emit; reflexivity|]. intros _.
    apply fetchData_steps.
  - apply steps_bind; [|intros _]; apply R_emit; reflexivity.
Qed.

End Steps.

Lemma fetchData_keeps_db (env : Env) (w : World) :
  w_db (snd (fetchData env w)) = w_db w.
Proof.
  apply (fetchData_steps (fun a b => w_db b = w_db a)) with (okR := read_only env).
  - reflexivity.
  - intros a b c H1 H2. congruence.
  - intros f w0. reflexivity.
  - intros e _ w0. reflexivity.
  - intros r Hr w0. rewrite request_run. cbn. apply Hr.
  - intros db. unfold backend. now destruct (backend_fails env _).
  - intros db. unfold backend. now destruct (backend_fails env _).
  - intros u a b db. unfold backend. now destruct (backend_fails env _).
Qed.

Lemma log_grows_by_refl (P : Event -> Prop) (w : World) : log_grows_by P w w.
Proof. exists []. split; [now rewrite app_nil_r | constructor]. Qed.

Lemma log_grows_by_trans (P : Event -> Prop) (a b c : World) :
  log_grows_by P a b -> log_grows_by P b c -> log_grows_by P a c.
Proof.
  intros (e1 & H1 & F1) (e2 & H2 & F2). exists (e1 ++ e2)%list. split.
  - now rewrite H2, H1, app_assoc.
  - apply Forall_app. now split.
Qed.

Lemma fetchData_log (env : Env) (w : World) :
  log_grows_by not_entry_write w (snd (fetchData env w)).
Proof.
  apply (fetchData_steps (log_grows_by not_entry_write))
    with (okR := fun r => is_time_entry_write r = false).
  - apply log_grows_by_refl.
  - apply log_grows_by_trans.
  - intros f w0. exists []. split; [cbn; now rewrite app_nil_r | constructor].
  - intros e He w0. exists [e]. split; [reflexivity|].
    constructor; [|constructor]. now destruct e.
  - intros r Hr w0. rewrite request_run. exists [EvRequest r].
    split; [reflexivity|]. constructor; [exact Hr|constructor].
  - reflexivity.
  - reflexivity.
  - reflexivity.
Qed.

(** ** Validation before writes *)

Lemma NewEntryForm_save_blocks_blank_project
      (env : Env) (entry : NewEntry) (w : World) :
  ne_project_id entry = "" -> NewEntryForm_save env entry w = (Ok tt, w).
Proof. intros H. unfold NewEntryForm_save. now rewrite H. Qed.

(** C5.  The save button of the edit form, pressed on the card of
    [entry_thu] with the blank project selected, sends an update whose
    [project_id] is the empty string, followed by the re-fetch; the
    new-entry form with the same blank project sends nothing. *)
Theorem edit_form_submits_blank_project :
  requests_of (w_log (snd (TimeEntryCard_save env_ok entry_thu
                                              form_blank_project world0)))
  = [ ReqUpdateTimeEntry "e1"
        {| upd_user_id := None;
           upd_project_id := Some "";
           upd_task_id := Some None;
           upd_date := None;
           upd_start_time := Some "09:00";
           upd_end_time := Some "10:30";
           upd_hours := Some (Num (3 # 2));
           upd_description := Some "standup";
           upd_updated_at := Some "2024-03-01T12:00:00.000Z" |};
      ReqSelectProjects;
      ReqSelectTasks;
      ReqSelectTimeEntries "u1" "2024-02-26" "2024-03-03" ]
  /\ NewEntryForm_save env_ok draft_blank_project world0 = (Ok tt, world0).
Proof. split; vm_compute; reflexivity. Qed.

(** ** Sign-in *)

Lemma no_match_filter (email : string) (l : list AuthorizedEmail) :
  (forall a, In a l -> ae_email a <> email) ->
  filter (fun a => String.eqb (ae_email a) email) l = [].
Proof.
  induction l as [|a r IH]; intros H; cbn; [reflexivity|].
  destruct (String.eqb_spec (ae_email a) email) as [Heq|_].
  - exfalso. apply (H a); [now left | exact Heq].
  - apply IH. intros b Hb. apply H. now right.
Qed.

Lemma select_unlisted (env : Env) (email : string) (db : Database) :
  (forall a, In a (tbl_authorized_emails db) -> ae_email a <> email) ->
  backend env (ReqSelectAuthorizedEmail email) db = (RespError, db).
Proof.
  intros H. unfold backend.
  destruct (backend_fails env _); [reflexivity|].
  now rewrite (no_match_filter email _ H).
Qed.

(** C6.  When no [authorized_emails] row has the email, [signIn] returns
    false; the only request it sends is the allow-list lookup, which comes
    first and is followed by the not-authorized toast alone: no login
    link is requested and no user upsert is issued, and every table is
    as before. *)
Theorem signIn_unlisted_email_is_refused
        (env : Env) (w : World) (email : string) (name : option string) :
  (forall a, In a (tbl_authorized_emails (w_db w)) -> ae_email a <> email) ->
  fst (signIn env email name w) = Ok false
  /\ w_log (snd (signIn env email name w))
     = (w_log w
        ++ [ EvRequest (ReqSelectAuthorizedEmail email);
             EvToastError "Email not authorized. Please contact your manager." ])%list
  /\ w_db (snd (signIn env email name w)) = w_db w
  /\ v_user (w_view (snd (signIn env email name w))) = v_user (w_view w)
  /\ v_authLoading (w_view (snd (signIn env email name w))) = false.
Proof.
  intros H.
  unfold signIn, try_finally, try_catch, bind, setAuthLoading, modify_view.
  cbn. rewrite request_run. cbn.
  rewrite (select_unlisted env email (w_db w) H). cbn.
  rewrite <- app_assoc. cbn. repeat split.
Qed.

Lemma signIn_unlisted_email_is_refused_witness :
  fst (signIn env_ok "eve@example.com" (Some "Eve") world0) = Ok false
  /\ w_log (snd (signIn env_ok "eve@example.com" (Some "Eve") world0))
     = (w_log world0
        ++ [ EvRequest (ReqSelectAuthorizedEmail "eve@example.com");
             EvToastError "Email not authorized. Please contact your manager." ])%list
  /\ w_db (snd (signIn env_ok "eve@example.com" (Some "Eve") world0)) = w_db world0
  /\ v_user (w_view (snd (signIn env_ok "eve@example.com" (Some "Eve") world0)))
     = v_user (w_view world0)
  /\ v_authLoading (w_view (snd (signIn env_ok "eve@example.com" (Some "Eve") world0)))
     = false.
Proof.
  apply (signIn_unlisted_email_is_refused env_ok world0 "eve@example.com" (Some "Eve")).
  intros a Ha. cbn in Ha. destruct Ha as [<-|[]]. vm_compute. discriminate.
Defined.

Example signIn_listed_email :
  requests_of (w_log (snd (signIn env_ok "ann@example.com" None world0)))
  = [ ReqSelectAuthorizedEmail "ann@example.com";
      ReqSignInWithOtp "ann@example.com";
      ReqUpsertUser "ann@example.com" "ann" RoleUser ]
  /\ fst (signIn env_ok "ann@example.com" None world0) = Ok true.
Proof. split; vm_compute; reflexivity. Qed.

(** ** The write operations, step by step *)

Lemma fetchData_returns (env : Env) (w : World) : fst (fetchData env w) = Ok tt.
Proof.
  unfold fetchData, bind at 1, get_view.
  destruct (v_user (w_view w)) as [user|]; [|reflexivity].
  unfold bind at 1. cbn [setLoading modify_view].
  unfold try_finally.
  match goal with
  | |- context [try_catch ?b ?h ?w1] =>
      assert (Hc : fst (try_catch b h w1) = Ok tt);
      [ unfold try_catch; destruct (b w1) as [[[]|] w2]; reflexivity
      | destruct (try_catch b h w1) as [r w3]; cbn in Hc; subst r; reflexivity ]
  end.
Qed.

Lemma fetchData_passes (env : Env) (handler : M unit) (w : World) :
  try_catch (fetchData env) handler w = fetchData env w.
Proof.
  unfold try_catch. pose proof (fetchData_returns env w) as H.
  destruct (fetchData env w) as [[[]|] w']; [reflexivity|discriminate].
Qed.

Lemma saveTimeEntry_refused
      (env : Env) (w : World) (user : User) (entry : EntryInput) :
  v_user (w_view w) = Some user ->
  fst (backend env (save_request env user entry) (w_db w)) = RespError ->
  saveTimeEntry env entry w
  = (Ok tt,
     mkWorld (w_db w) (w_view w)
             (w_log w ++ [ EvRequest (save_request env user entry);
                           EvConsoleError "Error saving time entry:";
                           EvToastError "Failed to save time entry" ])).
Proof.
  intros Hu Herr.
  pose proof (backend_error_keeps_db _ _ _ Herr) as Hdb.
  unfold saveTimeEntry, bind at 1, get_view. rewrite Hu.
  unfold save_request in *.
  destruct (or_null (in_id entry)) as [id|];
    unfold try_catch, bind at 1; unfold bind at 1;
    rewrite request_run, Herr, Hdb; run_effects; reflexivity.
Qed.

Lemma saveTimeEntry_accepted
      (env : Env) (w : World) (user : User) (entry : EntryInput) :
  v_user (w_view w) = Some user ->
  fst (backend env (save_request env user entry) (w_db w)) <> RespError ->
  saveTimeEntry env entry w
  = fetchData env
      (mkWorld (snd (backend env (save_request env user entry) (w_db w)))
               (forms_closed (w_view w))
               (w_log w ++ [ EvRequest (save_request env user entry);
                             EvToastSuccess (save_success_toast entry) ])).
Proof.
  intros Hu Hok.
  unfold saveTimeEntry, bind at 1, get_view. rewrite Hu.
  rewrite <- (fetchData_passes env
                (bind (console_error "Error saving time entry:")
                      (fun _ => toast_error "Failed to save time entry"))).
  unfold save_request, save_success_toast in *.
  destruct (or_null (in_id entry)) as [id|];
    unfold try_catch, bind at 1; unfold bind at 1; unfold bind at 1;
    rewrite request_run;
    destruct (fst (backend env _ (w_db w))) eqn:E; try congruence;
    run_effects; reflexivity.
Qed.

Lemma deleteTimeEntry_refused (env : Env) (w : World) (id : string) :
  fst (backend env (ReqDeleteTimeEntry id) (w_db w)) = RespError ->
  deleteTimeEntry env id w
  = (Ok tt,
     mkWorld (w_db w) (w_view w)
             (w_log w ++ [ EvRequest (ReqDeleteTimeEntry id);
                           EvConsoleError "Error deleting time entry:";
                           EvToastError "Failed to delete time entry" ])).
Proof.
  intros Herr.
  pose proof (backend_error_keeps_db _ _ _ Herr) as Hdb.
  unfold deleteTimeEntry, try_catch, bind at 1.
  rewrite request_run, Herr, Hdb. run_effects. reflexivity.
Qed.

Lemma deleteTimeEntry_accepted (env : Env) (w : World) (id : string) :
  fst (backend env (ReqDeleteTimeEntry id) (w_db w)) <> RespError ->
  deleteTimeEntry env id w
  = fetchData env
      (mkWorld (snd (backend env (ReqDeleteTimeEntry id) (w_db w)))
               (w_view w)
               (w_log w ++ [ EvRequest (ReqDeleteTimeEntry id);
                             EvToastSuccess "Time entry deleted" ])).
Proof.
  intros Hok.
  rewrite <- (fetchData_passes env
                (bind (console_error "Error deleting time entry:")
                      (fun _ => toast_error "Failed to delete time entry"))).
  unfold deleteTimeEntry, try_catch, bind at 1.
  rewrite request_run.
  destruct (fst (backend env _ (w_db w))) eqn:E; try congruence;
    run_effects; reflexivity.
Qed.

(** With a backend that accepts every request and a signed-in user,
    [fetchData] sends the three selects and replaces the three
    collections by their answers. *)
Lemma fetchData_accepting (env : Env) (w : World) (user : User) :
  (forall r, backend_fails env r = false) ->
  v_user (w_view w) = Some user ->
  fetchData env w
  = (Ok tt,
     mkWorld
       (w_db w)
       (mkViewState
          (v_user (w_view w)) (v_authLoading (w_view w))
          (v_currentWeek (w_view w))
          (match fst (backend env
                        (ReqSelectTimeEntries
                           (user_id user)
                           (format_yyyy_MM_dd
                              (weekStart env (v_currentWeek (w_view w))))
                           (format_yyyy_MM_dd
                              (weekEnd env (v_currentWeek (w_view w)))))
                        (w_db w)) with
           | RespTimeEntries l => l
           | _ => []
           end)
          (match fst (backend env ReqSelectProjects (w_db w)) with
           | RespProjects l => l
           | _ => []
           end)
          (match fst (backend env ReqSelectTasks (w_db w)) with
           | RespTasks l => l
           | _ => []
           end)
          false (v_editingEntry (w_view w)) (v_newEntry (w_view w)))
       (w_log w
        ++ [ EvRequest ReqSelectProjects;
             EvRequest ReqSelectTasks;
             EvRequest (ReqSelectTimeEntries
                          (user_id user)
                          (format_yyyy_MM_dd
                             (weekStart env (v_currentWeek (w_view w))))
                          (format_yyyy_MM_dd
                             (weekEnd env (v_currentWeek (w_view w))))) ])).
Proof.
  intros Hacc Hu.
  unfold fetchData, bind at 1, get_view. rewrite Hu.
  set (from := format_yyyy_MM_dd (weekStart env (v_currentWeek (w_view w)))).
  set (to := format_yyyy_MM_dd (weekEnd env (v_currentWeek (w_view w)))).
  unfold try_finally, try_catch, bind, request, backend.
  rewrite !Hacc.
  cbn [fst snd w_db w_view w_log setLoading setProjects setTasks
       setTimeEntries modify_view throw_if_error ret v_user v_authLoading
       v_currentWeek v_projects v_tasks v_timeEntries v_loading
       v_editingEntry v_newEntry].
  rewrite <- !app_assoc, ?Hu. reflexivity.
Qed.

(** The first thing [saveTimeEntry] does for a signed-in user is to send
    its write request; nothing after it writes to [time_entries], and
    the tables end as the backend left them after that request. *)
Lemma saveTimeEntry_trace
      (env : Env) (w : World) (user : User) (entry : EntryInput) :
  v_user (w_view w) = Some user ->
  exists rest,
    w_log (snd (saveTimeEntry env entry w))
    = (w_log w ++ EvRequest (save_request env user entry) :: rest)%list
    /\ Forall not_entry_write rest
    /\ w_db (snd (saveTimeEntry env entry w))
       = snd (backend env (save_request env user entry) (w_db w)).
Proof.
  intros Hu.
  assert (Hacc : fst (backend env (save_request env user entry) (w_db w))
                 <> RespError ->
                 exists rest,
                   w_log (snd (saveTimeEntry env entry w))
                   = (w_log w ++ EvRequest (save_request env user entry) :: rest)%list
                   /\ Forall not_entry_write rest
                   /\ w_db (snd (saveTimeEntry env entry w))
                      = snd (backend env (save_request env user entry) (w_db w))).
  { intros Hok. rewrite (saveTimeEntry_accepted env w user entry Hu Hok).
    match goal with
    | |- context [fetchData _ ?w1] =>
        destruct (fetchData_log env w1) as (evs & Hlog & Hev)
    end.
    rewrite Hlog, fetchData_keeps_db. cbn [w_log w_db].
    exists (EvToastSuccess (save_success_toast entry) :: evs).
    split; [now rewrite <- app_assoc|].
    split; [constructor; [exact I | exact Hev] | reflexivity]. }
  destruct (fst (backend env (save_request env user entry) (w_db w))) eqn:E;
    [ | apply Hacc; discriminate .. ].
  rewrite (saveTimeEntry_refused env w user entry Hu E).
  eexists. split; [reflexivity|]. split.
  - repeat constructor.
  - cbn. symmetry. now apply backend_error_keeps_db.
Qed.

(** ** Non-positive durations *)

(** C7, as stated, fails: while nobody is signed in, saving an entry
    that ends before it starts sends no write at all. *)
Lemma nonpositive_duration_without_user_is_not_written :
  in_start_time (entry_of_new draft_with_project) = Some "11:00"
  /\ in_end_time (entry_of_new draft_with_project) = Some "10:00"
  /\ v_user (w_view world_signed_out) = None
  /\ saveTimeEntry env_ok (entry_of_new draft_with_project) world_signed_out
     = (Ok tt, world_signed_out)
  /\ requests_of
       (w_log (snd (saveTimeEntry env_ok (entry_of_new draft_with_project)
                                  world_signed_out)))
     = [].
Proof. repeat split. Qed.

(** C7, amended.  For times written HH:MM with end <= start,
    [saveTimeEntry] does not judge the times.  For a signed-in user the
    first thing it does is to send the write request (insert or update),
    and that request carries the computed duration, the binary64 value
    nearest to (end - start) in hours, which is zero or negative.  With
    nobody signed in it returns at once and sends nothing, as it does
    for any other entry. *)
Theorem nonpositive_duration_is_written
        (env : Env) (w : World) (entry : EntryInput)
        (sh sm eh em : Z) :
  in_start_time entry = Some (hhmm sh sm) ->
  in_end_time entry = Some (hhmm eh em) ->
  0 <= sh < 24 -> 0 <= sm < 60 -> 0 <= eh < 24 -> 0 <= em < 60 ->
  eh * 60 + em <= sh * 60 + sm ->
  match v_user (w_view w) with
  | Some user =>
      exists hours rest,
        w_log (snd (saveTimeEntry env entry w))
        = (w_log w ++ EvRequest (save_request env user entry) :: rest)%list
        /\ is_time_entry_write (save_request env user entry) = true
        /\ request_hours (save_request env user entry) = Some hours
        /\ hours = round64 (((eh * 60 + em) - (sh * 60 + sm)) # 60)
        /\ num_le hours (Num 0)
  | None => saveTimeEntry env entry w = (Ok tt, w)
  end.
Proof.
  intros Hs He Hsh Hsm Heh Hem Hle.
  destruct (v_user (w_view w)) as [user|] eqn:Hu.
  - assert (Hd : -1439 <= (eh * 60 + em) - (sh * 60 + sm) <= 1439) by lia.
    pose proof (proj1 (forallb_forall _ _) duration_ok_all _
                      (in_minute_differences _ Hd)) as Hok.
    destruct (duration_ok_spec _ Hok) as (v & Hv & _ & _ & Hround & Hneg).
    pose proof (calculateHours_hhmm env sh sm eh em Hsh Hsm Heh Hem) as Hc.
    rewrite Hv in Hc.
    destruct (saveTimeEntry_trace env w user entry Hu) as (rest & Hlog & _ & _).
    exists (Num v), rest. split; [exact Hlog|].
    unfold save_request. rewrite Hs, He. cbn [template]. rewrite Hc.
    assert (Hv0 : (v <= 0)%Q) by (apply Hneg; lia).
    destruct (or_null (in_id entry));
      (split; [reflexivity|]; split; [reflexivity|]; split;
       [exact Hround | exact Hv0]).
  - unfold saveTimeEntry, bind, get_view. now rewrite Hu.
Qed.

Lemma nonpositive_duration_is_written_witness :
  exists hours rest,
    w_log (snd (saveTimeEntry env_ok (entry_of_new draft_with_project) world0))
    = (w_log world0
       ++ EvRequest (save_request env_ok user_ann (entry_of_new draft_with_project))
          :: rest)%list
    /\ is_time_entry_write
         (save_request env_ok user_ann (entry_of_new draft_with_project)) = true
    /\ request_hours
         (save_request env_ok user_ann (entry_of_new draft_with_project))
       = Some hours
    /\ hours = round64 (((10 * 60 + 0) - (11 * 60 + 0)) # 60)
    /\ num_le hours (Num 0).
Proof.
  apply (nonpositive_duration_is_written
           env_ok world0 (entry_of_new draft_with_project) 11 0 10 0);
    solve [reflexivity | lia].
Defined.

Example negative_duration_is_stored :
  map te_hours
      (tbl_time_entries
         (w_db (snd (NewEntryForm_save env_ok draft_with_project world0))))
  = [Num (3 # 2); Num 2; Num (-1 # 1)].
Proof. vm_compute. reflexivity. Qed.

(** ** Updates leave owner and date alone *)

Lemma patch_keeps_owner_and_date (p : TimeEntryUpdate) (e : TimeEntry) :
  upd_user_id p = None -> upd_date p = None ->
  owner_and_date (patch_time_entry p e) = owner_and_date e.
Proof.
  intros Hu Hd. unfold owner_and_date, patch_time_entry. cbn.
  now rewrite Hu, Hd.
Qed.

Lemma backend_update_keeps_owner_and_date
      (env : Env) (id : string) (p : TimeEntryUpdate) (db : Database) :
  upd_user_id p = None -> upd_date p = None ->
  map owner_and_date
      (tbl_time_entries (snd (backend env (ReqUpdateTimeEntry id p) db)))
  = map owner_and_date (tbl_time_entries db).
Proof.
  intros Hu Hd. unfold backend.
  destruct (backend_fails env _); [reflexivity|]. cbn.
  rewrite map_map. apply map_ext. intros e.
  destruct (String.eqb (te_id e) id); [|reflexivity].
  now apply patch_keeps_owner_and_date.
Qed.

(** C8.  When [saveTimeEntry] updates an existing entry, the one write
    it sends is an update by id whose body carries project_id, task_id,
    start_time, end_time, description and the recomputed hours, and
    carries neither user_id nor date; afterwards every stored row has the
    user_id and the date it had before. *)
Theorem update_keeps_owner_and_date
        (env : Env) (w : World) (user : User) (entry : EntryInput) (id : string) :
  v_user (w_view w) = Some user ->
  or_null (in_id entry) = Some id ->
  exists p rest,
    w_log (snd (saveTimeEntry env entry w))
    = (w_log w ++ EvRequest (ReqUpdateTimeEntry id p) :: rest)%list
    /\ Forall not_entry_write rest
    /\ upd_user_id p = None
    /\ upd_date p = None
    /\ upd_project_id p = in_project_id entry
    /\ upd_task_id p = Some (or_null (in_task_id entry))
    /\ upd_start_time p = in_start_time entry
    /\ upd_end_time p = in_end_time entry
    /\ upd_description p = in_description entry
    /\ upd_hours p = Some (calculateHours env (template (in_start_time entry))
                                          (template (in_end_time entry)))
    /\ map owner_and_date
           (tbl_time_entries (w_db (snd (saveTimeEntry env entry w))))
       = map owner_and_date (tbl_time_entries (w_db w)).
Proof.
  intros Hu Hid.
  destruct (saveTimeEntry_trace env w user entry Hu) as (rest & Hlog & Hrest & Hdb).
  unfold save_request in Hlog, Hdb. rewrite Hid in Hlog, Hdb.
  eexists. exists rest. split; [exact Hlog|]. split; [exact Hrest|].
  repeat (split; [reflexivity|]).
  rewrite Hdb. now apply backend_update_keeps_owner_and_date.
Qed.

Lemma update_keeps_owner_and_date_witness :
  exists p rest,
    w_log (snd (saveTimeEntry env_ok (entry_of_card entry_fri form_task_cleared)
                              world0))
    = (w_log world0 ++ EvRequest (ReqUpdateTimeEntry "e2" p) :: rest)%list
    /\ Forall not_entry_write rest
    /\ upd_user_id p = None
    /\ upd_date p = None
    /\ upd_project_id p = Some "p1"
    /\ upd_task_id p = Some None
    /\ upd_start_time p = Some "13:00"
    /\ upd_end_time p = Some "15:00"
    /\ upd_description p = Some ""
    /\ upd_hours p = Some (calculateHours env_ok "13:00" "15:00")
    /\ map owner_and_date
           (tbl_time_entries
              (w_db (snd (saveTimeEntry env_ok
                            (entry_of_card entry_fri form_task_cleared) world0))))
       = map owner_and_date (tbl_time_entries (w_db world0)).
Proof.
  apply (update_keeps_owner_and_date
           env_ok world0 user_ann (entry_of_card entry_fri form_task_cleared) "e2");
    reflexivity.
Defined.

(** ** Refresh on success, report on failure *)

(** C9, as stated, fails: a refused create and a refused update surface
    the same console line and the same toast, so the two failure paths
    cannot be told apart by their message; and a delete accepted while
    nobody is signed in is followed by no re-fetch. *)
Lemma create_and_update_failures_look_alike :
  requests_of
    (w_log (snd (NewEntryForm_save env_refusing draft_with_project world0)))
  = [ ReqInsertTimeEntry
        {| ins_user_id := "u1";
           ins_project_id := Some "p1";
           ins_task_id := None;
           ins_date := Some "2024-02-29";
           ins_start_time := Some "11:00";
           ins_end_time := Some "10:00";
           ins_hours := Num (-1 # 1);
           ins_description := "" |} ]
  /\ requests_of
       (w_log (snd (TimeEntryCard_save env_refusing entry_thu
                                       (initialFormData entry_thu) world0)))
     = [ ReqUpdateTimeEntry "e1"
           {| upd_user_id := None;
              upd_project_id := Some "p1";
              upd_task_id := Some None;
              upd_date := None;
              upd_start_time := Some "09:00";
              upd_end_time := Some "10:30";
              upd_hours := Some (Num (3 # 2));
              upd_description := Some "standup";
              upd_updated_at := Some "2024-03-01T12:00:00.000Z" |} ]
  /\ surfaced
       (w_log (snd (NewEntryForm_save env_refusing draft_with_project world0)))
     = [ EvConsoleError "Error saving time entry:";
         EvToastError "Failed to save time entry" ]
  /\ surfaced
       (w_log (snd (TimeEntryCard_save env_refusing entry_thu
                                       (initialFormData entry_thu) world0)))
     = surfaced
         (w_log (snd (NewEntryForm_save env_refusing draft_with_project world0)))
  /\ w_log (snd (deleteTimeEntry env_ok "e1" world_signed_out))
     = [ EvRequest (ReqDeleteTimeEntry "e1");
         EvToastSuccess "Time entry deleted" ].
Proof. repeat split; vm_compute; reflexivity. Qed.

(** C9, amended.  While a user is signed in: when the backend accepts
    the write of [saveTimeEntry] or [deleteTimeEntry], the operation
    shows its success toast and then runs [fetchData] (which, when its
    selects are accepted, reloads projects, tasks and the week's
    entries); when the backend refuses the write, the tables and the
    whole view state are as before and an error toast is shown, which is
    "Failed to save time entry" for create and update alike and
    "Failed to delete time entry" for delete, two different messages.
    While nobody is signed in, [saveTimeEntry] sends nothing, and
    [deleteTimeEntry] still sends its request and reports its outcome in
    the same words, but nothing is fetched afterwards. *)
Theorem writes_refetch_or_report (env : Env) (w : World) :
  (forall user : User,
      v_user (w_view w) = Some user ->
      (forall entry : EntryInput,
          (fst (backend env (save_request env user entry) (w_db w)) <> RespError ->
           saveTimeEntry env entry w
           = fetchData env
               (mkWorld (snd (backend env (save_request env user entry) (w_db w)))
                        (forms_closed (w_view w))
                        (w_log w ++ [ EvRequest (save_request env user entry);
                                      EvToastSuccess (save_success_toast entry) ])))
          /\ (fst (backend env (save_request env user entry) (w_db w)) = RespError ->
              saveTimeEntry env entry w
              = (Ok tt,
                 mkWorld (w_db w) (w_view w)
                         (w_log w ++ [ EvRequest (save_request env user entry);
                                       EvConsoleError "Error saving time entry:";
                                       EvToastError "Failed to save time entry" ]))))
      /\ (forall id : string,
             fst (backend env (ReqDeleteTimeEntry id) (w_db w)) <> RespError ->
             deleteTimeEntry env id w
             = fetchData env
                 (mkWorld (snd (backend env (ReqDeleteTimeEntry id) (w_db w)))
                          (w_view w)
                          (w_log w ++ [ EvRequest (ReqDeleteTimeEntry id);
                                        EvToastSuccess "Time entry deleted" ]))))
  /\ (v_user (w_view w) = None ->
      (forall entry : EntryInput, saveTimeEntry env entry w = (Ok tt, w))
      /\ (forall id : string,
             fst (backend env (ReqDeleteTimeEntry id) (w_db w)) <> RespError ->
             deleteTimeEntry env id w
             = (Ok tt,
                mkWorld (snd (backend env (ReqDeleteTimeEntry id) (w_db w)))
                        (w_view w)
                        (w_log w ++ [ EvRequest (ReqDeleteTimeEntry id);
                                      EvToastSuccess "Time entry deleted" ]))))
  /\ (forall id : string,
         fst (backend env (ReqDeleteTimeEntry id) (w_db w)) = RespError ->
         deleteTimeEntry env id w
         = (Ok tt,
            mkWorld (w_db w) (w_view w)
                    (w_log w ++ [ EvRequest (ReqDeleteTimeEntry id);
                                  EvConsoleError "Error deleting time entry:";
                                  EvToastError "Failed to delete time entry" ])))
  /\ (forall (w1 : World) (user : User),
         (forall r, backend_fails env r = false) ->
         v_user (w_view w1) = Some user ->
         requests_of (new_events w1 (snd (fetchData env w1)))
         = [ ReqSelectProjects;
             ReqSelectTasks;
             ReqSelectTimeEntries
               (user_id user)
               (format_yyyy_MM_dd (weekStart env (v_currentWeek (w_view w1))))
               (format_yyyy_MM_dd (weekEnd env (v_currentWeek (w_view w1)))) ])
  /\ "Failed to save time entry" <> "Failed to delete time entry".
Proof.
  split; [|split; [|split; [|split; [|discriminate]]]].
  - intros user Hu. split.
    + intros entry. split.
      * now apply saveTimeEntry_accepted.
      * now apply saveTimeEntry_refused.
    + intros id. apply deleteTimeEntry_accepted.
  - intros Hu. split.
    + intros entry. unfold saveTimeEntry, bind, get_view. now rewrite Hu.
    + intros id Hacc. rewrite (deleteTimeEntry_accepted env w id Hacc).
      unfold fetchData, bind, get_view. cbn [w_view snd]. now rewrite Hu.
  - intros id. apply deleteTimeEntry_refused.
  - intros w1 user Hacc Hu1.
    rewrite (fetchData_accepting env w1 user Hacc Hu1).
    unfold new_events. cbn [snd w_log].
    rewrite skipn_app, skipn_all, Nat.sub_diag. reflexivity.
Qed.

Lemma writes_refetch_or_report_witness :
  deleteTimeEntry env_refusing "e1" world0
  = (Ok tt,
     mkWorld (w_db world0) (w_view world0)
             (w_log world0 ++ [ EvRequest (ReqDeleteTimeEntry "e1");
                                EvConsoleError "Error deleting time entry:";
                                EvToastError "Failed to delete time entry" ]))
  /\ requests_of (new_events world0 (snd (fetchData env_ok world0)))
     = [ ReqSelectProjects;
         ReqSelectTasks;
         ReqSelectTimeEntries
           (user_id user_ann)
           (format_yyyy_MM_dd (weekStart env_ok (v_currentWeek (w_view world0))))
           (format_yyyy_MM_dd (weekEnd env_ok (v_currentWeek (w_view world0)))) ]
  /\ saveTimeEntry env_ok (entry_of_new draft_with_project) world_signed_out
     = (Ok tt, world_signed_out).
Proof.
  split; [|split].
  - destruct (writes_refetch_or_report env_refusing world0)
      as (_ & _ & Hdel & _).
    apply (Hdel "e1"). reflexivity.
  - destruct (writes_refetch_or_report env_ok world0)
      as (_ & _ & _ & Hfetch & _).
    apply (Hfetch world0 user_ann); reflexivity.
  - destruct (writes_refetch_or_report env_ok world_signed_out)
      as (_ & Hout & _).
    apply (proj1 (Hout eq_refl)).
Defined.

Example accepted_create_refetches :
  map te_id
      (v_timeEntries
         (w_view (snd (NewEntryForm_save env_ok draft_with_project world0))))
  = ["e1"; "new-1"; "e2"].
Proof. vm_compute. reflexivity. Qed.

(** ** task_id is null or a task id *)

Lemma or_null_not_blank (o : option string) : or_null o <> Some "".
Proof.
  destruct o as [s|]; cbn; [|discriminate].
  unfold truthy. destruct (String.eqb_spec s ""); cbn; congruence.
Qed.

Lemma or_null_falsy (o : option string) :
  o = None \/ o = Some "" -> or_null o = None.
Proof. intros [->| ->]; reflexivity. Qed.

Lemma or_null_truthy (s : string) : s <> "" -> or_null (Some s) = Some s.
Proof.
  intros H. cbn. unfold truthy.
  destruct (String.eqb_spec s ""); [contradiction|reflexivity].
Qed.

Lemma backend_keeps_task_ids (env : Env) (r : Request) (db : Database) :
  sent_task_id_ok (EvRequest r) ->
  stored_task_ids_ok db -> stored_task_ids_ok (snd (backend env r db)).
Proof.
  intros Hr Hdb. unfold backend.
  destruct (backend_fails env r); [exact Hdb|].
  unfold stored_task_ids_ok in *.
  destruct r; cbn in *; try exact Hdb.
  - rewrite Forall_forall in *. intros e He.
    apply in_map_iff in He. destruct He as (e0 & <- & He0).
    destruct (String.eqb (te_id e0) id); [|now apply Hdb].
    cbn. destruct (upd_task_id p) as [t|]; cbn.
    + intros ->. now apply Hr.
    + now apply Hdb.
  - unfold row_of_insert.
    destruct (ins_project_id p), (ins_date p), (ins_start_time p),
      (ins_end_time p); cbn; try exact Hdb.
    apply Forall_app. split; [exact Hdb|].
    constructor; [exact Hr|constructor].
  - rewrite Forall_forall in *. intros e He.
    apply filter_In in He. now apply Hdb.
  - destruct (filter _ _) as [|a [|b l]]; exact Hdb.
Qed.

Lemma perform_keeps_task_ids (env : Env) (a : Action) :
  steps (fun w w' => task_ids_ok w -> task_ids_ok w') (perform env a).
Proof.
  set (R := fun w w' : World => task_ids_ok w -> task_ids_ok w').
  assert (R_refl : forall w, R w w) by (intros w H; exact H).
  assert (R_trans : forall a b c, R a b -> R b c -> R a c)
    by (intros x y z H1 H2 H; auto).
  assert (R_modify : forall f, steps R (modify_view f))
    by (intros f w H; exact H).
  assert (R_emit : forall e, is_request_event e = false -> steps R (emit e)).
  { intros e He w [Hdb Hlog]. split; [exact Hdb|]. cbn.
    apply Forall_app. split; [exact Hlog|].
    constructor; [|constructor]. destruct e; try exact I. discriminate. }
  assert (R_request : forall r, sent_task_id_ok (EvRequest r) ->
                                steps R (request env r)).
  { intros r Hr w [Hdb Hlog]. rewrite request_run. split; cbn.
    - now apply backend_keeps_task_ids.
    - apply Forall_app. split; [exact Hlog|]. constructor; [exact Hr|constructor]. }
  assert (Hfetch : steps R (fetchData env)).
  { apply (fetchData_steps R R_refl R_trans env
             (fun r => sent_task_id_ok (EvRequest r)));
      try assumption; try exact I. intros; exact I. }
  assert (Hsave : forall entry, steps R (saveTimeEntry env entry)).
  { intros entry.
    apply (saveTimeEntry_steps R R_refl R_trans env
             (fun r => sent_task_id_ok (EvRequest r)));
      try assumption; try exact I.
    - intros; exact I.
    - intros id hours _. cbn. intros H. injection H as H.
      now apply or_null_not_blank in H.
    - intros user hours _. cbn. apply or_null_not_blank. }
  destruct a as [entry|entry formData|id| |]; cbn [perform].
  - unfold NewEntryForm_save.
    destruct (negb (truthy (ne_project_id entry)));
      [apply steps_ret, R_refl | apply Hsave].
  - apply Hsave.
  - apply (deleteTimeEntry_steps R R_refl R_trans env
             (fun r => sent_task_id_ok (EvRequest r)));
      try assumption; try exact I. intros; exact I.
  - unfold previousWeek.
    apply steps_bind; [assumption | apply steps_get_view, R_refl |]. intros v.
    apply steps_bind; [assumption | apply R_modify |]. intros _. exact Hfetch.
  - unfold nextWeek.
    apply steps_bind; [assumption | apply steps_get_view, R_refl |]. intros v.
    apply steps_bind; [assumption | apply R_modify |]. intros _. exact Hfetch.
Qed.

(** C10.  For a signed-in user the first thing [saveTimeEntry] does is
    to send its write request, the only write of the run, and the
    [task_id] that request carries is [null] when the submitted task_id
    is missing or the empty string, on update and on create, and the
    submitted task_id itself when that is not empty.  Hence, if no
    stored entry has the empty string as task_id and no request sent so
    far carried one, the same holds after any sequence of user actions
    on the time grid. *)
Theorem task_id_is_null_or_nonblank (l : list (Env * Action)) (w : World) :
  task_ids_ok w ->
  task_ids_ok (run_actions l w)
  /\ (forall env w0 user entry,
         v_user (w_view w0) = Some user ->
         exists rest,
           w_log (snd (saveTimeEntry env entry w0))
           = (w_log w0 ++ EvRequest (save_request env user entry) :: rest)%list
           /\ is_time_entry_write (save_request env user entry) = true
           /\ Forall not_entry_write rest
           /\ (in_task_id entry = None \/ in_task_id entry = Some "" ->
               sent_task_id (save_request env user entry) = Some None)
           /\ (forall t, in_task_id entry = Some t -> t <> "" ->
                         sent_task_id (save_request env user entry)
                         = Some (Some t)))
  /\ (forall env user entry hours,
         in_task_id entry = None \/ in_task_id entry = Some "" ->
         upd_task_id (update_body env entry hours) = Some None
         /\ ins_task_id (insert_body user entry hours) = None)
  /\ (forall env user entry hours t,
         in_task_id entry = Some t -> t <> "" ->
         upd_task_id (update_body env entry hours) = Some (Some t)
         /\ ins_task_id (insert_body user entry hours) = Some t).
Proof.
  intros Hw. split; [|split; [|split]].
  - revert w Hw. induction l as [|[env a] r IH]; intros w Hw; cbn [run_actions].
    + exact Hw.
    + apply IH. now apply (perform_keeps_task_ids env a w).
  - intros env w0 user entry Hu.
    destruct (saveTimeEntry_trace env w0 user entry Hu) as (rest & Hlog & Hrest & _).
    exists rest. split; [exact Hlog|].
    unfold save_request.
    destruct (or_null (in_id entry)); cbn [is_time_entry_write sent_task_id
      update_body insert_body upd_task_id ins_task_id].
    + split; [reflexivity|]. split; [exact Hrest|]. split.
      * intros H. now rewrite (or_null_falsy _ H).
      * intros t Ht Hne. now rewrite Ht, (or_null_truthy t Hne).
    + split; [reflexivity|]. split; [exact Hrest|]. split.
      * intros H. now rewrite (or_null_falsy _ H).
      * intros t Ht Hne. now rewrite Ht, (or_null_truthy t Hne).
  - intros env user entry hours H. cbn.
    now rewrite (or_null_falsy _ H).
  - intros env user entry hours t Ht Hne. cbn.
    now rewrite Ht, (or_null_truthy t Hne).
Qed.

Lemma task_id_is_null_or_nonblank_witness :
  task_ids_ok
    (run_actions
       [ (env_ok, ActCardSave entry_fri form_task_cleared);
         (env_ok, ActNewSave draft_with_project);
         (env_refusing, ActDelete "e1");
         (env_ok, ActNextWeek) ]
       world0).
Proof.
  apply (task_id_is_null_or_nonblank
           [ (env_ok, ActCardSave entry_fri form_task_cleared);
             (env_ok, ActNewSave draft_with_project);
             (env_refusing, ActDelete "e1");
             (env_ok, ActNextWeek) ]
           world0).
  split.
  - repeat constructor; discriminate.
  - constructor.
Defined.

Example cleared_task_is_stored_as_null :
  map te_task_id
      (tbl_time_entries
         (w_db (snd (TimeEntryCard_save env_ok entry_fri form_task_cleared
                                        world0))))
  = [None; None].
Proof. vm_compute. reflexivity. Qed.

(* ================================================================== *)
(** * Further properties of the components *)

(** ** Week navigation and the day columns *)

Lemma addDays_makeDate (day ms delta : Z) :
  0 <= ms < millisecondsInDay ->
  addDays (makeDate day ms) delta = makeDate (day + delta) ms.
Proof.
  intros H. unfold addDays, setDate_relative.
  now rewrite dayNumber_makeDate, msOfDay_makeDate.
Qed.

Lemma week_columns_facts (env : Env) (D : Date) :
  getDay (weekStart env D) = 1
  /\ 0 <= dayNumber D - dayNumber (weekStart env D) < 7
  /\ weekEnd env D
     = makeDate (dayNumber (weekStart env D) + Z.of_nat 7 - 1) 86399999
  /\ weekStart env D = makeDate (dayNumber (weekStart env D)) 0.
Proof.
  assert (H0 : 0 <= 0 < millisecondsInDay) by (unfold millisecondsInDay; lia).
  assert (Hday : 0 <= getDay D < 7)
    by (unfold getDay; apply Z.mod_pos_bound; lia).
  assert (Hmod : getDay D = (dayNumber D + 4) mod 7) by reflexivity.
  pose proof (Z.div_mod (dayNumber D + 4) 7) as Hdm.
  rewrite !weekStart_unfold, !weekEnd_unfold.
  rewrite getDay_makeDate, !dayNumber_makeDate by assumption.
  destruct (getDay D <? 1) eqn:Hb;
    [ pose proof (proj1 (Z.ltb_lt _ _) Hb) as Hlt
    | pose proof (proj1 (Z.ltb_ge _ _) Hb) as Hge ].
  - repeat split; try lia.
    + symmetry.
      apply (Z.mod_unique_pos _ 7 ((dayNumber D + 4) / 7 - 1) 1); lia.
    + f_equal. lia.
  - repeat split; try lia.
    + symmetry.
      apply (Z.mod_unique_pos _ 7 ((dayNumber D + 4) / 7) 1); lia.
    + f_equal. lia.
Qed.

Lemma steady_narrow (z : Zoned.Zone) (o lo hi lo' hi' : Z) :
  Zoned.steady z o lo hi -> lo <= lo' -> hi' <= hi -> Zoned.steady z o lo' hi'.
Proof.
  intros [H1 H2] Hlo Hhi. split.
  - intros t Ht. apply H1. lia.
  - intros l Hl. apply H2. lia.
Qed.

Lemma local_steady (z : Zoned.Zone) (o lo hi l : Z) :
  Zoned.steady z o lo hi -> lo <= l < hi ->
  Zoned.local z (Zoned.mkDate (l - o)) = l.
Proof.
  intros Hs Hl. unfold Zoned.local. cbn [Zoned.timeValue].
  apply (UTC_steady z o lo hi l Hs Hl).
Qed.

(** A whole number of days later, where the clock is steady. *)
Lemma addDays_steady (z : Zoned.Zone) (o lo hi l delta : Z) :
  Zoned.steady z o lo hi ->
  lo <= l < hi -> lo <= l + delta * millisecondsInDay < hi ->
  Zoned.addDays z (Zoned.mkDate (l - o)) delta
  = Zoned.mkDate (l + delta * millisecondsInDay - o).
Proof.
  intros Hs Hl Ht. unfold Zoned.addDays.
  pose proof (local_steady z o lo hi l Hs Hl) as Hloc.
  pose proof (setDate_relative_steady z o lo hi delta (Zoned.mkDate (l - o)) Hs)
    as H.
  rewrite Hloc in H. exact (proj1 (H Ht)).
Qed.

(** The next midnight, where the clock is steady. *)
Lemma next_midnight_steady (z : Zoned.Zone) (o lo hi day : Z) :
  Zoned.steady z o lo hi ->
  lo <= day * millisecondsInDay ->
  (day + 1) * millisecondsInDay < hi ->
  Zoned.setHours z (Zoned.setDate_relative
                      z (Zoned.mkDate (day * millisecondsInDay - o)) 1)
                 0 0 0 0
  = Zoned.mkDate ((day + 1) * millisecondsInDay - o).
Proof.
  intros Hs Hlo Hhi.
  assert (H0 : 0 <= 0 < millisecondsInDay) by (unfold millisecondsInDay; lia).
  assert (Hl : lo <= day * millisecondsInDay < hi)
    by (unfold millisecondsInDay in *; lia).
  assert (Ht : lo <= day * millisecondsInDay + 1 * millisecondsInDay < hi)
    by (unfold millisecondsInDay in *; lia).
  pose proof (addDays_steady z o lo hi _ 1 Hs Hl Ht) as Hadd.
  unfold Zoned.addDays in Hadd. rewrite Hadd.
  replace (day * millisecondsInDay + 1 * millisecondsInDay)
    with ((day + 1) * millisecondsInDay) in * by lia.
  pose proof (local_steady z o lo hi _ Hs Ht) as Hloc.
  assert (Hday : Zoned.Day ((day + 1) * millisecondsInDay) = day + 1).
  { change ((day + 1) * millisecondsInDay)
      with ((day + 1) * millisecondsInDay).
    replace ((day + 1) * millisecondsInDay)
      with (Zoned.MakeDate (day + 1) 0) by (unfold Zoned.MakeDate; lia).
    now apply Day_MakeDate. }
  pose proof (setHours_steady z o lo hi 0 0 0 0
                              (Zoned.mkDate ((day + 1) * millisecondsInDay - o)) Hs)
    as H.
  rewrite Hloc, Hday in H. change (Zoned.MakeTime 0 0 0 0) with 0 in H.
  unfold Zoned.MakeDate in H.
  rewrite (proj1 (H ltac:(lia))). f_equal. lia.
Qed.

Lemma eachDay_loop_stop (z : Zoned.Zone) (o endTime : Z) (k : nat) (day : Z) :
  endTime < day * millisecondsInDay - o ->
  Zoned.eachDay_loop z (S k) (Zoned.mkDate (day * millisecondsInDay - o)) endTime
  = Some [].
Proof.
  intros Hend.
  cbn [Zoned.eachDay_loop Zoned.getTime Zoned.timeValue].
  replace (day * millisecondsInDay - o <=? endTime) with false; [reflexivity|].
  symmetry. apply Z.leb_gt. exact Hend.
Qed.

Lemma eachDay_loop_step (z : Zoned.Zone) (o lo hi endTime : Z) (n : nat)
      (day : Z) :
  Zoned.steady z o lo hi ->
  lo <= day * millisecondsInDay ->
  (day + 1) * millisecondsInDay < hi ->
  day * millisecondsInDay - o <= endTime ->
  Zoned.eachDay_loop z (S n) (Zoned.mkDate (day * millisecondsInDay - o)) endTime
  = match Zoned.eachDay_loop
            z n (Zoned.mkDate ((day + 1) * millisecondsInDay - o)) endTime with
    | Some l => Some (Zoned.mkDate (day * millisecondsInDay - o) :: l)
    | None => None
    end.
Proof.
  intros Hs Hlo Hhi Hend.
  cbn [Zoned.eachDay_loop Zoned.getTime Zoned.timeValue].
  replace (day * millisecondsInDay - o <=? endTime) with true
    by (symmetry; apply Z.leb_le; exact Hend).
  rewrite (next_midnight_steady z o lo hi day Hs Hlo Hhi).
  reflexivity.
Qed.

Lemma eachDay_loop_steady (z : Zoned.Zone) (o lo hi endTime : Z) (n k : nat)
      (day : Z) :
  Zoned.steady z o lo hi ->
  lo <= day * millisecondsInDay ->
  (day + Z.of_nat n) * millisecondsInDay < hi ->
  (day + Z.of_nat n - 1) * millisecondsInDay - o <= endTime
  < (day + Z.of_nat n) * millisecondsInDay - o ->
  Zoned.eachDay_loop z (S n + k) (Zoned.mkDate (day * millisecondsInDay - o))
                     endTime
  = Some (map (fun i => Zoned.mkDate ((day + Z.of_nat i) * millisecondsInDay - o))
              (seq 0 n)).
Proof.
  intros Hs.
  assert (Hms : 0 < millisecondsInDay) by reflexivity.
  revert day. induction n as [|n IH]; intros day Hlo Hhi Hend.
  - apply eachDay_loop_stop. lia.
  - change (S (S n) + k)%nat with (S (S n + k)).
    rewrite (eachDay_loop_step z o lo hi endTime (S n + k) day Hs Hlo) by lia.
    rewrite (IH (day + 1)) by lia.
    f_equal. change (seq 0 (S n)) with (0%nat :: seq 1 n).
    cbn [map]. f_equal.
    + f_equal. lia.
    + rewrite <- seq_shift, map_map. apply map_ext. intros i.
      f_equal. lia.
Qed.

(** X2.  Where the local clock is steady from the Monday 00:00 at or
    before the reference date up to and including the next Monday 00:00,
    the grid has seven day columns: with any loop bound of at least
    eight, [weekDays] is the seven dates from [weekStart] on, one per
    day, which are local midnights and fall on Monday, Tuesday, ...,
    Sunday, and the reference date lies on one of these days. *)
Theorem weekDays_are_monday_to_sunday
        (z : Zoned.Zone) (defaults : WeekOptions) (D : Zoned.Date) (o : Z)
        (k : nat) :
  Zoned.steady z o (Zoned.local_monday (Zoned.local z D))
               (Zoned.local_monday (Zoned.local z D) + 7 * millisecondsInDay + 1) ->
  Zoned.weekDays z defaults (8 + k) D
  = Zoned.Days (map (Zoned.addDays z (Zoned.weekStart z defaults D))
                    [0; 1; 2; 3; 4; 5; 6])
  /\ map (Zoned.getDay z)
         (map (Zoned.addDays z (Zoned.weekStart z defaults D))
              [0; 1; 2; 3; 4; 5; 6])
     = [1; 2; 3; 4; 5; 6; 0]
  /\ Forall (fun day => Zoned.TimeWithinDay (Zoned.local z day) = 0)
            (map (Zoned.addDays z (Zoned.weekStart z defaults D))
                 [0; 1; 2; 3; 4; 5; 6])
  /\ In (Zoned.Day (Zoned.local z D))
        (map (fun day => Zoned.Day (Zoned.local z day))
             (map (Zoned.addDays z (Zoned.weekStart z defaults D))
                  [0; 1; 2; 3; 4; 5; 6])).
Proof.
  intros Hs8.
  assert (H0 : 0 <= 0 < millisecondsInDay) by (unfold millisecondsInDay; lia).
  assert (Hs : Zoned.steady z o (Zoned.local_monday (Zoned.local z D))
                            (Zoned.local_monday (Zoned.local z D)
                             + 7 * millisecondsInDay))
    by (apply (steady_narrow z o _ _ _ _ Hs8); lia).
  destruct (week_bounds_steady z defaults D o Hs) as (HD & Hws & Hwsl & Hwe & Hwel).
  destruct (local_monday_facts (Zoned.local z D))
    as (HM & Hback & Hmon & Hmid & HdayM & Hin & _).
  cbv zeta in *.
  set (l := Zoned.local z D) in *.
  set (M := Zoned.local_monday l) in *.
  set (s := Zoned.Day M) in *.
  assert (HMs : M = s * millisecondsInDay).
  { destruct (local_time_split M) as [H _]. rewrite Hmid in H.
    unfold Zoned.MakeDate in H. fold s in H. lia. }
  assert (Hcol : forall i, 0 <= i <= 6 ->
             Zoned.addDays z (Zoned.weekStart z defaults D) i
             = Zoned.mkDate ((s + i) * millisecondsInDay - o)
             /\ Zoned.local z (Zoned.mkDate ((s + i) * millisecondsInDay - o))
                = Zoned.MakeDate (s + i) 0).
  { intros i Hi. rewrite Hws.
    assert (HlM : M <= M < M + 7 * millisecondsInDay + 1)
      by (unfold millisecondsInDay; lia).
    assert (Hti : M <= M + i * millisecondsInDay < M + 7 * millisecondsInDay + 1)
      by (unfold millisecondsInDay; lia).
    rewrite (addDays_steady z o _ _ M i Hs8 HlM Hti).
    replace (M + i * millisecondsInDay) with ((s + i) * millisecondsInDay)
      in * by lia.
    split; [reflexivity|].
    rewrite (local_steady z o _ _ _ Hs8 Hti). unfold Zoned.MakeDate. lia. }
  assert (Hdays : map (Zoned.addDays z (Zoned.weekStart z defaults D))
                      [0; 1; 2; 3; 4; 5; 6]
                  = map (fun i => Zoned.mkDate ((s + Z.of_nat i) * millisecondsInDay - o))
                        (seq 0 7)).
  { cbn [map seq Z.of_nat].
    rewrite (proj1 (Hcol 0 ltac:(lia))), (proj1 (Hcol 1 ltac:(lia))),
      (proj1 (Hcol 2 ltac:(lia))), (proj1 (Hcol 3 ltac:(lia))),
      (proj1 (Hcol 4 ltac:(lia))), (proj1 (Hcol 5 ltac:(lia))),
      (proj1 (Hcol 6 ltac:(lia))).
    reflexivity. }
  assert (Hloc : forall i, 0 <= i <= 6 ->
             Zoned.local z (Zoned.mkDate ((s + i) * millisecondsInDay - o))
             = Zoned.MakeDate (s + i) 0)
    by (intros i Hi; apply (Hcol i Hi)).
  rewrite Hdays. split; [|split; [|split]].
  - unfold Zoned.weekDays, Zoned.eachDayOfInterval.
    rewrite Hwe, Hws. cbn [Zoned.getTime Zoned.timeValue].
    destruct (Z.leb_spec (M - o) (M + 6 * millisecondsInDay + 86399999 - o));
      [|unfold millisecondsInDay in *; lia].
    cbn [negb].
    assert (Hsh : Zoned.setHours z (Zoned.mkDate (M - o)) 0 0 0 0
                  = Zoned.mkDate (s * millisecondsInDay - o)).
    { assert (HlM : M <= M < M + 7 * millisecondsInDay + 1)
        by (unfold millisecondsInDay; lia).
      pose proof (local_steady z o _ _ M Hs8 HlM) as HlocM.
      pose proof (setHours_steady z o _ _ 0 0 0 0 (Zoned.mkDate (M - o)) Hs8)
        as Hset.
      rewrite HlocM in Hset. change (Zoned.MakeTime 0 0 0 0) with 0 in Hset.
      fold s in Hset. unfold Zoned.MakeDate in Hset.
      rewrite (proj1 (Hset ltac:(unfold millisecondsInDay in *; lia))).
      f_equal. lia. }
    rewrite Hsh.
    rewrite (eachDay_loop_steady z o _ _ _ 7 k s Hs8); [reflexivity| | |];
      unfold millisecondsInDay in *; lia.
  - cbn [map seq Z.of_nat]. unfold Zoned.getDay.
    rewrite !Hloc by lia.
    unfold Zoned.WeekDay. rewrite !Day_MakeDate by exact H0.
    unfold Zoned.WeekDay in Hmon. fold s in Hmon.
    assert (Hwd : forall i, (s + i + 4) mod 7 = (1 + i) mod 7).
    { intros i. replace (s + i + 4) with (s + 4 + i) by lia.
      now rewrite <- Zplus_mod_idemp_l, Hmon. }
    rewrite !Hwd. reflexivity.
  - cbn [map seq Z.of_nat].
    repeat (apply Forall_cons;
            [rewrite Hloc by lia; now apply TimeWithinDay_MakeDate|]).
    apply Forall_nil.
  - cbn [map seq Z.of_nat]. rewrite !Hloc by lia.
    rewrite !Day_MakeDate by exact H0.
    assert (Hcase : Zoned.Day l = s + 0 \/ Zoned.Day l = s + 1
                    \/ Zoned.Day l = s + 2 \/ Zoned.Day l = s + 3
                    \/ Zoned.Day l = s + 4 \/ Zoned.Day l = s + 5
                    \/ Zoned.Day l = s + 6) by lia.
    cbn [In]. intuition lia.
Qed.

Lemma weekDays_are_monday_to_sunday_witness :
  Zoned.weekDays Zoned.tehran (mkWeekOptions None (Some 6)) 8 Zoned.june_noon
  = Zoned.Days
      (map (Zoned.addDays
              Zoned.tehran
              (Zoned.weekStart Zoned.tehran (mkWeekOptions None (Some 6))
                               Zoned.june_noon))
           [0; 1; 2; 3; 4; 5; 6]).
Proof.
  assert (Hs : Zoned.steady
                 Zoned.tehran 16200000
                 (Zoned.local_monday (Zoned.local Zoned.tehran Zoned.june_noon))
                 (Zoned.local_monday (Zoned.local Zoned.tehran Zoned.june_noon)
                  + 7 * millisecondsInDay + 1)).
  { set (lo := Zoned.local_monday _). vm_compute in lo. subst lo.
    change (7 * millisecondsInDay) with 604800000.
    unfold Zoned.steady, Zoned.LocalTime, Zoned.offsetAt, Zoned.tehran.
    cbn [Zoned.zone_offset Zoned.zone_changes Zoned.offset_in].
    change (Zoned.instant 2020 3 20 20 30) with 1584736200000.
    change (Zoned.instant 2020 9 20 19 30) with 1600630200000.
    change (Zoned.instant 2021 3 21 20 30) with 1616358600000.
    change (Zoned.instant 2021 9 21 19 30) with 1632252600000.
    split.
    - intros t.
      destruct (Z.leb_spec 1584736200000 t); [|lia].
      destruct (Z.leb_spec 1600630200000 t); [|lia].
      destruct (Z.leb_spec 1616358600000 t);
        [destruct (Z.leb_spec 1632252600000 t)|]; lia.
    - intros l Hl.
      destruct (Z.leb_spec 1584736200000 (l - 16200000)); [|lia].
      destruct (Z.leb_spec 1600630200000 (l - 16200000)); [lia|reflexivity]. }
  apply (weekDays_are_monday_to_sunday
           Zoned.tehran (mkWeekOptions None (Some 6)) Zoned.june_noon
           16200000 0 Hs).
Defined.

(** Where the clocks skip the midnight of a day of the week, its column
    is dated 01:00: the Friday 2024-04-26 in [cairo]. *)
Example column_after_skipped_midnight :
  match Zoned.weekDays Zoned.cairo (mkWeekOptions None None) 8
                       (Zoned.mkDate (Zoned.instant 2024 4 24 10 0)) with
  | Zoned.Days l =>
      map (fun day => Zoned.TimeWithinDay (Zoned.local Zoned.cairo day)) l
  | _ => []
  end
  = [0; 0; 0; 0; Zoned.MakeTime 1 0 0 0; 0; 0].
Proof. vm_compute. reflexivity. Qed.

Lemma local_monday_shift (l j : Z) :
  Zoned.local_monday (l + 7 * j * millisecondsInDay)
  = Zoned.local_monday l + 7 * j * millisecondsInDay.
Proof.
  assert (Hday : Zoned.Day (l + 7 * j * millisecondsInDay) = Zoned.Day l + 7 * j).
  { unfold Zoned.Day. apply Z.div_add. discriminate. }
  assert (Hwd : Zoned.WeekDay (l + 7 * j * millisecondsInDay) = Zoned.WeekDay l).
  { unfold Zoned.WeekDay. rewrite Hday.
    replace (Zoned.Day l + 7 * j + 4) with (Zoned.Day l + 4 + j * 7) by lia.
    apply Z_mod_plus_full. }
  unfold Zoned.local_monday. rewrite Hday, Hwd. unfold Zoned.MakeDate. lia.
Qed.

(** X1.  Where the local clock is steady from the Monday 00:00 a week
    before the displayed week to the Monday 00:00 two weeks after its
    start, the dates the two week buttons set undo each other, and each
    moves both boundaries of the displayed week by exactly seven days. *)
Theorem week_buttons_shift_the_week_by_seven_days
        (z : Zoned.Zone) (defaults : WeekOptions) (D : Zoned.Date) (o : Z) :
  Zoned.steady z o
               (Zoned.local_monday (Zoned.local z D) - 7 * millisecondsInDay)
               (Zoned.local_monday (Zoned.local z D) + 14 * millisecondsInDay) ->
  Zoned.nextWeek z (Zoned.previousWeek z D) = D
  /\ Zoned.previousWeek z (Zoned.nextWeek z D) = D
  /\ Zoned.weekStart z defaults (Zoned.nextWeek z D)
     = Zoned.addDays z (Zoned.weekStart z defaults D) 7
  /\ Zoned.weekEnd z defaults (Zoned.nextWeek z D)
     = Zoned.addDays z (Zoned.weekEnd z defaults D) 7
  /\ Zoned.weekStart z defaults (Zoned.previousWeek z D)
     = Zoned.addDays z (Zoned.weekStart z defaults D) (-7)
  /\ Zoned.weekEnd z defaults (Zoned.previousWeek z D)
     = Zoned.addDays z (Zoned.weekEnd z defaults D) (-7)
  /\ Zoned.getTime (Zoned.weekStart z defaults (Zoned.nextWeek z D))
     = Zoned.getTime (Zoned.weekStart z defaults D) + 7 * millisecondsInDay
  /\ Zoned.getTime (Zoned.weekStart z defaults (Zoned.previousWeek z D))
     = Zoned.getTime (Zoned.weekStart z defaults D) - 7 * millisecondsInDay.
Proof.
  intros Hw.
  assert (Hms : millisecondsInDay = 86400000) by reflexivity.
  set (l := Zoned.local z D) in *.
  set (M := Zoned.local_monday l) in *.
  destruct (local_monday_facts l) as (_ & _ & _ & _ & _ & Hin & _).
  cbv zeta in Hin. fold M in Hin.
  assert (Hs : Zoned.steady z o M (M + 7 * millisecondsInDay))
    by (apply (steady_narrow z o _ _ _ _ Hw); lia).
  destruct (week_bounds_steady z defaults D o Hs) as (HD & Hws & _ & Hwe & _).
  fold l in HD, Hws, Hwe. fold M in Hws, Hwe.
  assert (Hl : M - 7 * millisecondsInDay <= l < M + 14 * millisecondsInDay) by lia.
  (* the dates the buttons set *)
  assert (Hnext : Zoned.nextWeek z D
                  = Zoned.mkDate (l + 7 * 1 * millisecondsInDay - o)).
  { unfold Zoned.nextWeek, Zoned.addWeeks. rewrite HD at 1.
    change (1 * 7) with 7.
    rewrite (addDays_steady z o _ _ l 7 Hw Hl) by lia. f_equal; lia. }
  assert (Hprev : Zoned.previousWeek z D
                  = Zoned.mkDate (l + 7 * (-1) * millisecondsInDay - o)).
  { unfold Zoned.previousWeek, Zoned.subWeeks, Zoned.addWeeks. rewrite HD at 1.
    change (- (1) * 7) with (-7).
    rewrite (addDays_steady z o _ _ l (-7) Hw Hl) by lia. f_equal; lia. }
  (* the week of a date one week away *)
  assert (Hweek : forall j, j = 1 \/ j = -1 ->
             Zoned.weekStart z defaults
                             (Zoned.mkDate (l + 7 * j * millisecondsInDay - o))
             = Zoned.mkDate (M + 7 * j * millisecondsInDay - o)
             /\ Zoned.weekEnd z defaults
                              (Zoned.mkDate (l + 7 * j * millisecondsInDay - o))
                = Zoned.mkDate (M + 7 * j * millisecondsInDay
                                + 6 * millisecondsInDay + 86399999 - o)).
  { intros j Hj.
    assert (Hlj : M - 7 * millisecondsInDay <= l + 7 * j * millisecondsInDay
                  < M + 14 * millisecondsInDay) by lia.
    pose proof (local_steady z o _ _ _ Hw Hlj) as Hloc.
    assert (Hsj : Zoned.steady
                    z o
                    (Zoned.local_monday
                       (Zoned.local z (Zoned.mkDate (l + 7 * j * millisecondsInDay - o))))
                    (Zoned.local_monday
                       (Zoned.local z (Zoned.mkDate (l + 7 * j * millisecondsInDay - o)))
                     + 7 * millisecondsInDay)).
    { rewrite Hloc, local_monday_shift. fold M.
      apply (steady_narrow z o _ _ _ _ Hw); lia. }
    destruct (week_bounds_steady z defaults _ o Hsj) as (_ & H1 & _ & H2 & _).
    rewrite Hloc, local_monday_shift in H1, H2. fold M in H1, H2.
    split; assumption. }
  destruct (Hweek 1 (or_introl eq_refl)) as [Hws1 Hwe1].
  destruct (Hweek (-1) (or_intror eq_refl)) as [Hws2 Hwe2].
  assert (HM : M - 7 * millisecondsInDay <= M < M + 14 * millisecondsInDay) by lia.
  assert (HE : M - 7 * millisecondsInDay
               <= M + 6 * millisecondsInDay + 86399999
               < M + 14 * millisecondsInDay) by lia.
  split; [|split; [|split; [|split; [|split; [|split; [|split]]]]]].
  - rewrite Hprev. unfold Zoned.nextWeek, Zoned.addWeeks. change (1 * 7) with 7.
    rewrite (addDays_steady z o _ _ (l + 7 * (-1) * millisecondsInDay) 7 Hw)
      by lia.
    etransitivity; [|symmetry; exact HD]. f_equal; lia.
  - rewrite Hnext. unfold Zoned.previousWeek, Zoned.subWeeks, Zoned.addWeeks.
    change (- (1) * 7) with (-7).
    rewrite (addDays_steady z o _ _ (l + 7 * 1 * millisecondsInDay) (-7) Hw)
      by lia.
    etransitivity; [|symmetry; exact HD]. f_equal; lia.
  - rewrite Hnext, Hws1, Hws.
    rewrite (addDays_steady z o _ _ M 7 Hw HM) by lia. f_equal; lia.
  - rewrite Hnext, Hwe1, Hwe.
    rewrite (addDays_steady z o _ _ _ 7 Hw HE) by lia. f_equal; lia.
  - rewrite Hprev, Hws2, Hws.
    rewrite (addDays_steady z o _ _ M (-7) Hw HM) by lia. f_equal; lia.
  - rewrite Hprev, Hwe2, Hwe.
    rewrite (addDays_steady z o _ _ _ (-7) Hw HE) by lia. f_equal; lia.
  - rewrite Hnext, Hws1, Hws. cbn [Zoned.getTime Zoned.timeValue]. lia.
  - rewrite Hprev, Hws2, Hws. cbn [Zoned.getTime Zoned.timeValue]. lia.
Qed.

Lemma week_buttons_shift_the_week_by_seven_days_witness :
  Zoned.nextWeek Zoned.tehran (Zoned.previousWeek Zoned.tehran Zoned.june_noon)
  = Zoned.june_noon
  /\ Zoned.previousWeek Zoned.tehran (Zoned.nextWeek Zoned.tehran Zoned.june_noon)
     = Zoned.june_noon.
Proof.
  assert (Hs : Zoned.steady
                 Zoned.tehran 16200000
                 (Zoned.local_monday (Zoned.local Zoned.tehran Zoned.june_noon)
                  - 7 * millisecondsInDay)
                 (Zoned.local_monday (Zoned.local Zoned.tehran Zoned.june_noon)
                  + 14 * millisecondsInDay)).
  { set (lo := Zoned.local_monday _). vm_compute in lo. subst lo.
    change (7 * millisecondsInDay) with 604800000.
    change (14 * millisecondsInDay) with 1209600000.
    unfold Zoned.steady, Zoned.LocalTime, Zoned.offsetAt, Zoned.tehran.
    cbn [Zoned.zone_offset Zoned.zone_changes Zoned.offset_in].
    change (Zoned.instant 2020 3 20 20 30) with 1584736200000.
    change (Zoned.instant 2020 9 20 19 30) with 1600630200000.
    change (Zoned.instant 2021 3 21 20 30) with 1616358600000.
    change (Zoned.instant 2021 9 21 19 30) with 1632252600000.
    split.
    - intros t.
      destruct (Z.leb_spec 1584736200000 t); [|lia].
      destruct (Z.leb_spec 1600630200000 t); [|lia].
      destruct (Z.leb_spec 1616358600000 t);
        [destruct (Z.leb_spec 1632252600000 t)|]; lia.
    - intros l Hl.
      destruct (Z.leb_spec 1584736200000 (l - 16200000)); [|lia].
      destruct (Z.leb_spec 1600630200000 (l - 16200000)); [lia|reflexivity]. }
  destruct (week_buttons_shift_the_week_by_seven_days
              Zoned.tehran (mkWeekOptions None None) Zoned.june_noon 16200000 Hs)
    as (H1 & H2 & _).
  split; [exact H1 | exact H2].
Defined.

(** Across a skipped hour the two buttons do not undo each other: from
    02:30 on Sunday 2024-03-17 in [new_york], a week back and a week
    forth lead to 03:30. *)
Example week_buttons_across_a_skipped_hour :
  Zoned.local Zoned.new_york (Zoned.mkDate (Zoned.instant 2024 3 17 6 30))
  = Zoned.MakeDate (days_from_civil 2024 3 17) (Zoned.MakeTime 2 30 0 0)
  /\ Zoned.local Zoned.new_york
                 (Zoned.nextWeek
                    Zoned.new_york
                    (Zoned.previousWeek
                       Zoned.new_york
                       (Zoned.mkDate (Zoned.instant 2024 3 17 6 30))))
     = Zoned.MakeDate (days_from_civil 2024 3 17) (Zoned.MakeTime 3 30 0 0).
Proof. vm_compute. split; reflexivity. Qed.

(** ** The two readings of a date agree where the offset never changes *)

Lemma UTC_fixed (tz l : Z) : Zoned.UTC (Zoned.mkZone tz []) l = l - tz.
Proof.
  unfold Zoned.UTC, Zoned.possibleInstants, Zoned.offsets, Zoned.LocalTime,
    Zoned.offsetAt.
  cbn [Zoned.zone_offset Zoned.zone_changes Zoned.offset_in map filter].
  replace (l - tz + tz =? l) with true by (symmetry; apply Z.eqb_eq; lia).
  reflexivity.
Qed.

(** In a zone without changes, what the local clock shows of the dates
    computed on instants is what [DateFns] computes on local time
    values. *)
Lemma fixed_offset_agreement
      (tz : Z) (defaults options : WeekOptions) (d : Zoned.Date) (amount : Z) :
  mkDate (Zoned.local (Zoned.mkZone tz [])
                      (Zoned.startOfWeek (Zoned.mkZone tz []) defaults d options))
  = startOfWeek defaults (mkDate (Zoned.local (Zoned.mkZone tz []) d)) options
  /\ mkDate (Zoned.local (Zoned.mkZone tz [])
                         (Zoned.endOfWeek (Zoned.mkZone tz []) defaults d options))
     = endOfWeek defaults (mkDate (Zoned.local (Zoned.mkZone tz []) d)) options
  /\ mkDate (Zoned.local (Zoned.mkZone tz [])
                         (Zoned.addDays (Zoned.mkZone tz []) d amount))
     = addDays (mkDate (Zoned.local (Zoned.mkZone tz []) d)) amount
  /\ Zoned.getDay (Zoned.mkZone tz []) d
     = getDay (mkDate (Zoned.local (Zoned.mkZone tz []) d))
  /\ Zoned.getTime d = getTime tz (mkDate (Zoned.local (Zoned.mkZone tz []) d)).
Proof.
  assert (Hlocal : forall t, Zoned.local (Zoned.mkZone tz []) (Zoned.mkDate t) = t + tz)
    by reflexivity.
  assert (Hback : forall l, Zoned.local (Zoned.mkZone tz [])
                                        (Zoned.mkDate (Zoned.UTC (Zoned.mkZone tz []) l))
                            = l).
  { intros l. rewrite UTC_fixed, Hlocal. lia. }
  split; [|split; [|split; [|split]]].
  - unfold Zoned.startOfWeek, startOfWeek, Zoned.setHours, Zoned.setDate_relative,
      setHours, setDate_relative.
    rewrite !Hback. reflexivity.
  - unfold Zoned.endOfWeek, endOfWeek, Zoned.setHours, Zoned.setDate_relative,
      setHours, setDate_relative.
    rewrite !Hback. reflexivity.
  - unfold Zoned.addDays, addDays, Zoned.setDate_relative, setDate_relative.
    rewrite Hback. reflexivity.
  - reflexivity.
  - destruct d as [t]. unfold getTime. rewrite Hlocal.
    cbn [Zoned.getTime Zoned.timeValue localTime]. lia.
Qed.

(** ** The forms keep the task inside the chosen project *)

Lemma task_options_belong (tasks : list Task) (project v : string) :
  In v (task_options tasks project) -> task_of_project tasks project v.
Proof.
  unfold task_options, task_of_project, projectTasks. intros H.
  destruct (filter _ tasks) as [|t0 l] eqn:E; [contradiction|].
  destruct H as [<-|H]; [now left|]. right.
  apply in_map_iff in H. destruct H as (t & <- & Ht).
  rewrite <- E in Ht. apply filter_In in Ht. destruct Ht as [Hin Heq].
  exists t. repeat split; [exact Hin|]. now apply String.eqb_eq.
Qed.

Lemma NewEntryForm_change_keeps_task (projects : list Project) (tasks : list Task)
      (entry : NewEntry) (e : FormEdit) :
  task_of_project tasks (ne_project_id entry) (ne_task_id entry) ->
  edit_offered projects tasks (ne_project_id entry) e ->
  task_of_project tasks (ne_project_id (NewEntryForm_change entry e))
                  (ne_task_id (NewEntryForm_change entry e)).
Proof.
  intros Hok Hoff. destruct e; cbn in *; try exact Hok.
  - now left.
  - now apply task_options_belong.
Qed.

Lemma TimeEntryCard_change_keeps_task (projects : list Project) (tasks : list Task)
      (fd : FormData) (e : FormEdit) :
  task_of_project tasks (fd_project_id fd) (fd_task_id fd) ->
  edit_offered projects tasks (fd_project_id fd) e ->
  task_of_project tasks (fd_project_id (TimeEntryCard_change fd e))
                  (fd_task_id (TimeEntryCard_change fd e)).
Proof.
  intros Hok Hoff. destruct e; cbn in *; try exact Hok.
  - now left.
  - now apply task_options_belong.
Qed.

Lemma sent_task_is_of_project
      (env : Env) (user : User) (tasks : list Task) (entry : EntryInput)
      (project task : string) :
  in_project_id entry = Some project ->
  in_task_id entry = Some task ->
  task_of_project tasks project task ->
  forall t, request_task (save_request env user entry) = Some t ->
            exists tk, In tk tasks /\ task_id tk = t
                       /\ request_project (save_request env user entry)
                          = Some (task_project_id tk).
Proof.
  intros Hp Ht Hok t Hreq.
  assert (Hor : or_null (in_task_id entry) = Some t).
  { unfold save_request in Hreq.
    destruct (or_null (in_id entry));
      cbn [request_task update_body insert_body upd_task_id ins_task_id]
        in Hreq;
      exact Hreq. }
  assert (Hproj : request_project (save_request env user entry) = Some project).
  { unfold save_request.
    destruct (or_null (in_id entry));
      cbn [request_project update_body insert_body upd_project_id
           ins_project_id];
      exact Hp. }
  rewrite Ht in Hor. cbn [or_null] in Hor.
  destruct (truthy task) eqn:Htr; [|discriminate].
  injection Hor as <-.
  destruct Hok as [->|(tk & Hin & Hid & Hpr)]; [discriminate|].
  exists tk. rewrite Hproj, Hpr. auto.
Qed.

(** X3.  A new entry started with [startNewEntry] and edited through
    the new-entry form keeps the clicked day as its date, and whatever
    the user picks in the two selects, its task is blank or one of the
    listed tasks of the chosen project; so a save request that names a
    task names a task of the project it names. *)
Theorem new_entry_form_keeps_task_within_project
        (env : Env) (w : World) (user : User) (date : Date)
        (projects : list Project) (tasks : list Task)
        (entry0 entry' : NewEntry) :
  v_newEntry (w_view (snd (startNewEntry date w))) = Some entry0 ->
  new_entry_edits projects tasks entry0 entry' ->
  ne_date entry' = format_yyyy_MM_dd date
  /\ task_of_project tasks (ne_project_id entry') (ne_task_id entry')
  /\ (forall t,
         request_task (save_request env user (entry_of_new entry')) = Some t ->
         exists tk, In tk tasks /\ task_id tk = t
                    /\ request_project (save_request env user (entry_of_new entry'))
                       = Some (task_project_id tk)).
Proof.
  intros Hstart Hedits.
  unfold startNewEntry, setNewEntry, modify_view in Hstart.
  cbn [snd w_view v_newEntry] in Hstart. injection Hstart as <-.
  assert (H : ne_date entry' = format_yyyy_MM_dd date
              /\ task_of_project tasks (ne_project_id entry') (ne_task_id entry')).
  { match type of Hedits with
    | new_entry_edits _ _ ?d0 _ => remember d0 as entry0 eqn:E0
    end.
    induction Hedits as [entry|entry entry' e _ IH Hoff].
    - subst entry. split; [reflexivity | now left].
    - destruct (IH E0) as [Hd Hok]. split.
      + destruct e; exact Hd.
      + now apply (NewEntryForm_change_keeps_task projects). }
  destruct H as [Hd Hok]. split; [exact Hd|]. split; [exact Hok|].
  now apply (sent_task_is_of_project env user tasks (entry_of_new entry')
                                     (ne_project_id entry') (ne_task_id entry')).
Qed.

Lemma new_entry_form_keeps_task_within_project_witness :
  ne_date (NewEntryForm_change (NewEntryForm_change draft_thu (PickProject "p1"))
                               (PickTask "t1"))
  = format_yyyy_MM_dd (makeDate 19782 0)
  /\ task_of_project sample_tasks "p1" "t1"
  /\ (forall t,
         request_task
           (save_request env_ok user_ann
              (entry_of_new
                 (NewEntryForm_change
                    (NewEntryForm_change draft_thu (PickProject "p1"))
                    (PickTask "t1")))) = Some t ->
         exists tk, In tk sample_tasks /\ task_id tk = t
                    /\ request_project
                         (save_request env_ok user_ann
                            (entry_of_new
                               (NewEntryForm_change
                                  (NewEntryForm_change draft_thu (PickProject "p1"))
                                  (PickTask "t1"))))
                       = Some (task_project_id tk)).
Proof.
  apply (new_entry_form_keeps_task_within_project
           env_ok world0 user_ann (makeDate 19782 0)
           sample_projects sample_tasks draft_thu).
  - vm_compute. reflexivity.
  - apply ne_edits_step.
    + apply ne_edits_step.
      * apply ne_edits_done.
      * cbn. right. left. reflexivity.
    + cbn. right. left. reflexivity.
Defined.

(** X4.  On the edit form of a card: if the entry's task is absent or a
    listed task of the entry's project, this still holds of the form
    after any edits through its selects, and the update it sends names
    either no task or a task of the project it names. *)
Theorem edit_form_keeps_task_within_project
        (env : Env) (user : User)
        (projects : list Project) (tasks : list Task)
        (entry : TimeEntry) (formData : FormData) :
  task_of_project tasks (te_project_id entry) (or_empty (te_task_id entry)) ->
  card_edits projects tasks (initialFormData entry) formData ->
  task_of_project tasks (fd_project_id formData) (fd_task_id formData)
  /\ (forall t,
         request_task (save_request env user (entry_of_card entry formData))
         = Some t ->
         exists tk, In tk tasks /\ task_id tk = t
                    /\ request_project
                         (save_request env user (entry_of_card entry formData))
                       = Some (task_project_id tk)).
Proof.
  intros Hinit Hedits.
  assert (Hok : task_of_project tasks (fd_project_id formData)
                                (fd_task_id formData)).
  { remember (initialFormData entry) as fd0 eqn:E.
    induction Hedits as [fd|fd fd' e _ IH Hoff].
    - subst fd. exact Hinit.
    - apply (TimeEntryCard_change_keeps_task projects); [now apply IH | exact Hoff]. }
  split; [exact Hok|].
  now apply (sent_task_is_of_project env user tasks (entry_of_card entry formData)
                                     (fd_project_id formData) (fd_task_id formData)).
Qed.

Lemma edit_form_keeps_task_within_project_witness :
  task_of_project sample_tasks "p1" ""
  /\ (forall t,
         request_task
           (save_request env_ok user_ann
              (entry_of_card entry_fri
                 (TimeEntryCard_change (initialFormData entry_fri)
                                       (PickProject "p1")))) = Some t ->
         exists tk, In tk sample_tasks /\ task_id tk = t
                    /\ request_project
                         (save_request env_ok user_ann
                            (entry_of_card entry_fri
                               (TimeEntryCard_change (initialFormData entry_fri)
                                                     (PickProject "p1"))))
                       = Some (task_project_id tk)).
Proof.
  apply (edit_form_keeps_task_within_project
           env_ok user_ann sample_projects sample_tasks entry_fri
           (TimeEntryCard_change (initialFormData entry_fri) (PickProject "p1"))).
  - right. exists (mkTask "t1" "Design" "p1"). cbn. auto.
  - apply card_edits_step.
    + apply card_edits_done.
    + cbn. right. left. reflexivity.
Defined.

(** ** A fresh draft *)

Lemma truthy_nonblank (s : string) : s <> "" -> truthy s = true.
Proof.
  intros H. unfold truthy. now destruct (String.eqb_spec s "").
Qed.

(** X5.  The draft [startNewEntry] opens for a clicked day cannot be
    saved as it stands (its save button is disabled); once a project is
    chosen, saving it first sends an insert for the signed-in user, on
    the clicked day, from 09:00 to 10:00, with one hour, no task and an
    empty description. *)
Theorem fresh_draft_saves_one_hour_on_clicked_day
        (env : Env) (w : World) (user : User) (date : Date) (p : string) :
  v_user (w_view w) = Some user ->
  p <> "" ->
  exists entry0 hours rest,
    v_newEntry (w_view (snd (startNewEntry date w))) = Some entry0
    /\ NewEntryForm_save env entry0 (snd (startNewEntry date w))
       = (Ok tt, snd (startNewEntry date w))
    /\ w_log (snd (NewEntryForm_save
                     env (NewEntryForm_change entry0 (PickProject p))
                     (snd (startNewEntry date w))))
       = (w_log w
          ++ EvRequest
               (ReqInsertTimeEntry
                  {| ins_user_id := user_id user;
                     ins_project_id := Some p;
                     ins_task_id := None;
                     ins_date := Some (format_yyyy_MM_dd date);
                     ins_start_time := Some "09:00";
                     ins_end_time := Some "10:00";
                     ins_hours := hours;
                     ins_description := "" |})
             :: rest)%list
    /\ num_eq hours (Num 1).
Proof.
  intros Hu Hp.
  assert (Hc : calculateHours env "09:00" "10:00" = Num 1).
  { change "09:00" with (hhmm 9 0). change "10:00" with (hhmm 10 0).
    rewrite (calculateHours_hhmm env 9 0 10 0) by lia.
    vm_compute. reflexivity. }
  eexists. exists (Num 1).
  set (w1 := snd (startNewEntry date w)).
  assert (Hu1 : v_user (w_view w1) = Some user) by exact Hu.
  destruct (saveTimeEntry_trace
              env w1 user
              (entry_of_new
                 (NewEntryForm_change
                    (mkNewEntry (format_yyyy_MM_dd date) "" "" "09:00" "10:00" "")
                    (PickProject p))) Hu1) as (rest & Hlog & _ & _).
  exists rest. split; [reflexivity|]. split; [|split].
  - now apply NewEntryForm_save_blocks_blank_project.
  - unfold NewEntryForm_save.
    cbn [NewEntryForm_change ne_project_id].
    rewrite (truthy_nonblank p Hp). cbn [negb].
    cbn [NewEntryForm_change] in Hlog. rewrite Hlog.
    unfold save_request, entry_of_new.
    cbn [in_id in_start_time in_end_time in_project_id in_task_id in_date
         in_description or_null template insert_body or_empty truthy
         String.eqb negb ne_date ne_project_id ne_task_id ne_start_time
         ne_end_time ne_description].
    rewrite Hc. reflexivity.
  - cbn [num_eq]. reflexivity.
Qed.

Lemma fresh_draft_saves_one_hour_on_clicked_day_witness :
  exists entry0 hours rest,
    v_newEntry (w_view (snd (startNewEntry (makeDate 19782 0) world0)))
    = Some entry0
    /\ NewEntryForm_save env_ok entry0 (snd (startNewEntry (makeDate 19782 0) world0))
       = (Ok tt, snd (startNewEntry (makeDate 19782 0) world0))
    /\ w_log (snd (NewEntryForm_save
                     env_ok (NewEntryForm_change entry0 (PickProject "p1"))
                     (snd (startNewEntry (makeDate 19782 0) world0))))
       = (w_log world0
          ++ EvRequest
               (ReqInsertTimeEntry
                  {| ins_user_id := user_id user_ann;
                     ins_project_id := Some "p1";
                     ins_task_id := None;
                     ins_date := Some (format_yyyy_MM_dd (makeDate 19782 0));
                     ins_start_time := Some "09:00";
                     ins_end_time := Some "10:00";
                     ins_hours := hours;
                     ins_description := "" |})
             :: rest)%list
    /\ num_eq hours (Num 1).
Proof.
  apply (fresh_draft_saves_one_hour_on_clicked_day
           env_ok world0 user_ann (makeDate 19782 0) "p1").
  - reflexivity.
  - discriminate.
Defined.

(** ** Loading the week: partial failures *)

Lemma throw_if_error_accepted (r : Response) (w : World) :
  r <> RespError -> throw_if_error r w = (Ok tt, w).
Proof. intros H. destruct r; [contradiction| reflexivity ..]. Qed.

Lemma select_projects_reads (env : Env) (db : Database) :
  snd (backend env ReqSelectProjects db) = db.
Proof. unfold backend. now destruct (backend_fails env _). Qed.

Lemma select_tasks_reads (env : Env) (db : Database) :
  snd (backend env ReqSelectTasks db) = db.
Proof. unfold backend. now destruct (backend_fails env _). Qed.

Lemma select_entries_reads (env : Env) (u a b : string) (db : Database) :
  snd (backend env (ReqSelectTimeEntries u a b) db) = db.
Proof. unfold backend. now destruct (backend_fails env _). Qed.

Lemma throw_if_error_refused (r : Response) (w : World) :
  r = RespError -> throw_if_error r w = (Thrown, w).
Proof. intros ->. reflexivity. Qed.

(** Runs [fetchData] in a goal, one request at a time. *)
Ltac run_fetch :=
  unfold try_finally, try_catch, bind, ret, setLoading, setProjects,
    setTasks, setTimeEntries, modify_view, console_error, toast_error, emit;
  repeat
    (first
       [ rewrite request_run
       | rewrite throw_if_error_accepted by assumption
       | rewrite throw_if_error_refused by assumption ];
     cbn [fst snd w_db w_view w_log v_user v_authLoading v_currentWeek
          v_timeEntries v_projects v_tasks v_loading v_editingEntry
          v_newEntry];
     rewrite ?select_projects_reads, ?select_tasks_reads,
       ?select_entries_reads);
  cbn [fst snd w_db w_view w_log v_user v_authLoading v_currentWeek
       v_timeEntries v_projects v_tasks v_loading v_editingEntry v_newEntry];
  rewrite <- ?app_assoc; cbn [app].

(** X6.  [fetchData] for a signed-in user always ends with [loading]
    false and never changes a table.  It asks for projects, tasks and the
    week's entries in this order and stops at the first refusal: the
    collections answered before the refusal are replaced, the refused one
    and the later ones keep their old content, and the one error toast is
    "Failed to load data"; when nothing is refused all three are replaced
    and no error is shown. *)
Theorem fetchData_stops_at_first_refusal (env : Env) (w : World) (user : User) :
  v_user (w_view w) = Some user ->
  let v := w_view w in
  let w' := snd (fetchData env w) in
  let reqE := ReqSelectTimeEntries
                (user_id user)
                (format_yyyy_MM_dd (weekStart env (v_currentWeek v)))
                (format_yyyy_MM_dd (weekEnd env (v_currentWeek v))) in
  let rp := fst (backend env ReqSelectProjects (w_db w)) in
  let rt := fst (backend env ReqSelectTasks (w_db w)) in
  let re := fst (backend env reqE (w_db w)) in
  let newP := match rp with RespProjects l => l | _ => [] end in
  let newT := match rt with RespTasks l => l | _ => [] end in
  let newE := match re with RespTimeEntries l => l | _ => [] end in
  let failed := [EvConsoleError "Error fetching data:";
                 EvToastError "Failed to load data"] in
  v_loading (w_view w') = false
  /\ w_db w' = w_db w
  /\ (rp = RespError ->
      w_log w' = (w_log w ++ EvRequest ReqSelectProjects :: failed)%list
      /\ v_projects (w_view w') = v_projects v
      /\ v_tasks (w_view w') = v_tasks v
      /\ v_timeEntries (w_view w') = v_timeEntries v)
  /\ (rp <> RespError -> rt = RespError ->
      w_log w' = (w_log w ++ EvRequest ReqSelectProjects
                        :: EvRequest ReqSelectTasks :: failed)%list
      /\ v_projects (w_view w') = newP
      /\ v_tasks (w_view w') = v_tasks v
      /\ v_timeEntries (w_view w') = v_timeEntries v)
  /\ (rp <> RespError -> rt <> RespError -> re = RespError ->
      w_log w' = (w_log w ++ EvRequest ReqSelectProjects
                        :: EvRequest ReqSelectTasks :: EvRequest reqE
                        :: failed)%list
      /\ v_projects (w_view w') = newP
      /\ v_tasks (w_view w') = newT
      /\ v_timeEntries (w_view w') = v_timeEntries v)
  /\ (rp <> RespError -> rt <> RespError -> re <> RespError ->
      w_log w' = (w_log w ++ [EvRequest ReqSelectProjects;
                              EvRequest ReqSelectTasks; EvRequest reqE])%list
      /\ v_projects (w_view w') = newP
      /\ v_tasks (w_view w') = newT
      /\ v_timeEntries (w_view w') = newE).
Proof.
  intros Hu. cbv zeta.
  set (from := format_yyyy_MM_dd (weekStart env (v_currentWeek (w_view w)))).
  set (to := format_yyyy_MM_dd (weekEnd env (v_currentWeek (w_view w)))).
  assert (Hrun : fetchData env w
                 = try_finally
                     (try_catch
                        (r1 <- request env ReqSelectProjects ;;
                         throw_if_error r1 ;;
                         setProjects (match r1 with RespProjects l => l | _ => [] end) ;;
                         r2 <- request env ReqSelectTasks ;;
                         throw_if_error r2 ;;
                         setTasks (match r2 with RespTasks l => l | _ => [] end) ;;
                         r3 <- request env (ReqSelectTimeEntries (user_id user) from to) ;;
                         throw_if_error r3 ;;
                         setTimeEntries
                           (match r3 with RespTimeEntries l => l | _ => [] end))
                        (console_error "Error fetching data:" ;;
                         toast_error "Failed to load data"))
                     (setLoading false)
                     (snd (setLoading true w))).
  { unfold fetchData, bind at 1, get_view. rewrite Hu. reflexivity. }
  split; [|split; [apply fetchData_keeps_db|]].
  - rewrite Hrun. unfold try_finally.
    match goal with |- context [try_catch ?b ?h ?x] => destruct (try_catch b h x) as [r0 w0] end.
    reflexivity.
  - rewrite Hrun. clear Hrun.
    split; [|split; [|split]].
    + intros Hp. run_fetch. repeat split.
    + intros Hp Ht. run_fetch. repeat split.
    + intros Hp Ht He. run_fetch. repeat split.
    + intros Hp Ht He. run_fetch. repeat split.
Qed.

(** ** Sign-in of a listed email *)

Lemma select_listed (env : Env) (email : string) (db : Database)
      (a : AuthorizedEmail) :
  filter (fun x => String.eqb (ae_email x) email) (tbl_authorized_emails db) = [a] ->
  backend_fails env (ReqSelectAuthorizedEmail email) = false ->
  backend env (ReqSelectAuthorizedEmail email) db = (RespAuthorized a, db).
Proof. intros Hf Hacc. unfold backend. now rewrite Hacc, Hf. Qed.

(** X7.  For an email with exactly one allow-list row whose lookup is
    answered, [signIn] asks for the login link and then upserts the
    profile, with the role of the allow-list row and, as name, the given
    name or, when that is missing or empty, the part of the email before
    the first at-sign.  It returns true only when both requests were
    accepted.  When the link request is refused no profile is written;
    when the upsert is refused the link request has already gone out and
    the user is shown "Failed to sign in".  In every case [loading] ends
    false. *)
Theorem signIn_listed_email_outcomes
        (env : Env) (w : World) (email : string) (name : option string)
        (a : AuthorizedEmail) :
  filter (fun x => String.eqb (ae_email x) email)
         (tbl_authorized_emails (w_db w)) = [a] ->
  backend_fails env (ReqSelectAuthorizedEmail email) = false ->
  let display := match or_null name with
                 | Some n => n
                 | None => before_at email
                 end in
  let lookup := EvRequest (ReqSelectAuthorizedEmail email) in
  let link := ReqSignInWithOtp email in
  let upsert := ReqUpsertUser email display (ae_role a) in
  let failed := [EvConsoleError "Error signing in:";
                 EvToastError "Failed to sign in"] in
  let r := fst (signIn env email name w) in
  let w' := snd (signIn env email name w) in
  v_authLoading (w_view w') = false
  /\ (backend_fails env link = true ->
      r = Ok false
      /\ w_log w' = (w_log w ++ lookup :: EvRequest link :: failed)%list
      /\ w_db w' = w_db w)
  /\ (backend_fails env link = false -> backend_fails env upsert = true ->
      r = Ok false
      /\ w_log w' = (w_log w ++ lookup :: EvRequest link :: EvRequest upsert
                           :: failed)%list
      /\ w_db w' = w_db w)
  /\ (backend_fails env link = false -> backend_fails env upsert = false ->
      r = Ok true
      /\ w_log w' = (w_log w
                     ++ [ lookup; EvRequest link; EvRequest upsert;
                          EvToastSuccess "Check your email for the login link!" ])%list
      /\ tbl_users (w_db w')
         = upsert_user email display (ae_role a) (backend_new_id env)
                       (tbl_users (w_db w))
      /\ tbl_time_entries (w_db w') = tbl_time_entries (w_db w)
      /\ tbl_authorized_emails (w_db w') = tbl_authorized_emails (w_db w)).
Proof.
  intros Hrow Hacc. cbv zeta.
  set (display := match or_null name with
                  | Some n => n
                  | None => before_at email
                  end).
  assert (Hrun : forall b1 b2,
             backend_fails env (ReqSignInWithOtp email) = b1 ->
             backend_fails env (ReqUpsertUser email display (ae_role a)) = b2 ->
             signIn env email name w
             = if b1
               then (Ok false,
                     mkWorld (w_db w)
                             (w_view (snd (setAuthLoading false w)))
                             (w_log w
                              ++ [ EvRequest (ReqSelectAuthorizedEmail email);
                                   EvRequest (ReqSignInWithOtp email);
                                   EvConsoleError "Error signing in:";
                                   EvToastError "Failed to sign in" ]))
               else if b2
               then (Ok false,
                     mkWorld (w_db w)
                             (w_view (snd (setAuthLoading false w)))
                             (w_log w
                              ++ [ EvRequest (ReqSelectAuthorizedEmail email);
                                   EvRequest (ReqSignInWithOtp email);
                                   EvRequest (ReqUpsertUser email display (ae_role a));
                                   EvConsoleError "Error signing in:";
                                   EvToastError "Failed to sign in" ]))
               else (Ok true,
                     mkWorld (set_users (w_db w)
                                (upsert_user email display (ae_role a)
                                             (backend_new_id env)
                                             (tbl_users (w_db w))))
                             (w_view (snd (setAuthLoading false w)))
                             (w_log w
                              ++ [ EvRequest (ReqSelectAuthorizedEmail email);
                                   EvRequest (ReqSignInWithOtp email);
                                   EvRequest (ReqUpsertUser email display (ae_role a));
                                   EvToastSuccess "Check your email for the login link!" ]))).
  { intros b1 b2 H1 H2.
    unfold signIn, try_finally, try_catch, bind, setAuthLoading, modify_view.
    cbn [fst snd w_db w_view w_log].
    rewrite request_run. cbn [fst snd w_db w_view w_log].
    rewrite (select_listed env email (w_db w) a Hrow Hacc).
    cbn [fst snd w_db w_view w_log].
    rewrite request_run. unfold backend at 1 2. rewrite H1.
    destruct b1.
    - cbn. rewrite <- !app_assoc. reflexivity.
    - cbn [fst snd w_db w_view w_log throw_if_error ret].
      fold display. rewrite request_run. unfold backend at 1 2. rewrite H2.
      destruct b2; cbn; rewrite <- !app_assoc; reflexivity. }
  split; [|split; [|split]].
  - rewrite (Hrun _ _ eq_refl eq_refl).
    destruct (backend_fails env (ReqSignInWithOtp email)),
      (backend_fails env (ReqUpsertUser email display (ae_role a)));
      reflexivity.
  - intros H1. rewrite (Hrun true _ H1 eq_refl). repeat split.
  - intros H1 H2. rewrite (Hrun false true H1 H2). repeat split.
  - intros H1 H2. rewrite (Hrun false false H1 H2). repeat split.
Qed.

Lemma signIn_listed_email_outcomes_witness :
  fst (signIn env_ok "ann@example.com" (Some "") world0) = Ok true
  /\ w_log (snd (signIn env_ok "ann@example.com" (Some "") world0))
     = (w_log world0
        ++ [ EvRequest (ReqSelectAuthorizedEmail "ann@example.com");
             EvRequest (ReqSignInWithOtp "ann@example.com");
             EvRequest (ReqUpsertUser "ann@example.com" "ann" RoleUser);
             EvToastSuccess "Check your email for the login link!" ])%list.
Proof.
  destruct (signIn_listed_email_outcomes
              env_ok world0 "ann@example.com" (Some "")
              (mkAuthorizedEmail "a1" "ann@example.com" RoleUser "boss")
              eq_refl eq_refl)
    as (_ & _ & _ & Hok).
  destruct (Hok eq_refl eq_refl) as (Hr & Hlog & _).
  split; [exact Hr | exact Hlog].
Defined.

(** X8.  The default display name: for an email made of a local part
    without at-sign, an at-sign and a domain, [email.split('@')[0]] is
    the local part; and for any string the result contains no at-sign. *)
Theorem default_name_is_local_part (local domain : string) :
  (forall c, In c (list_ascii_of_string local) -> c <> "@"%char) ->
  before_at (local ++ "@" ++ domain) = local
  /\ (forall s c, In c (list_ascii_of_string (before_at s)) -> c <> "@"%char).
Proof.
  intros Hno. split.
  - induction local as [|c r IH]; [reflexivity|].
    cbn [append before_at].
    destruct (Ascii.eqb_spec c "@"%char) as [Heq|_].
    + exfalso. apply (Hno c); [now left | exact Heq].
    + f_equal. apply IH. intros x Hx. apply Hno. now right.
  - intros s. induction s as [|c r IH]; intros x; cbn [before_at].
    + intros [].
    + destruct (Ascii.eqb_spec c "@"%char) as [Heq|Hne]; [intros []|].
      cbn. intros [<-|Hx]; [exact Hne | now apply IH].
Qed.

Lemma default_name_is_local_part_witness :
  before_at ("ann" ++ "@" ++ "example.com") = "ann"
  /\ (forall s c, In c (list_ascii_of_string (before_at s)) -> c <> "@"%char).
Proof.
  apply (default_name_is_local_part "ann" "example.com").
  intros c Hc. cbn in Hc. intuition (subst; discriminate).
Defined.

(** ** Writes followed by the refresh *)

Lemma in_insert_by {A : Type} (le : A -> A -> bool) (x y : A) (l : list A) :
  In x (insert_by le y l) <-> x = y \/ In x l.
Proof.
  induction l as [|z r IH]; cbn.
  - intuition.
  - destruct (le y z); cbn; [intuition|]. rewrite IH. intuition.
Qed.

Lemma in_order_by {A : Type} (le : A -> A -> bool) (x : A) (l : list A) :
  In x (order_by le l) <-> In x l.
Proof.
  unfold order_by. induction l as [|z r IH]; cbn; [reflexivity|].
  rewrite in_insert_by, IH. intuition.
Qed.

Lemma forms_closed_keeps (v : ViewState) :
  v_user (forms_closed v) = v_user v
  /\ v_currentWeek (forms_closed v) = v_currentWeek v.
Proof. split; reflexivity. Qed.

(** What the week's select answers when nothing is refused. *)
Lemma week_select_accepting (env : Env) (db : Database) (u a b : string) :
  (forall r, backend_fails env r = false) ->
  fst (backend env (ReqSelectTimeEntries u a b) db)
  = RespTimeEntries
      (order_by entry_order
         (filter (fun e => String.eqb (te_user_id e) u
                           && String.leb a (te_date e)
                           && String.leb (te_date e) b)
                 (tbl_time_entries db))).
Proof. intros Hacc. unfold backend. now rewrite Hacc. Qed.

(** X9.  With a backend that accepts every request: saving a new entry
    whose date lies in the displayed week closes the forms and, after the
    refresh, the list holds the created row, owned by the signed-in user,
    with the draft's date and project, the task or null, and the computed
    hours; so the row shows in the column of every day formatted as that
    date. *)
Theorem created_entry_appears_after_refresh
        (env : Env) (w : World) (user : User) (entry : NewEntry) :
  v_user (w_view w) = Some user ->
  (forall r, backend_fails env r = false) ->
  ne_project_id entry <> "" ->
  String.leb (format_yyyy_MM_dd (weekStart env (v_currentWeek (w_view w))))
             (ne_date entry) = true ->
  String.leb (ne_date entry)
             (format_yyyy_MM_dd (weekEnd env (v_currentWeek (w_view w)))) = true ->
  exists row,
    In row (v_timeEntries (w_view (snd (NewEntryForm_save env entry w))))
    /\ te_id row = backend_new_id env
    /\ te_user_id row = user_id user
    /\ te_date row = ne_date entry
    /\ te_project_id row = ne_project_id entry
    /\ te_task_id row = or_null (Some (ne_task_id entry))
    /\ te_hours row = calculateHours env (ne_start_time entry) (ne_end_time entry)
    /\ v_newEntry (w_view (snd (NewEntryForm_save env entry w))) = None
    /\ v_editingEntry (w_view (snd (NewEntryForm_save env entry w))) = None
    /\ (forall day, format_yyyy_MM_dd day = ne_date entry ->
                    In row (getEntriesForDay
                              (v_timeEntries
                                 (w_view (snd (NewEntryForm_save env entry w))))
                              day)).
Proof.
  intros Hu Hacc Hp Hfrom Hto.
  set (from := format_yyyy_MM_dd (weekStart env (v_currentWeek (w_view w)))) in *.
  set (to := format_yyyy_MM_dd (weekEnd env (v_currentWeek (w_view w)))) in *.
  set (hours := calculateHours env (ne_start_time entry) (ne_end_time entry)).
  set (row := mkTimeEntry (backend_new_id env) (user_id user)
                          (ne_project_id entry)
                          (or_null (Some (ne_task_id entry)))
                          (ne_date entry) (ne_start_time entry)
                          (ne_end_time entry) hours (ne_description entry)
                          (nowISO env)).
  assert (Hreq : save_request env user (entry_of_new entry)
                 = ReqInsertTimeEntry
                     (insert_body user (entry_of_new entry) hours))
    by reflexivity.
  assert (Hback : backend env (save_request env user (entry_of_new entry)) (w_db w)
                  = (RespDone,
                     set_time_entries (w_db w)
                                      (tbl_time_entries (w_db w) ++ [row]))).
  { rewrite Hreq. unfold backend. rewrite Hacc. reflexivity. }
  assert (Hsave : NewEntryForm_save env entry w
                  = fetchData env
                      (mkWorld (set_time_entries (w_db w)
                                  (tbl_time_entries (w_db w) ++ [row]))
                               (forms_closed (w_view w))
                               (w_log w
                                ++ [ EvRequest (save_request env user (entry_of_new entry));
                                     EvToastSuccess
                                       (save_success_toast (entry_of_new entry)) ]))).
  { unfold NewEntryForm_save. rewrite (truthy_nonblank _ Hp). cbn [negb].
    rewrite (saveTimeEntry_accepted env w user (entry_of_new entry) Hu)
      by (rewrite Hback; discriminate).
    now rewrite Hback. }
  rewrite Hsave.
  match goal with
  | |- context [fetchData env ?w1] =>
      rewrite (fetchData_accepting env w1 user Hacc Hu)
  end.
  cbn [snd w_view w_db v_timeEntries v_newEntry v_editingEntry forms_closed
       v_currentWeek].
  fold from to.
  rewrite (week_select_accepting env _ _ _ _ Hacc).
  assert (Hin : In row
                   (order_by entry_order
                      (filter (fun e => String.eqb (te_user_id e) (user_id user)
                                        && String.leb from (te_date e)
                                        && String.leb (te_date e) to)
                              (tbl_time_entries
                                 (set_time_entries
                                    (w_db w)
                                    (tbl_time_entries (w_db w) ++ [row])))))).
  { apply in_order_by, filter_In. split.
    - cbn [tbl_time_entries set_time_entries]. apply in_or_app. right. now left.
    - subst row. cbn [te_user_id te_date].
      now rewrite String.eqb_refl, Hfrom, Hto. }
  exists row. split; [exact Hin|].
  repeat (split; [reflexivity|]).
  intros day Hday. unfold getEntriesForDay. apply filter_In.
  split; [exact Hin|]. rewrite Hday. apply String.eqb_refl.
Qed.

Lemma created_entry_appears_after_refresh_witness :
  exists row,
    In row (v_timeEntries (w_view (snd (NewEntryForm_save env_ok draft_with_project world0))))
    /\ te_id row = backend_new_id env_ok
    /\ te_user_id row = user_id user_ann
    /\ te_date row = ne_date draft_with_project
    /\ te_project_id row = ne_project_id draft_with_project
    /\ te_task_id row = or_null (Some (ne_task_id draft_with_project))
    /\ te_hours row = calculateHours env_ok (ne_start_time draft_with_project)
                                     (ne_end_time draft_with_project)
    /\ v_newEntry (w_view (snd (NewEntryForm_save env_ok draft_with_project world0)))
       = None
    /\ v_editingEntry (w_view (snd (NewEntryForm_save env_ok draft_with_project world0)))
       = None
    /\ (forall day, format_yyyy_MM_dd day = ne_date draft_with_project ->
                    In row (getEntriesForDay
                              (v_timeEntries
                                 (w_view (snd (NewEntryForm_save
                                                 env_ok draft_with_project world0))))
                              day)).
Proof.
  apply (created_entry_appears_after_refresh env_ok world0 user_ann draft_with_project).
  - reflexivity.
  - reflexivity.
  - discriminate.
  - vm_compute. reflexivity.
  - vm_compute. reflexivity.
Defined.

(** X10.  With a backend that accepts every request and a signed-in
    user: after [deleteTimeEntry] no stored row and no listed entry has
    the deleted id, every other stored row is still stored, and every
    other row of the user dated inside the displayed week is still
    listed. *)
Theorem deleted_entry_disappears_after_refresh
        (env : Env) (w : World) (user : User) (id : string) :
  v_user (w_view w) = Some user ->
  (forall r, backend_fails env r = false) ->
  let w' := snd (deleteTimeEntry env id w) in
  let from := format_yyyy_MM_dd (weekStart env (v_currentWeek (w_view w))) in
  let to := format_yyyy_MM_dd (weekEnd env (v_currentWeek (w_view w))) in
  (forall e, In e (v_timeEntries (w_view w')) -> te_id e <> id)
  /\ (forall e, In e (tbl_time_entries (w_db w'))
                <-> In e (tbl_time_entries (w_db w)) /\ te_id e <> id)
  /\ (forall e, In e (tbl_time_entries (w_db w)) ->
                te_id e <> id ->
                te_user_id e = user_id user ->
                String.leb from (te_date e) = true ->
                String.leb (te_date e) to = true ->
                In e (v_timeEntries (w_view w'))).
Proof.
  intros Hu Hacc. cbv zeta.
  set (from := format_yyyy_MM_dd (weekStart env (v_currentWeek (w_view w)))).
  set (to := format_yyyy_MM_dd (weekEnd env (v_currentWeek (w_view w)))).
  assert (Hback : backend env (ReqDeleteTimeEntry id) (w_db w)
                  = (RespDone,
                     set_time_entries
                       (w_db w)
                       (filter (fun e => negb (String.eqb (te_id e) id))
                               (tbl_time_entries (w_db w))))).
  { unfold backend. now rewrite Hacc. }
  rewrite (deleteTimeEntry_accepted env w id) by (rewrite Hback; discriminate).
  rewrite Hback. cbn [snd].
  match goal with
  | |- context [fetchData env ?w1] =>
      rewrite (fetchData_accepting env w1 user Hacc Hu)
  end.
  cbn [snd w_view w_db v_timeEntries v_currentWeek]. fold from to.
  rewrite (week_select_accepting env _ _ _ _ Hacc).
  cbn [tbl_time_entries set_time_entries].
  assert (Hkeep : forall e,
             In e (filter (fun e => negb (String.eqb (te_id e) id))
                          (tbl_time_entries (w_db w)))
             <-> In e (tbl_time_entries (w_db w)) /\ te_id e <> id).
  { intros e. rewrite filter_In.
    destruct (String.eqb_spec (te_id e) id); cbn; intuition congruence. }
  split; [|split].
  - intros e He. apply in_order_by, filter_In in He.
    destruct He as [He _]. now apply Hkeep in He.
  - exact Hkeep.
  - intros e He Hid Hown Hfrom Hto. apply in_order_by, filter_In. split.
    + now apply Hkeep.
    + now rewrite Hown, String.eqb_refl, Hfrom, Hto.
Qed.

Lemma deleted_entry_disappears_after_refresh_witness :
  (forall e, In e (v_timeEntries (w_view (snd (deleteTimeEntry env_ok "e1" world0)))) ->
             te_id e <> "e1")
  /\ In entry_fri (v_timeEntries (w_view (snd (deleteTimeEntry env_ok "e1" world0)))).
Proof.
  destruct (deleted_entry_disappears_after_refresh
              env_ok world0 user_ann "e1" eq_refl (fun _ => eq_refl))
    as (Hgone & _ & Hrest).
  split; [exact Hgone|].
  apply (Hrest entry_fri).
  - right. left. reflexivity.
  - discriminate.
  - reflexivity.
  - vm_compute. reflexivity.
  - vm_compute. reflexivity.
Defined.

(** X11.  Without a signed-in user [saveTimeEntry] does nothing at all,
    whereas [deleteTimeEntry] does not look at the user: it sends the
    delete, and, when accepted, shows the success toast while the list on
    screen is not refreshed, because [fetchData] returns at once. *)
Theorem writes_without_a_user (env : Env) (w : World) :
  v_user (w_view w) = None ->
  (forall entry, saveTimeEntry env entry w = (Ok tt, w))
  /\ (forall id,
         backend_fails env (ReqDeleteTimeEntry id) = false ->
         deleteTimeEntry env id w
         = (Ok tt,
            mkWorld (set_time_entries
                       (w_db w)
                       (filter (fun e => negb (String.eqb (te_id e) id))
                               (tbl_time_entries (w_db w))))
                    (w_view w)
                    (w_log w ++ [ EvRequest (ReqDeleteTimeEntry id);
                                  EvToastSuccess "Time entry deleted" ]))).
Proof.
  intros Hu. split.
  - intros entry. unfold saveTimeEntry, bind, get_view. now rewrite Hu.
  - intros id Hacc.
    assert (Hback : backend env (ReqDeleteTimeEntry id) (w_db w)
                    = (RespDone,
                       set_time_entries
                         (w_db w)
                         (filter (fun e => negb (String.eqb (te_id e) id))
                                 (tbl_time_entries (w_db w))))).
    { unfold backend. now rewrite Hacc. }
    rewrite (deleteTimeEntry_accepted env w id) by (rewrite Hback; discriminate).
    rewrite Hback. unfold fetchData, bind, get_view.
    cbn [w_view snd]. now rewrite Hu.
Qed.

Lemma writes_without_a_user_witness :
  saveTimeEntry env_ok (entry_of_new draft_with_project)
                (mkWorld db0 (mkViewState None false (makeDate 19782 0)
                                          [entry_thu] [] [] false None None) [])
  = (Ok tt,
     mkWorld db0 (mkViewState None false (makeDate 19782 0)
                              [entry_thu] [] [] false None None) []).
Proof.
  apply (writes_without_a_user
           env_ok
           (mkWorld db0 (mkViewState None false (makeDate 19782 0)
                                     [entry_thu] [] [] false None None) [])).
  reflexivity.
Defined.

(** ** The sign-in form *)

Lemma trimStart_cases (s : string) :
  (all_white_space s = true /\ trimStart s = "")
  \/ (all_white_space s = false
      /\ exists c r, trimStart s = String c r /\ is_white_space c = false).
Proof.
  induction s as [|c r IH]; cbn [all_white_space trimStart].
  - now left.
  - destruct (is_white_space c) eqn:Hc; cbn [andb].
    + exact IH.
    + right. split; [reflexivity|]. now exists c, r.
Qed.

Lemma trimEnd_keeps_head (c : ascii) (r : string) :
  is_white_space c = false -> trimEnd (String c r) <> "".
Proof.
  intros Hc. cbn [trimEnd]. destruct (trimEnd r); [now rewrite Hc | discriminate].
Qed.

Lemma trim_blank (s : string) : all_white_space s = true <-> trim s = "".
Proof.
  unfold trim. destruct (trimStart_cases s) as [[Hw Ht]|[Hw (c & r & Ht & Hc)]].
  - rewrite Ht. split; [reflexivity | now intros _].
  - rewrite Ht, Hw. split; [discriminate|].
    intros H. now apply trimEnd_keeps_head in H.
Qed.

Lemma truthy_trim (s : string) : truthy (trim s) = negb (all_white_space s).
Proof.
  unfold truthy. destruct (all_white_space s) eqn:Hw.
  - apply trim_blank in Hw. now rewrite Hw.
  - destruct (String.eqb_spec (trim s) ""); [|reflexivity].
    apply trim_blank in e. congruence.
Qed.

Lemma signIn_returns (env : Env) (email : string) (name : option string)
      (w : World) :
  exists b, fst (signIn env email name w) = Ok b.
Proof.
  unfold signIn, try_finally.
  match goal with
  | |- context [try_catch ?b ?h w] =>
      assert (Hc : exists x, fst (try_catch b h w) = Ok x);
      [ unfold try_catch; destruct (b w) as [[x|] w1];
        [ now exists x | now exists false ]
      | destruct Hc as (x & Hx);
        destruct (try_catch b h w) as [r w2]; cbn in Hx; subst r;
        now exists x ]
  end.
Qed.

Lemma signIn_starts_with_lookup (env : Env) (email : string)
      (name : option string) (w : World) :
  exists rest,
    w_log (snd (signIn env email name w))
    = (w_log w ++ EvRequest (ReqSelectAuthorizedEmail email) :: rest)%list.
Proof.
  unfold signIn, try_finally, try_catch, bind, setAuthLoading, modify_view.
  cbn [fst snd w_db w_view w_log]. rewrite request_run.
  cbn [fst snd w_db w_view w_log].
  destruct (fst (backend env (ReqSelectAuthorizedEmail email) (w_db w)));
    try (cbn; rewrite <- !app_assoc; eexists; reflexivity).
  rewrite request_run. cbn [fst snd w_db w_view w_log].
  destruct (fst (backend env (ReqSignInWithOtp email) _));
    try (cbn; rewrite <- !app_assoc; eexists; reflexivity);
    cbn [throw_if_error ret fst snd w_db w_view w_log];
    rewrite request_run; cbn [fst snd w_db w_view w_log];
    match goal with
    | |- context [throw_if_error ?r] => destruct r
    end;
    cbn; rewrite <- !app_assoc; eexists; reflexivity.
Qed.

(** X12.  Submitting the sign-in form: an email made only of white space
    sends nothing and changes nothing; otherwise the form runs [signIn]
    on the trimmed email, whose first request is the allow-list lookup
    for that trimmed email, and ends with [isLoading] false; a name made
    only of white space counts as no name. *)
Theorem auth_form_submits_trimmed_email
        (env : Env) (st : AuthFormState) (w : World) :
  (all_white_space (af_email st) = true ->
   AuthForm_handleSubmit env st w = (st, w))
  /\ (all_white_space (af_email st) = false ->
      af_isLoading (fst (AuthForm_handleSubmit env st w)) = false
      /\ snd (AuthForm_handleSubmit env st w)
         = snd (signIn env (trim (af_email st)) (Some (trim (af_name st))) w)
      /\ exists rest,
           w_log (snd (AuthForm_handleSubmit env st w))
           = (w_log w
              ++ EvRequest (ReqSelectAuthorizedEmail (trim (af_email st)))
                 :: rest)%list)
  /\ (all_white_space (af_name st) = true ->
      snd (AuthForm_handleSubmit env st w)
      = snd (AuthForm_handleSubmit
               env (mkAuthFormState (af_email st) "" (af_isLoading st)) w)
      /\ signIn env (trim (af_email st)) (Some (trim (af_name st))) w
         = signIn env (trim (af_email st)) None w).
Proof.
  split; [|split].
  - intros Hw. unfold AuthForm_handleSubmit. now rewrite truthy_trim, Hw.
  - intros Hw. unfold AuthForm_handleSubmit. rewrite truthy_trim, Hw.
    cbn [negb].
    destruct (signIn_returns env (trim (af_email st))
                             (Some (trim (af_name st))) w) as (b & Hb).
    destruct (signIn_starts_with_lookup env (trim (af_email st))
                                        (Some (trim (af_name st))) w)
      as (rest & Hlog).
    destruct (signIn env (trim (af_email st)) (Some (trim (af_name st))) w)
      as [[x|] w1]; [|discriminate].
    cbn [fst snd af_isLoading] in *. repeat split. now exists rest.
  - intros Hn. apply trim_blank in Hn.
    unfold AuthForm_handleSubmit. cbn [af_email af_name]. rewrite Hn.
    split; [|reflexivity].
    destruct (negb (truthy (trim (af_email st)))); [reflexivity|].
    change (trim "") with "".
    now destruct (signIn env (trim (af_email st)) (Some "") w) as [[x|] w1].
Qed.

Lemma auth_form_submits_trimmed_email_witness :
  AuthForm_handleSubmit env_ok (mkAuthFormState "   " "Ann" false) world0
  = (mkAuthFormState "   " "Ann" false, world0).
Proof.
  apply (auth_form_submits_trimmed_email
           env_ok (mkAuthFormState "   " "Ann" false) world0).
  reflexivity.
Defined.

Example auth_form_trims_before_lookup :
  requests_of
    (w_log (snd (AuthForm_handleSubmit
                   env_ok (mkAuthFormState " ann@example.com " "  " false)
                   world0)))
  = [ ReqSelectAuthorizedEmail "ann@example.com";
      ReqSignInWithOtp "ann@example.com";
      ReqUpsertUser "ann@example.com" "ann" RoleUser ].
Proof. vm_compute. reflexivity. Qed.

(** ** The projects page *)

Ltac run_page :=
  unfold PV.fetchProjects, PV.fetchTasks, PV.saveProject, PV.saveTask,
    PV.deleteProject, PV.deleteTask, PV.mount, PV.fetchProjects_from,
    PV.fetchTasks_from, PV.send, PV.answer, PV.ask, PV.ask_confirm,
    PV.setProjects, PV.setTasks, PV.setLoading, PV.setEditingProject,
    PV.setShowNewProject, PV.setShowNewTask, etry_finally, etry_catch,
    ebind, eret, ethrow, elog, emodify;
  cbn [fst snd sc_state sc_log PV.throw_if_refused].

Lemma fetchProjects_run (env : PV.PageEnv) (s : Scene PV.PageRequest PV.PageState) :
  PV.fetchProjects env s
  = (Ok tt,
     mkScene (after_fetchProjects env (sc_state s))
             (sc_log s ++ fetchProjects_events env)).
Proof.
  unfold after_fetchProjects, fetchProjects_events. run_page.
  destruct (PV.respond env PV.SelectProjects);
    cbn; rewrite <- ?app_assoc; reflexivity.
Qed.

Lemma fetchTasks_run (env : PV.PageEnv) (s : Scene PV.PageRequest PV.PageState) :
  PV.fetchTasks env s
  = (Ok tt,
     mkScene (after_fetchTasks env (sc_state s))
             (sc_log s ++ fetchTasks_events env)).
Proof.
  unfold after_fetchTasks, fetchTasks_events. run_page.
  destruct (PV.respond env PV.SelectTasks);
    cbn; rewrite <- ?app_assoc; reflexivity.
Qed.

Lemma fetchProjects_events_no_write (env : PV.PageEnv) :
  Forall page_no_write (fetchProjects_events env).
Proof.
  unfold fetchProjects_events.
  destruct (PV.respond env PV.SelectProjects); repeat constructor.
Qed.

Lemma fetchTasks_events_no_write (env : PV.PageEnv) :
  Forall page_no_write (fetchTasks_events env).
Proof.
  unfold fetchTasks_events.
  destruct (PV.respond env PV.SelectTasks); repeat constructor.
Qed.

Lemma saveProject_run (env : PV.PageEnv) (projectData : PV.ProjectData)
      (s : Scene PV.PageRequest PV.PageState) :
  PV.saveProject env projectData s
  = match PV.respond env (save_project_request env projectData) with
    | PV.PageError =>
        (Ok tt,
         mkScene (sc_state s)
                 (sc_log s ++ [ EvReq (save_project_request env projectData);
                                EvConsole "Error saving project:";
                                EvError "Failed to save project" ]))
    | _ =>
        (Ok tt,
         mkScene (after_fetchProjects env (project_forms_closed (sc_state s)))
                 (sc_log s
                  ++ EvReq (save_project_request env projectData)
                     :: EvSuccess (save_project_toast projectData)
                     :: fetchProjects_events env))
    end.
Proof.
  unfold PV.saveProject, save_project_request, save_project_toast.
  destruct (or_null (PV.pd_id projectData)) as [id|];
    unfold etry_catch, ebind at 1; unfold ebind at 1; unfold ebind at 1;
    unfold PV.ask at 1; cbn [fst snd sc_state sc_log];
    match goal with
    | |- context [PV.respond env ?r] => destruct (PV.respond env r)
    end;
    repeat progress
      (cbn [PV.throw_if_refused fst snd sc_state sc_log];
       unfold PV.setEditingProject, PV.setShowNewProject, ebind, elog,
         emodify, ethrow, eret);
    rewrite ?fetchProjects_run; cbn [fst snd sc_state sc_log];
    rewrite <- ?app_assoc; reflexivity.
Qed.

Lemma saveTask_run (env : PV.PageEnv) (taskData : PV.TaskData)
      (s : Scene PV.PageRequest PV.PageState) :
  PV.saveTask env taskData s
  = match PV.respond env (save_task_request env taskData) with
    | PV.PageError =>
        (Ok tt,
         mkScene (sc_state s)
                 (sc_log s ++ [ EvReq (save_task_request env taskData);
                                EvConsole "Error saving task:";
                                EvError "Failed to save task" ]))
    | _ =>
        (Ok tt,
         mkScene (after_fetchTasks env (task_form_closed (sc_state s)))
                 (sc_log s
                  ++ EvReq (save_task_request env taskData)
                     :: EvSuccess (save_task_toast taskData)
                     :: fetchTasks_events env))
    end.
Proof.
  unfold PV.saveTask, save_task_request, save_task_toast.
  destruct (or_null (PV.td_id taskData)) as [id|];
    unfold etry_catch, ebind at 1; unfold ebind at 1; unfold ebind at 1;
    unfold PV.ask at 1; cbn [fst snd sc_state sc_log];
    match goal with
    | |- context [PV.respond env ?r] => destruct (PV.respond env r)
    end;
    repeat progress
      (cbn [PV.throw_if_refused fst snd sc_state sc_log];
       unfold PV.setShowNewTask, ebind, elog, emodify, ethrow, eret);
    rewrite ?fetchTasks_run; cbn [fst snd sc_state sc_log];
    rewrite <- ?app_assoc; reflexivity.
Qed.

Lemma save_project_log (env : PV.PageEnv) (projectData : PV.ProjectData)
      (s : Scene PV.PageRequest PV.PageState) :
  exists rest,
    sc_log (snd (PV.saveProject env projectData s))
    = (sc_log s ++ EvReq (save_project_request env projectData) :: rest)%list
    /\ Forall page_no_write rest.
Proof.
  rewrite saveProject_run.
  destruct (PV.respond env (save_project_request env projectData));
    cbn [snd sc_log]; eexists; (split; [reflexivity|]);
    try (constructor; [exact I | apply fetchProjects_events_no_write]).
  repeat constructor.
Qed.

Lemma save_task_log (env : PV.PageEnv) (taskData : PV.TaskData)
      (s : Scene PV.PageRequest PV.PageState) :
  exists rest,
    sc_log (snd (PV.saveTask env taskData s))
    = (sc_log s ++ EvReq (save_task_request env taskData) :: rest)%list
    /\ Forall page_no_write rest.
Proof.
  rewrite saveTask_run.
  destruct (PV.respond env (save_task_request env taskData));
    cbn [snd sc_log]; eexists; (split; [reflexivity|]);
    try (constructor; [exact I | apply fetchTasks_events_no_write]).
  repeat constructor.
Qed.

(** X13.  Submitting the project form: when the name or the client is
    made only of white space, the one effect is the toast asking to fill
    in the required fields, and nothing is sent.  Otherwise the first
    effect is the write request, an update by id for an existing project
    and an insert for a new one, carrying the four fields exactly as
    typed (not trimmed), and no other write follows. *)
Theorem project_form_requires_name_and_client
        (env : PV.PageEnv) (project : option PV.ProjectRow)
        (formData : PV.ProjectFormData)
        (s : Scene PV.PageRequest PV.PageState) :
  (all_white_space (PV.pf_name formData)
   || all_white_space (PV.pf_client formData) = true ->
   PV.ProjectForm_handleSubmit env project formData s
   = (Ok tt,
      mkScene (sc_state s)
              (sc_log s ++ [EvError "Please fill in all required fields"])))
  /\ (all_white_space (PV.pf_name formData)
      || all_white_space (PV.pf_client formData) = false ->
      exists rest,
        sc_log (snd (PV.ProjectForm_handleSubmit env project formData s))
        = (sc_log s
           ++ EvReq
                (match or_null (option_map PV.pr_id project) with
                 | Some id =>
                     PV.UpdateProject
                       id
                       (PV.mkProjectUpdate
                          (Some (PV.pf_name formData))
                          (Some (PV.pf_client formData))
                          (Some (PV.pf_description formData))
                          (Some (PV.pf_start_date formData))
                          (Some (PV.page_nowISO env)))
                 | None =>
                     PV.InsertProject
                       (PV.mkProjectInsert
                          (Some (PV.pf_name formData))
                          (Some (PV.pf_client formData))
                          (Some (PV.pf_description formData))
                          (Some (PV.pf_start_date formData)))
                 end)
              :: rest)%list
        /\ Forall page_no_write rest).
Proof.
  unfold PV.ProjectForm_handleSubmit. rewrite !truthy_trim, !negb_involutive.
  split; intros Hw; rewrite Hw.
  - reflexivity.
  - apply save_project_log.
Qed.

Lemma project_form_requires_name_and_client_witness :
  PV.ProjectForm_handleSubmit
    PV.page_env_ok None (PV.mkProjectFormData "Site" "  " "" "2024-03-01")
    PV.page0
  = (Ok tt,
     mkScene (sc_state PV.page0)
             (sc_log PV.page0 ++ [EvError "Please fill in all required fields"])).
Proof.
  apply (project_form_requires_name_and_client
           PV.page_env_ok None
           (PV.mkProjectFormData "Site" "  " "" "2024-03-01") PV.page0).
  reflexivity.
Defined.

Lemma description_or_blank (d : string) :
  match or_null (Some d) with
  | Some x => x
  | None => ""
  end = d.
Proof.
  cbn. unfold truthy. destruct (String.eqb_spec d ""); cbn; congruence.
Qed.

(** X14.  Submitting the task form: a name made only of white space
    yields the toast asking for a task name and nothing is sent.
    Otherwise the first effect is the write request: for a new task an
    insert under the project the form was opened for, with name,
    description and metadata as typed; for an existing task an update by
    id that carries name, description and metadata and no project_id, so
    an update cannot move a task to another project.  No other write
    follows. *)
Theorem task_form_requires_name_and_keeps_project
        (env : PV.PageEnv) (projectId : string) (task : option PV.TaskRow)
        (formData : PV.TaskFormData)
        (s : Scene PV.PageRequest PV.PageState) :
  (all_white_space (PV.tf_name formData) = true ->
   PV.TaskForm_handleSubmit env projectId task formData s
   = (Ok tt,
      mkScene (sc_state s) (sc_log s ++ [EvError "Please enter a task name"])))
  /\ (all_white_space (PV.tf_name formData) = false ->
      exists rest,
        sc_log (snd (PV.TaskForm_handleSubmit env projectId task formData s))
        = (sc_log s
           ++ EvReq
                (match or_null (option_map PV.tk_id task) with
                 | Some id =>
                     PV.UpdateTask
                       id
                       (PV.mkTaskUpdate
                          None
                          (Some (PV.tf_name formData))
                          (Some (PV.tf_description formData))
                          (Some (PV.tf_metadata formData))
                          (Some (PV.page_nowISO env)))
                 | None =>
                     PV.InsertTask
                       (PV.mkTaskInsert
                          (Some projectId)
                          (Some (PV.tf_name formData))
                          (PV.tf_description formData)
                          (PV.tf_metadata formData))
                 end)
              :: rest)%list
        /\ Forall page_no_write rest)
  /\ (forall (body : PV.TaskUpdate) (row : PV.TaskRow),
         PV.tu_project_id body = None ->
         PV.tk_project_id (PV.patch_task body row) = PV.tk_project_id row).
Proof.
  unfold PV.TaskForm_handleSubmit. rewrite truthy_trim, negb_involutive.
  split; [|split].
  - intros Hw. rewrite Hw. reflexivity.
  - intros Hw. rewrite Hw.
    destruct (save_task_log env (PV.task_data_of_form projectId task formData) s)
      as (rest & Hlog & Hrest).
    exists rest. split; [|exact Hrest]. rewrite Hlog.
    unfold save_task_request, PV.task_data_of_form, PV.task_update_body,
      PV.task_insert_body.
    cbn [PV.td_id PV.td_project_id PV.td_name PV.td_description PV.td_metadata].
    now rewrite description_or_blank.
  - intros body row H. unfold PV.patch_task. cbn. now rewrite H.
Qed.

Lemma task_form_requires_name_and_keeps_project_witness :
  exists rest,
    sc_log (snd (PV.TaskForm_handleSubmit
                   PV.page_env_ok "p1" None (PV.mkTaskFormData "Design" "" [])
                   PV.page0))
    = (sc_log PV.page0
       ++ EvReq (PV.InsertTask (PV.mkTaskInsert (Some "p1") (Some "Design") "" []))
          :: rest)%list
    /\ Forall page_no_write rest.
Proof.
  apply (task_form_requires_name_and_keeps_project
           PV.page_env_ok "p1" None (PV.mkTaskFormData "Design" "" []) PV.page0).
  reflexivity.
Defined.

(** X15.  Deleting a project or a task first asks for confirmation.
    When the dialog is declined nothing else happens: no request is
    sent.  When it is confirmed, the next effect is the delete request
    for that id, and no other write follows. *)
Theorem page_deletes_need_confirmation
        (env : PV.PageEnv) (id : string)
        (s : Scene PV.PageRequest PV.PageState) :
  (PV.confirm env project_delete_prompt = false ->
   PV.deleteProject env id s
   = (Ok tt, mkScene (sc_state s) (sc_log s ++ [EvConfirm project_delete_prompt])))
  /\ (PV.confirm env project_delete_prompt = true ->
      exists rest,
        sc_log (snd (PV.deleteProject env id s))
        = (sc_log s ++ EvConfirm project_delete_prompt
                 :: EvReq (PV.DeleteProject id) :: rest)%list
        /\ Forall page_no_write rest)
  /\ (PV.confirm env task_delete_prompt = false ->
      PV.deleteTask env id s
      = (Ok tt, mkScene (sc_state s) (sc_log s ++ [EvConfirm task_delete_prompt])))
  /\ (PV.confirm env task_delete_prompt = true ->
      exists rest,
        sc_log (snd (PV.deleteTask env id s))
        = (sc_log s ++ EvConfirm task_delete_prompt
                 :: EvReq (PV.DeleteTask id) :: rest)%list
        /\ Forall page_no_write rest).
Proof.
  split; [|split; [|split]]; intros Hc.
  - unfold PV.deleteProject, ebind, PV.ask_confirm.
    fold project_delete_prompt. now rewrite Hc.
  - unfold PV.deleteProject, ebind at 1, PV.ask_confirm.
    fold project_delete_prompt. rewrite Hc. cbn [negb].
    unfold etry_catch, ebind, PV.ask. cbn [fst snd sc_state sc_log].
    destruct (PV.respond env (PV.DeleteProject id));
      repeat progress
        (cbn [PV.throw_if_refused fst snd sc_state sc_log];
         unfold elog, ethrow, eret);
      rewrite ?fetchProjects_run; cbn [fst snd sc_state sc_log];
      rewrite <- ?app_assoc; cbn [app]; eexists; (split; [reflexivity|]);
      try (constructor; [exact I | apply fetchProjects_events_no_write]).
    repeat constructor.
  - unfold PV.deleteTask, ebind, PV.ask_confirm.
    fold task_delete_prompt. now rewrite Hc.
  - unfold PV.deleteTask, ebind at 1, PV.ask_confirm.
    fold task_delete_prompt. rewrite Hc. cbn [negb].
    unfold etry_catch, ebind, PV.ask. cbn [fst snd sc_state sc_log].
    destruct (PV.respond env (PV.DeleteTask id));
      repeat progress
        (cbn [PV.throw_if_refused fst snd sc_state sc_log];
         unfold elog, ethrow, eret);
      rewrite ?fetchTasks_run; cbn [fst snd sc_state sc_log];
      rewrite <- ?app_assoc; cbn [app]; eexists; (split; [reflexivity|]);
      try (constructor; [exact I | apply fetchTasks_events_no_write]).
    repeat constructor.
Qed.

Lemma page_deletes_need_confirmation_witness :
  PV.deleteProject page_env_refusing "p1" PV.page0
  = (Ok tt,
     mkScene (sc_state PV.page0)
             (sc_log PV.page0 ++ [EvConfirm project_delete_prompt])).
Proof.
  apply (page_deletes_need_confirmation page_env_refusing "p1" PV.page0).
  reflexivity.
Defined.


Example page_mount_with_tasks_refused :
  let env := PV.mkPageEnv
               (fun r => match r with
                         | PV.SelectProjects => PV.PageProjects []
                         | _ => PV.PageError
                         end)
               (fun _ => true) "now" (makeDate 0 0) in
  sc_log (snd (PV.mount env true PV.page0))
  = [EvReq PV.SelectProjects; EvReq PV.SelectTasks;
     EvConsole "Error fetching tasks:"].
Proof. vm_compute. reflexivity. Qed.

(** The two orders of arrival differ in the order of what is reported. *)
Example page_mount_with_both_refused :
  sc_log (snd (PV.mount page_env_refusing false PV.page0))
  = [EvReq PV.SelectProjects; EvReq PV.SelectTasks;
     EvConsole "Error fetching projects:"; EvError "Failed to load projects";
     EvConsole "Error fetching tasks:"]
  /\ sc_log (snd (PV.mount page_env_refusing true PV.page0))
     = [EvReq PV.SelectProjects; EvReq PV.SelectTasks;
        EvConsole "Error fetching tasks:";
        EvConsole "Error fetching projects:"; EvError "Failed to load projects"].
Proof. vm_compute. split; reflexivity. Qed.

(** X17.  Saving a project or a task.  When the backend refuses the
    write, the page state is exactly as before (the form stays open) and
    the toast is "Failed to save project", respectively
    "Failed to save task", for create and update alike.  When it accepts,
    the project form is closed (no project in edit, no new-project form)
    and only the projects are fetched again; for a task, the new-task
    form is closed, the selected project stays selected and only the
    tasks are fetched again. *)
Theorem page_save_outcomes
        (env : PV.PageEnv) (s : Scene PV.PageRequest PV.PageState) :
  (forall projectData,
      (PV.respond env (save_project_request env projectData) = PV.PageError ->
       PV.saveProject env projectData s
       = (Ok tt,
          mkScene (sc_state s)
                  (sc_log s ++ [ EvReq (save_project_request env projectData);
                                 EvConsole "Error saving project:";
                                 EvError "Failed to save project" ])))
      /\ (PV.respond env (save_project_request env projectData) <> PV.PageError ->
          let s' := snd (PV.saveProject env projectData s) in
          PV.editingProject (sc_state s') = None
          /\ PV.showNewProject (sc_state s') = false
          /\ PV.loading (sc_state s') = false
          /\ PV.tasks (sc_state s') = PV.tasks (sc_state s)
          /\ exists evs,
               sc_log s' = (sc_log s ++ evs)%list
               /\ sent evs = [save_project_request env projectData;
                              PV.SelectProjects]))
  /\ (forall taskData,
         (PV.respond env (save_task_request env taskData) = PV.PageError ->
          PV.saveTask env taskData s
          = (Ok tt,
             mkScene (sc_state s)
                     (sc_log s ++ [ EvReq (save_task_request env taskData);
                                    EvConsole "Error saving task:";
                                    EvError "Failed to save task" ])))
         /\ (PV.respond env (save_task_request env taskData) <> PV.PageError ->
             let s' := snd (PV.saveTask env taskData s) in
             PV.showNewTask (sc_state s') = false
             /\ PV.selectedProject (sc_state s') = PV.selectedProject (sc_state s)
             /\ PV.projects (sc_state s') = PV.projects (sc_state s)
             /\ exists evs,
                  sc_log s' = (sc_log s ++ evs)%list
                  /\ sent evs = [save_task_request env taskData;
                                 PV.SelectTasks])).
Proof.
  split.
  - intros projectData. split; intros Hr; rewrite saveProject_run.
    + now rewrite Hr.
    + cbv zeta.
      destruct (PV.respond env (save_project_request env projectData));
        [contradiction | ..];
        cbn [snd sc_state sc_log after_fetchProjects project_forms_closed
             PV.editingProject PV.showNewProject PV.loading PV.tasks];
        (repeat split; try reflexivity);
        eexists; (split; [reflexivity|]);
        unfold fetchProjects_events;
        destruct (PV.respond env PV.SelectProjects); reflexivity.
  - intros taskData. split; intros Hr; rewrite saveTask_run.
    + now rewrite Hr.
    + cbv zeta.
      destruct (PV.respond env (save_task_request env taskData));
        [contradiction | ..];
        cbn [snd sc_state sc_log];
        unfold after_fetchTasks, fetchTasks_events;
        destruct (PV.respond env PV.SelectTasks);
        cbn; (repeat split; try reflexivity);
        eexists; (split; [reflexivity|]); reflexivity.
Qed.

Lemma page_save_outcomes_witness :
  PV.saveTask page_env_refusing
              (PV.task_data_of_form "p1" None (PV.mkTaskFormData "Design" "" []))
              PV.page0
  = (Ok tt,
     mkScene (sc_state PV.page0)
             (sc_log PV.page0
              ++ [ EvReq (save_task_request
                            page_env_refusing
                            (PV.task_data_of_form
                               "p1" None (PV.mkTaskFormData "Design" "" [])));
                   EvConsole "Error saving task:";
                   EvError "Failed to save task" ])).
Proof.
  destruct (page_save_outcomes page_env_refusing PV.page0) as [_ Htask].
  apply (Htask (PV.task_data_of_form "p1" None (PV.mkTaskFormData "Design" "" []))).
  reflexivity.
Defined.

(** ** The application shell *)

(** X18.  [App] and [Layout] hold separate users.  For every user signed
    in to [App], whatever user [Layout] holds (none at its first render,
    when it offers time tracking and projects only, whatever the role),
    and for every item [Layout] offers: once the view is set to the
    item's id, the layout highlights that item and no other, and the
    content shown is the item's own view.  The view the application
    starts with is always offered.  While [App] is loading the spinner
    is shown, and without a user the sign-in form, whatever the current
    view. *)
Theorem app_shows_the_clicked_item
        (u : User) (layoutUser : option User) (item : NavItem)
        (currentView : string) :
  In item (navigation layoutUser) ->
  App_render (Some u) false (nav_id item) layoutUser
  = ScreenLayout
      (navigation layoutUser) [nav_id item]
      (match capability_of (nav_id item) with
       | Some projects => ContentProjects
       | Some analytics => ContentAnalyticsSoon
       | Some management => ContentManagementSoon
       | _ => ContentTimeTracking
       end)
  /\ capability_of (nav_id item) <> None
  /\ In initialView (map nav_id (navigation layoutUser))
  /\ map nav_id (navigation None) = ["timetracking"; "projects"]
  /\ App_render (Some u) true currentView layoutUser = ScreenSpinner
  /\ App_render None false currentView layoutUser = ScreenAuthForm.
Proof.
  intros Hin. destruct layoutUser as [[i e n r]|].
  - destruct r; cbn in Hin;
      repeat (destruct Hin as [<-|Hin]; [cbn; repeat split; auto; discriminate|]);
      contradiction.
  - cbn in Hin.
    repeat (destruct Hin as [<-|Hin]; [cbn; repeat split; auto; discriminate|]);
      contradiction.
Qed.

Lemma app_shows_the_clicked_item_witness :
  App_render (Some user_ann) false "projects" None
  = ScreenLayout (navigation None) ["projects"] ContentProjects.
Proof.
  apply (app_shows_the_clicked_item
           user_ann None (mkNavItem "projects" "Projects" FolderOpen) "projects").
  cbn. right. left. reflexivity.
Defined.

(** A manager who has just signed in: [App] already shows the layout,
    while [Layout], whose own session check has not ended, offers two
    items; the view of an id it does not offer is shown all the same. *)
Example layout_first_render_for_a_manager :
  App_render (Some (mkUser "u9" "max@example.com" "Max" RoleManager)) false
             "management" None
  = ScreenLayout
      [ mkNavItem "timetracking" "Time Tracking" Clock;
        mkNavItem "projects" "Projects" FolderOpen ]
      [] ContentManagementSoon.
Proof. reflexivity. Qed.

(** ** The session hook *)

Ltac run_hook :=
  unfold AH.checkSession, AH.onAuthStateChange, AH.signOut;
  unfold AH.fetchUserProfile;
  unfold AH.setUser, AH.setLoading, etry_finally, etry_catch, ebind,
    eret, ethrow, elog, emodify;
  cbn [fst snd sc_state sc_log AH.user AH.loading].

(** X19.  [checkSession] always ends with [loading] false.  It first
    asks for the session; only a session with a non-empty email leads to
    the profile lookup for that email, after which the user is the row
    found, or null when the lookup fails.  In every other case (the call
    rejects, no session, no email) the user is left as it was. *)
Theorem checkSession_outcomes
        (env : AH.AuthEnv) (s : Scene AH.AuthRequest AH.AuthState) :
  let s' := snd (AH.checkSession env s) in
  AH.loading (sc_state s') = false
  /\ (forall email,
         AH.session env = AH.SessionOf (Some email) -> email <> "" ->
         AH.user (sc_state s') = AH.profile env email
         /\ exists evs, sc_log s' = (sc_log s ++ evs)%list
                        /\ sent evs = [AH.GetSession; AH.SelectUser email])
  /\ ((AH.session env = AH.SessionRejects
       \/ AH.session env = AH.NoSession
       \/ AH.session env = AH.SessionOf None
       \/ AH.session env = AH.SessionOf (Some "")) ->
      AH.user (sc_state s') = AH.user (sc_state s)
      /\ exists evs, sc_log s' = (sc_log s ++ evs)%list
                     /\ sent evs = [AH.GetSession]).
Proof.
  cbv zeta. split; [|split].
  - run_hook.
    destruct (AH.session env) as [| |[email|]]; try reflexivity.
    destruct (truthy email); [|reflexivity].
    run_hook. destruct (AH.profile env email); reflexivity.
  - intros email Hs Hne. run_hook. rewrite Hs, (truthy_nonblank email Hne).
    run_hook.
    destruct (AH.profile env email); cbn; rewrite <- ?app_assoc;
      (split; [reflexivity|]); eexists; (split; [reflexivity|]); reflexivity.
  - intros [Hs|[Hs|[Hs|Hs]]]; run_hook; rewrite Hs; cbn;
      rewrite <- ?app_assoc;
      (split; [reflexivity|]); eexists; (split; [reflexivity|]); reflexivity.
Qed.

Lemma checkSession_outcomes_witness :
  AH.user (sc_state (snd (AH.checkSession
                            (AH.mkAuthEnv (AH.SessionOf (Some "ann@example.com"))
                                          (fun _ => None) AH.SignOutRejects)
                            (mkScene (AH.mkAuthState (Some user_ann) true) []))))
  = None.
Proof.
  destruct (checkSession_outcomes
              (AH.mkAuthEnv (AH.SessionOf (Some "ann@example.com"))
                            (fun _ => None) AH.SignOutRejects)
              (mkScene (AH.mkAuthState (Some user_ann) true) []))
    as (_ & Hin & _).
  apply (Hin "ann@example.com"); [reflexivity | discriminate].
Defined.

(** X20.  The listener for auth events always ends with [loading]
    false.  On SIGNED_IN with a session user it looks the profile up and
    sets the user to the row found, or to null when the lookup fails; on
    SIGNED_OUT it sets the user to null and sends nothing; on any other
    event, and on SIGNED_IN without a session user, the user is left as
    it was and nothing is sent. *)
Theorem auth_listener_outcomes
        (env : AH.AuthEnv) (s : Scene AH.AuthRequest AH.AuthState)
        (event : AH.AuthEvent) :
  let s' := snd (AH.onAuthStateChange env event s) in
  AH.loading (sc_state s') = false
  /\ exists evs,
       sc_log s' = (sc_log s ++ evs)%list
       /\ match event with
          | AH.SIGNED_IN (Some email) =>
              AH.user (sc_state s') = AH.profile env email
              /\ sent evs = [AH.SelectUser email]
          | AH.SIGNED_OUT => AH.user (sc_state s') = None /\ evs = []
          | _ => AH.user (sc_state s') = AH.user (sc_state s) /\ evs = []
          end.
Proof.
  cbv zeta. destruct event as [[email|]| |]; run_hook.
  - destruct (AH.profile env email); cbn; rewrite <- ?app_assoc;
      (split; [reflexivity|]); eexists; (split; [reflexivity|]);
      split; reflexivity.
  - split; [reflexivity|]. exists []. now rewrite app_nil_r.
  - split; [reflexivity|]. exists []. now rewrite app_nil_r.
  - split; [reflexivity|]. exists []. now rewrite app_nil_r.
Qed.

(** X21.  [signOut]: when the call to the identity provider rejects,
    the user stays signed in and "Failed to sign out" is shown; when it
    resolves, the user is set to null and "Signed out successfully" is
    shown, also when the result it resolved to holds an error, which the
    hook does not inspect. *)
Theorem signOut_outcomes
        (env : AH.AuthEnv) (s : Scene AH.AuthRequest AH.AuthState) :
  (AH.signOut_answer env = AH.SignOutRejects ->
   AH.signOut env s
   = (Ok tt,
      mkScene (sc_state s)
              (sc_log s ++ [ EvReq AH.AuthSignOut;
                             EvConsole "Error signing out:";
                             EvError "Failed to sign out" ])))
  /\ (forall error,
         AH.signOut_answer env = AH.SignOutResolves error ->
         AH.signOut env s
         = (Ok tt,
            mkScene (AH.mkAuthState None (AH.loading (sc_state s)))
                    (sc_log s ++ [ EvReq AH.AuthSignOut;
                                   EvSuccess "Signed out successfully" ]))).
Proof.
  split.
  - intros Ha. run_hook. rewrite Ha. cbn. now rewrite <- !app_assoc.
  - intros error Ha. run_hook. rewrite Ha. cbn. now rewrite <- !app_assoc.
Qed.

Lemma signOut_outcomes_witness :
  AH.signOut (AH.mkAuthEnv AH.NoSession (fun _ => None) (AH.SignOutResolves true))
             (mkScene (AH.mkAuthState (Some user_ann) false) [])
  = (Ok tt,
     mkScene (AH.mkAuthState None false)
             ([] ++ [ EvReq AH.AuthSignOut;
                      EvSuccess "Signed out successfully" ])).
Proof.
  apply (proj2 (signOut_outcomes
                  (AH.mkAuthEnv AH.NoSession (fun _ => None) (AH.SignOutResolves true))
                  (mkScene (AH.mkAuthState (Some user_ann) false) []))
               true).
  reflexivity.
Defined.

(** ** One column per day *)

Lemma year_of_era_bounds (doe : Z) :
  0 <= doe < 146097 ->
  let yoe := (doe - doe / 1460 + doe / 36524 - doe / 146096) / 365 in
  0 <= yoe <= 399 /\ 0 <= doe - (365 * yoe + yoe / 4 - yoe / 100) <= 365.
Proof. intros H. cbv zeta. Z.div_mod_to_equations. lia. Qed.

(** The calendar conversions are inverse to each other, and months and
    days of the month are in their ranges. *)
Lemma civil_round_trip (n : Z) :
  let '(y, m, d) := civil_from_days n in
  days_from_civil y m d = n /\ 1 <= m <= 12 /\ 1 <= d <= 31.
Proof.
  unfold civil_from_days.
  set (z := n + 719468).
  set (era := z / 146097).
  set (doe := z - era * 146097).
  assert (Hdoe : 0 <= doe < 146097).
  { subst doe era. pose proof (Z.div_mod z 146097).
    pose proof (Z.mod_pos_bound z 146097). lia. }
  pose proof (year_of_era_bounds doe Hdoe) as Hy. cbv zeta in Hy.
  set (yoe := (doe - doe / 1460 + doe / 36524 - doe / 146096) / 365) in *.
  set (doy := doe - (365 * yoe + yoe / 4 - yoe / 100)) in *.
  destruct Hy as [Hyoe Hdoy].
  set (mp := (5 * doy + 2) / 153).
  assert (Hmp : 0 <= mp <= 11).
  { subst mp. split.
    - apply Z.div_pos; lia.
    - apply Z.lt_succ_r. apply Z.div_lt_upper_bound; lia. }
  assert (Hd : 1 <= doy - (153 * mp + 2) / 5 + 1 <= 31).
  { subst mp. clearbody doy. clear -Hdoy. Z.div_mod_to_equations. lia. }
  assert (Hera : forall k, 0 <= k <= 399 -> (k + era * 400) / 400 = era).
  { intros k Hk. rewrite Z.div_add by lia. rewrite Z.div_small by lia. lia. }
  destruct (mp <? 10) eqn:Hlt.
  - apply Z.ltb_lt in Hlt.
    replace (mp + 3 <=? 2) with false by (symmetry; apply Z.leb_gt; lia).
    unfold days_from_civil.
    replace (mp + 3 <=? 2) with false by (symmetry; apply Z.leb_gt; lia).
    replace (mp + 3 >? 2) with true by (symmetry; apply Z.gtb_lt; lia).
    rewrite (Hera yoe Hyoe).
    replace (yoe + era * 400 - era * 400) with yoe by lia.
    replace (mp + 3 - 3) with mp by lia.
    split; [|lia]. subst doy doe z. lia.
  - apply Z.ltb_ge in Hlt.
    replace (mp - 9 <=? 2) with true by (symmetry; apply Z.leb_le; lia).
    unfold days_from_civil.
    replace (mp - 9 <=? 2) with true by (symmetry; apply Z.leb_le; lia).
    replace (mp - 9 >? 2) with false
      by (rewrite Z.gtb_ltb; symmetry; apply Z.ltb_ge; lia).
    replace (yoe + era * 400 + 1 - 1) with (yoe + era * 400) by lia.
    rewrite (Hera yoe Hyoe).
    replace (yoe + era * 400 - era * 400) with yoe by lia.
    replace (mp - 9 + 9) with mp by lia.
    split; [|lia]. subst doy doe z. lia.
Qed.

Lemma digit_of_digit_char (k : Z) : 0 <= k <= 9 -> digit_of (digit_char k) = Some k.
Proof.
  intros H.
  assert (Hk : k = 0 \/ k = 1 \/ k = 2 \/ k = 3 \/ k = 4 \/ k = 5 \/ k = 6
               \/ k = 7 \/ k = 8 \/ k = 9) by lia.
  repeat (destruct Hk as [->|Hk]; [reflexivity|]). now subst.
Qed.

Lemma two_digits_pad2 (n : Z) (rest : string) :
  0 <= n < 100 ->
  two_digits (String (digit_char (n / 10)) (String (digit_char (n mod 10)) rest))
  = Some (n, rest).
Proof.
  intros H. cbn [two_digits].
  rewrite !digit_of_digit_char.
  - f_equal. f_equal. pose proof (Z.div_mod n 10). lia.
  - pose proof (Z.mod_pos_bound n 10). lia.
  - split; [apply Z.div_pos; lia|].
    apply Z.lt_succ_r, Z.div_lt_upper_bound; lia.
Qed.

Lemma read_ymd_of_format (y m d : Z) :
  0 <= y <= 9999 -> 0 <= m < 100 -> 0 <= d < 100 ->
  read_ymd (pad4 y ++ "-" ++ pad2 m ++ "-" ++ pad2 d) = Some (y, m, d).
Proof.
  intros Hy Hm Hd. unfold read_ymd, pad4, pad2. cbn [append].
  assert (Hc : 0 <= y / 100 < 100).
  { split; [apply Z.div_pos; lia|]. apply Z.div_lt_upper_bound; lia. }
  assert (Hyy : 0 <= y mod 100 < 100) by (apply Z.mod_pos_bound; lia).
  rewrite (two_digits_pad2 _ _ Hc), (two_digits_pad2 _ _ Hyy).
  rewrite (two_digits_pad2 _ _ Hm), (two_digits_pad2 _ _ Hd).
  f_equal. f_equal. f_equal. pose proof (Z.div_mod y 100). lia.
Qed.

Lemma NoDup_map_on {A B : Type} (f : A -> B) (l : list A) :
  (forall x y, In x l -> In y l -> f x = f y -> x = y) ->
  NoDup l -> NoDup (map f l).
Proof.
  induction l as [|c r IH]; intros Hinj Hnd; cbn [map].
  - constructor.
  - inversion Hnd as [|? ? Hnotin Hr]; subst. constructor.
    + intros Hin. apply in_map_iff in Hin. destruct Hin as (c' & Heq & Hc').
      assert (c' = c) by (apply Hinj; [now right | now left | exact Heq]).
      subst c'. contradiction.
    + apply IH; [|exact Hr].
      intros x y Hx Hy. apply Hinj; now right.
Qed.

Lemma format_determines_day (d1 d2 : Date) :
  1 <= getFullYear d1 <= 9999 ->
  1 <= getFullYear d2 <= 9999 ->
  format_yyyy_MM_dd d1 = format_yyyy_MM_dd d2 ->
  dayNumber d1 = dayNumber d2.
Proof.
  unfold getFullYear, format_yyyy_MM_dd.
  pose proof (civil_round_trip (dayNumber d1)) as H1.
  pose proof (civil_round_trip (dayNumber d2)) as H2.
  destruct (civil_from_days (dayNumber d1)) as [[y1 m1] dd1].
  destruct (civil_from_days (dayNumber d2)) as [[y2 m2] dd2].
  destruct H1 as (R1 & Hm1 & Hd1). destruct H2 as (R2 & Hm2 & Hd2).
  intros Hy1 Hy2 Heq.
  replace (0 <? y1) with true in Heq by (symmetry; apply Z.ltb_lt; lia).
  replace (0 <? y2) with true in Heq by (symmetry; apply Z.ltb_lt; lia).
  unfold addLeadingZeros4 in Heq.
  replace (y1 <? 10000) with true in Heq by (symmetry; apply Z.ltb_lt; lia).
  replace (y2 <? 10000) with true in Heq by (symmetry; apply Z.ltb_lt; lia).
  apply (f_equal read_ymd) in Heq.
  rewrite !read_ymd_of_format in Heq by lia.
  injection Heq as -> -> ->. congruence.
Qed.

(** X22.  For dates in the years 1 to 9999, two days with the same
    ['yyyy-MM-dd'] text are the same day.  Hence the seven columns of the
    week grid carry seven different date texts, and a fetched entry is
    listed in at most one of them. *)
Theorem an_entry_shows_in_at_most_one_column
        (env : Env) (D : Date) (timeEntries : list TimeEntry) :
  Forall (fun day => 1 <= getFullYear day <= 9999) (week_columns env D) ->
  NoDup (map format_yyyy_MM_dd (week_columns env D))
  /\ (forall e day1 day2,
         In day1 (week_columns env D) -> In day2 (week_columns env D) ->
         In e (getEntriesForDay timeEntries day1) ->
         In e (getEntriesForDay timeEntries day2) ->
         day1 = day2).
Proof.
  intros Hyears.
  assert (H0 : 0 <= 0 < millisecondsInDay) by (unfold millisecondsInDay; lia).
  destruct (week_columns_facts env D) as (_ & _ & _ & Hstart).
  set (s := dayNumber (weekStart env D)) in *.
  assert (Hcols : week_columns env D
                  = map (fun i => makeDate (s + i) 0) [0; 1; 2; 3; 4; 5; 6]).
  { unfold week_columns. rewrite Hstart. cbn [map].
    rewrite !addDays_makeDate by assumption. reflexivity. }
  assert (Hsame : forall day1 day2,
             In day1 (week_columns env D) -> In day2 (week_columns env D) ->
             format_yyyy_MM_dd day1 = format_yyyy_MM_dd day2 -> day1 = day2).
  { intros day1 day2 H1 H2 Heq.
    assert (Hn : dayNumber day1 = dayNumber day2).
    { rewrite Forall_forall in Hyears.
      apply format_determines_day; auto. }
    rewrite Hcols in H1, H2.
    apply in_map_iff in H1. destruct H1 as (i & <- & _).
    apply in_map_iff in H2. destruct H2 as (j & <- & _).
    rewrite !dayNumber_makeDate in Hn by assumption. f_equal. lia. }
  split.
  - apply NoDup_map_on; [exact Hsame|].
    rewrite Hcols. apply NoDup_map_on.
    + intros i j _ _ Hij. apply (f_equal dayNumber) in Hij.
      rewrite !dayNumber_makeDate in Hij by assumption. lia.
    + repeat constructor; cbn; intuition discriminate.
  - intros e day1 day2 H1 H2 He1 He2.
    apply Hsame; try assumption.
    unfold getEntriesForDay in He1, He2.
    apply filter_In in He1, He2.
    destruct He1 as [_ He1]. destruct He2 as [_ He2].
    apply String.eqb_eq in He1, He2. congruence.
Qed.

Lemma an_entry_shows_in_at_most_one_column_witness :
  NoDup (map format_yyyy_MM_dd (week_columns env_ok (makeDate 19782 34200000))).
Proof.
  apply (an_entry_shows_in_at_most_one_column
           env_ok (makeDate 19782 34200000) []).
  unfold week_columns. cbn [map].
  repeat (apply Forall_cons; [split; vm_compute; discriminate|]).
  apply Forall_nil.
Defined.

(** ** Times that carry seconds *)

Lemma with_seconds_all :
  forallb (fun h => forallb (fun m => forallb (with_seconds_is_invalid h m)
                                              (upto 60))
                            (upto 60))
          (upto 24)
  = true.
Proof. vm_compute. reflexivity. Qed.

Lemma parseISO_with_seconds (tzOffset h m s : Z) :
  0 <= h < 24 -> 0 <= m < 60 -> 0 <= s < 60 ->
  parseISO tzOffset ("2000-01-01T" ++ hhmmss h m s ++ ":00") = None.
Proof.
  intros Hh Hm Hs.
  pose proof (proj1 (forallb_forall _ _) with_seconds_all h (in_upto 24 h Hh))
    as H1. cbv beta in H1.
  pose proof (proj1 (forallb_forall _ _) H1 m (in_upto 60 m Hm)) as H2.
  cbv beta in H2.
  pose proof (proj1 (forallb_forall _ _) H2 s (in_upto 60 s Hs)) as H3.
  unfold with_seconds_is_invalid in H3. unfold parseISO.
  destruct (parseISO_reading ("2000-01-01T" ++ hhmmss h m s ++ ":00"));
    [discriminate | reflexivity].
Qed.

(** X23.  [calculateHours] appends ":00" to each time, so a time that
    already carries seconds (HH:MM:SS) makes an invalid date and the
    duration NaN, whatever the other time is.  In particular the edit
    form of an entry whose stored times carry seconds, saved without
    touching the times, sends NaN as hours. *)
Theorem time_with_seconds_gives_NaN
        (env : Env) (h m s : Z) (other : string) :
  0 <= h < 24 -> 0 <= m < 60 -> 0 <= s < 60 ->
  calculateHours env (hhmmss h m s) other = NaN
  /\ calculateHours env other (hhmmss h m s) = NaN
  /\ (forall user entry,
         te_start_time entry = hhmmss h m s ->
         request_hours
           (save_request env user (entry_of_card entry (initialFormData entry)))
         = Some NaN).
Proof.
  intros Hh Hm Hs.
  assert (Hp : parseISO (tz env) ("2000-01-01T" ++ hhmmss h m s ++ ":00") = None)
    by (apply parseISO_with_seconds; lia).
  assert (H1 : forall t, calculateHours env (hhmmss h m s) t = NaN).
  { intros t. unfold calculateHours. rewrite Hp. cbn [getTime_number].
    now destruct (getTime_number (tz env) _). }
  split; [apply H1|]. split.
  - unfold calculateHours. rewrite Hp. cbn [getTime_number].
    now destruct (getTime_number (tz env) _).
  - intros user entry Hst. unfold save_request, entry_of_card, initialFormData.
    cbn [in_id in_start_time in_end_time template fd_start_time fd_end_time].
    rewrite Hst, H1.
    now destruct (or_null (Some (te_id entry))).
Qed.

Lemma time_with_seconds_gives_NaN_witness :
  calculateHours env_ok (hhmmss 9 0 0) "10:30" = NaN
  /\ calculateHours env_ok "10:30" (hhmmss 9 0 0) = NaN
  /\ (forall user entry,
         te_start_time entry = hhmmss 9 0 0 ->
         request_hours
           (save_request env_ok user (entry_of_card entry (initialFormData entry)))
         = Some NaN).
Proof.
  apply (time_with_seconds_gives_NaN env_ok 9 0 0 "10:30"); lia.
Defined.

Lemma fetchData_stops_at_first_refusal_witness :
  v_loading (w_view (snd (fetchData env_ok world0))) = false
  /\ w_db (snd (fetchData env_ok world0)) = w_db world0.
Proof.
  destruct (fetchData_stops_at_first_refusal env_ok world0 user_ann eq_refl)
    as (Hl & Hdb & _).
  split; [exact Hl | exact Hdb].
Defined.

